(** * gpu_monitor: the peer liveness monitor of [monitor_v2.py]

    A shallow embedding of the monitoring engine: the prober
    ([check_external_connectivity], [ping_peer]), the notifier
    ([send_slack_alert]), the isolation detector and the per-peer
    crash/recovery engine of [monitor_peers], the start-up code of
    [lifespan], and the parsing of [TARGETS] and [SLACK_WEBHOOK_URL].

    Modelling conventions.
    - A [datetime] is the number of microseconds since the Unix epoch, a [Z];
      a [timedelta] is a difference of two such numbers.
    - The program is sequential code over an outside world (network, clock,
      MongoDB, Slack).  It is written in a state-and-exception monad [M]
      over a [World]; what the outside answers is read from an [Env], an
      oracle indexed by the number of requests made so far.
    - Everything the program does to the outside is recorded, in order, in
      the [trace] of the world. *)

From Stdlib Require Import ZArith String Ascii List Lia Bool.
From stdpp Require Import base option gmap strings list pretty.

Local Open Scope string_scope.
Local Open Scope list_scope.
Local Open Scope Z_scope.

(** ** Configuration constants (lines 43-51) *)

Definition DB_NAME : string := "gpu_monitor".
Definition COLLECTION_ACTIVE : string := "crashes".
Definition COLLECTION_HISTORY : string := "crash_history".

Definition CONFIRMATION_DELAY_MINUTES : Z := 3.
Definition REMINDER_INTERVAL_HOURS : Z := 2.
Definition MAX_RETRIES : nat := 3.
Definition INITIAL_BACKOFF_SECONDS : Z := 10.
Definition GOOGLE_HEALTH_CHECK_URL : string := "https://www.google.com".

(** ** Time *)

Definition us_per_second : Z := 1000000.
Definition us_per_minute : Z := 60 * us_per_second.
Definition us_per_hour : Z := 60 * us_per_minute.

(** [timedelta(hours=h)] *)
Definition timedelta_hours (h : Z) : Z := h * us_per_hour.

(** [td.total_seconds() / 60 >= m] for an integer [m].  The quotient is a
    binary64 float; since [m] and [60 * m] are small integers and rounding is
    monotone, the comparison holds exactly when the duration is at least
    [m] minutes. *)
Definition minutes_ge (td m : Z) : bool := m * us_per_minute <=? td.

(** [int(td.total_seconds() / 60)]: truncation towards zero.  (Exact for
    every duration below a century; beyond, the float quotient may round up
    to the next whole minute.) *)
Definition int_minutes (td : Z) : Z := Z.quot td us_per_minute.

(** The proleptic Gregorian date of a day number counted from 1970-01-01. *)
Definition civil_from_days (days : Z) : Z * Z * Z :=
  let z := days + 719468 in
  let era := z / 146097 in
  let doe := z - era * 146097 in
  let yoe := (doe - doe / 1460 + doe / 36524 - doe / 146096) / 365 in
  let doy := doe - (365 * yoe + yoe / 4 - yoe / 100) in
  let mp := (5 * doy + 2) / 153 in
  let d := doy - (153 * mp + 2) / 5 + 1 in
  let m := if mp <? 10 then mp + 3 else mp - 9 in
  let y := yoe + era * 400 in
  (if m <=? 2 then y + 1 else y, m, d).

Fixpoint zero_pad (width : nat) (s : string) : string :=
  match width with
  | O => s
  | S w => if (String.length s <? width)%nat then zero_pad w ("0" +:+ s) else s
  end.

Definition digits (width : nat) (n : Z) : string := zero_pad width (pretty n).

(** [t.strftime('%Y%m%d_%H%M%S')] for a UTC datetime [t]. *)
Definition strftime (t : Z) : string :=
  let secs := t / us_per_second in
  let '(y, m, d) := civil_from_days (secs / 86400) in
  let sod := secs mod 86400 in
  digits 4 y +:+ digits 2 m +:+ digits 2 d +:+ "_" +:+
  digits 2 (sod / 3600) +:+ digits 2 (sod mod 3600 / 60) +:+ digits 2 (sod mod 60).

(** What MongoDB keeps of a datetime: BSON dates count milliseconds, and the
    driver drops the sub-millisecond part on write. *)
Definition bson_datetime (t : Z) : Z := t / 1000 * 1000.

(** ** Data model *)

(** An entry of [TARGETS]: [{"ip": ..., "name": ...}]. *)
Record Target := { ip : string; name : string }.

(** A document of the [crashes] collection, keyed by the peer's ip. *)
Record Incident := {
  status : string;
  target_name : string;
  down_since : Z;
  last_alert_sent_at : option Z;
  witnesses : list string;
}.

(** A document of the [crash_history] collection: the copied incident with
    [status] overwritten, and [recovered_at] added. *)
Record Archive := {
  incident : Incident;
  recovered_at : Z;
}.

(** Exceptions (subclasses of [Exception]) with their [str]. *)
Inductive exn :=
| PyMongoError (msg : string)
| HTTPError (msg : string).

Definition str (e : exn) : string :=
  match e with PyMongoError m => m | HTTPError m => m end.

(** The answer to an HTTP request: a response with its status code, or an
    exception of the client (connection error, timeout, ...). *)
Inductive http_reply :=
| Response (status_code : Z)
| Failure (msg : string).

(** The outside: the answer to the n-th HTTP request (given its url), the
    n-th reading of the clock, and whether the n-th store request raises
    ([Some msg]: a [PyMongoError] with that message). *)
Record Env := {
  http : nat → string → http_reply;
  clock : nat → Z;
  mongo : nat → option string;
}.

Inductive level := INFO | WARNING | ERROR.

(** What the program does, as the outside sees it.  [EvAlert] is a call of
    [send_slack_alert] with its message (the notifier's interface); the
    [EvPost]s that follow it are the deliveries to the webhooks. *)

Inductive Event :=
| EvGet (url : string) (timeout : Z) (r : http_reply)
| EvPost (url : string) (text : string) (r : http_reply)
| EvSleep (seconds : Z)
| EvLog (l : level) (msg : string)
| EvAlert (message : string)
| EvFind (id : string)
| EvDelete (id : string)
| EvUpdate (id : string)
| EvInsert (id : string)
| EvConnect.

Record World := {
  crashes : gmap string Incident;
  crash_history : gmap string Archive;
  active_collection : option string;
  history_collection : option string;
  trace : list Event;
  n_http : nat;
  n_clock : nat;
  n_store : nat;
}.


(** ** The monad of the program *)

Inductive result (A : Type) :=
| Ok (a : A)
| Raise (e : exn).
Arguments Ok {A} a.
Arguments Raise {A} e.

Definition M (A : Type) : Type := Env → World → result A * World.

Global Instance M_ret : MRet M := λ A a _ w, (Ok a, w).

Global Instance M_bind : MBind M := λ A B k m env w,
  match m env w with
  | (Ok a, w') => k a env w'
  | (Raise e, w') => (Raise e, w')
  end.

(** [try: body / except Exception as e: handler e] *)
Definition try_except {A} (body : M A) (handler : exn → M A) : M A :=
  λ env w,
    match body env w with
    | (Ok a, w') => (Ok a, w')
    | (Raise e, w') => handler e env w'
    end.

(** [for x in xs: body x] *)
Fixpoint for_each {A} (xs : list A) (body : A → M unit) : M unit :=
  match xs with
  | [] => mret tt
  | x :: rest => body x;; for_each rest body
  end.

(** *** World updates *)

Definition emit (ev : Event) (w : World) : World :=
  {| crashes := crashes w; crash_history := crash_history w;
     active_collection := active_collection w;
     history_collection := history_collection w;
     trace := trace w ++ [ev];
     n_http := n_http w; n_clock := n_clock w; n_store := n_store w |}.

Definition next_http (w : World) : World :=
  {| crashes := crashes w; crash_history := crash_history w;
     active_collection := active_collection w;
     history_collection := history_collection w;
     trace := trace w;
     n_http := S (n_http w); n_clock := n_clock w; n_store := n_store w |}.

Definition next_clock (w : World) : World :=
  {| crashes := crashes w; crash_history := crash_history w;
     active_collection := active_collection w;
     history_collection := history_collection w;
     trace := trace w;
     n_http := n_http w; n_clock := S (n_clock w); n_store := n_store w |}.

Definition next_store (w : World) : World :=
  {| crashes := crashes w; crash_history := crash_history w;
     active_collection := active_collection w;
     history_collection := history_collection w;
     trace := trace w;
     n_http := n_http w; n_clock := n_clock w; n_store := S (n_store w) |}.

Definition with_crashes (c : gmap string Incident) (w : World) : World :=
  {| crashes := c; crash_history := crash_history w;
     active_collection := active_collection w;
     history_collection := history_collection w;
     trace := trace w;
     n_http := n_http w; n_clock := n_clock w; n_store := n_store w |}.

Definition with_crash_history (h : gmap string Archive) (w : World) : World :=
  {| crashes := crashes w; crash_history := h;
     active_collection := active_collection w;
     history_collection := history_collection w;
     trace := trace w;
     n_http := n_http w; n_clock := n_clock w; n_store := n_store w |}.

Definition with_collections (a h : option string) (w : World) : World :=
  {| crashes := crashes w; crash_history := crash_history w;
     active_collection := a;
     history_collection := h;
     trace := trace w;
     n_http := n_http w; n_clock := n_clock w; n_store := n_store w |}.

(** *** Primitive operations *)

(** [await asyncio.sleep(seconds)] *)
Definition sleep (seconds : Z) : M unit := λ _ w, (Ok tt, emit (EvSleep seconds) w).

(** [logger.info / warning / error] *)
Definition log (l : level) (msg : string) : M unit := λ _ w, (Ok tt, emit (EvLog l msg) w).

(** [datetime.now(timezone.utc)] *)
Definition now : M Z := λ env w, (Ok (clock env (n_clock w)), next_clock w).

(** [await client.get(url)] on a client made with [timeout]: the status code
    of the response, or the client's exception. *)
Definition client_get (timeout : Z) (url : string) : M Z := λ env w,
  let r := http env (n_http w) url in
  let w' := next_http (emit (EvGet url timeout r) w) in
  match r with
  | Response code => (Ok code, w')
  | Failure msg => (Raise (HTTPError msg), w')
  end.

(** [await client.post(url, json={"text": message})] *)
Definition client_post (url : string) (message : string) : M unit := λ env w,
  let r := http env (n_http w) url in
  let w' := next_http (emit (EvPost url message r) w) in
  match r with
  | Response _ => (Ok tt, w')
  | Failure msg => (Raise (HTTPError msg), w')
  end.

(** Reading and setting the globals [active_collection] and
    [history_collection] (lines 55-56, 260-261). *)
Definition get_active_collection : M (option string) := λ _ w, (Ok (active_collection w), w).

Definition set_collections (a h : option string) : M unit :=
  λ _ w, (Ok tt, with_collections a h w).

(** [MongoClient(MONGO_URI, ...)] followed by [admin.command('ping')]. *)
Definition mongo_connect : M unit := λ env w,
  let w' := next_store (emit EvConnect w) in
  match mongo env (n_store w) with
  | Some msg => (Raise (PyMongoError msg), w')
  | None => (Ok tt, w')
  end.

(** A store operation: it is recorded, and raises when the store does. *)
Definition store_op {A} (ev : Event) (op : World → result A * World) : M A := λ env w,
  let w' := next_store (emit ev w) in
  match mongo env (n_store w) with
  | Some msg => (Raise (PyMongoError msg), w')
  | None => op w'
  end.

(** [active_collection.find_one({"_id": id})] *)
Definition find_one (id : string) : M (option Incident) :=
  store_op (EvFind id) (λ w, (Ok (crashes w !! id), w)).

(** [active_collection.delete_one({"_id": id})] *)
Definition delete_one (id : string) : M unit :=
  store_op (EvDelete id) (λ w, (Ok tt, with_crashes (delete id (crashes w)) w)).

(** [active_collection.update_one({"_id": id}, update, upsert=...)], the
    update being given by what it makes of the present document, if any. *)
Definition update_one (id : string) (update : option Incident → option Incident) : M unit :=
  store_op (EvUpdate id)
    (λ w, (Ok tt, with_crashes (partial_alter update id (crashes w)) w)).

(** [history_collection.insert_one(doc)] with [doc["_id"] = id]; an id
    already present is a duplicate key error. *)
Definition insert_one (id : string) (doc : Archive) : M unit :=
  store_op (EvInsert id)
    (λ w, match crash_history w !! id with
          | Some _ => (Raise (PyMongoError "duplicate key error"), w)
          | None => (Ok tt, with_crash_history (<[id := doc]> (crash_history w)) w)
          end).

(** *** The updates of the crash logic *)

(** [$addToSet] *)
Definition add_to_set (x : string) (l : list string) : list string :=
  if decide (x ∈ l) then l else l ++ [x].

(** Lines 202-209:
    [$set {status: "down", target_name}],
    [$setOnInsert {down_since: current_time, last_alert_sent_at: None}],
    [$addToSet {witnesses: MY_SERVER_ID}], with [upsert=True]. *)
Definition mark_down (name' : string) (current_time : Z) (server : string)
    (doc : option Incident) : option Incident :=
  match doc with
  | Some d =>
      Some {| status := "down"; target_name := name';
              down_since := down_since d;
              last_alert_sent_at := last_alert_sent_at d;
              witnesses := add_to_set server (witnesses d) |}
  | None =>
      Some {| status := "down"; target_name := name';
              down_since := bson_datetime current_time;
              last_alert_sent_at := None;
              witnesses := [server] |}
  end.

(** Line 241: [$set {last_alert_sent_at: current_time}], no upsert. *)
Definition mark_alerted (current_time : Z) (doc : option Incident) : option Incident :=
  match doc with
  | Some d =>
      Some {| status := status d; target_name := target_name d;
              down_since := down_since d;
              last_alert_sent_at := Some (bson_datetime current_time);
              witnesses := witnesses d |}
  | None => None
  end.

(** Lines 182-185: the archived copy of a crash record. *)
Definition archive_record (crash_record : Incident) (recovered : Z) : Archive :=
  {| incident := {| status := "resolved";
                    target_name := target_name crash_record;
                    down_since := down_since crash_record;
                    last_alert_sent_at := last_alert_sent_at crash_record;
                    witnesses := witnesses crash_record |};
     recovered_at := bson_datetime recovered |}.

Definition nl : string := String "010"%char "".

(** ** What a trace shows *)

(** The messages handed to the notifier. *)
Definition alerts (tr : list Event) : list string :=
  flat_map (λ ev, match ev with EvAlert m => [m] | _ => [] end) tr.

(** The urls probed. *)
Definition probes (tr : list Event) : list string :=
  flat_map (λ ev, match ev with EvGet url _ _ => [url] | _ => [] end) tr.

(** The store operations. *)
Definition is_store_event (ev : Event) : bool :=
  match ev with
  | EvFind _ | EvDelete _ | EvUpdate _ | EvInsert _ | EvConnect => true
  | _ => false
  end.

Definition store_events (tr : list Event) : list Event := List.filter is_store_event tr.

(** [w'] differs from [w] by HTTP requests, logs and sleeps only: the store,
    the globals and the clock are as they were. *)
Record same_store (w w' : World) : Prop := {
  same_crashes : crashes w' = crashes w;
  same_crash_history : crash_history w' = crash_history w;
  same_active_collection : active_collection w' = active_collection w;
  same_history_collection : history_collection w' = history_collection w;
  same_n_clock : n_clock w' = n_clock w;
  same_n_store : n_store w' = n_store w;
  same_store_events : store_events (trace w') = store_events (trace w);
}.

(** From [w] to [w'] the notifier was handed some more messages, all of
    which satisfy [P]. *)
Definition sends (P : string → Prop) (w w' : World) : Prop :=
  ∃ sent, alerts (trace w') = alerts (trace w) ++ sent ∧ Forall P sent.

(** Every message that [m] hands to the notifier satisfies [P]. *)
Definition emits {A} (P : string → Prop) (m : M A) : Prop :=
  ∀ env w, sends P w (m env w).2.

(** [m] never raises. *)
Definition safe {A} (m : M A) : Prop :=
  ∀ env w, ∃ a, (m env w).1 = Ok a.

(** The alerts about a peer (crash, reminder, recovery) and the
    reconnection alert start with a space; the isolation alert does not. *)
Definition starts_with_space (m : string) : Prop := ∃ rest, m = String " " rest.

(** A reply that the prober counts as alive. *)
Definition alive_reply (r : http_reply) : bool :=
  match r with
  | Response code => code =? 200
  | Failure _ => false
  end.

(** ** The configuration parsers (lines 32-41 and 62)

    The environment variables are text; [strip] stands for Python's
    [str.strip], which the parsers take as given. *)

(** [s.split(sep)] for a separator of one character. *)
Fixpoint split_on (sep : ascii) (s : string) : list string :=
  match s with
  | EmptyString => [EmptyString]
  | String a rest =>
      if decide (a = sep) then EmptyString :: split_on sep rest
      else match split_on sep rest with
           | piece :: pieces => String a piece :: pieces
           | [] => [String a EmptyString]
           end
  end.

(** The number of times [sep] occurs in [s]. *)
Fixpoint occurrences (sep : ascii) (s : string) : nat :=
  match s with
  | EmptyString => O
  | String a rest => if decide (a = sep) then S (occurrences sep rest) else occurrences sep rest
  end.

(** [sep in s] *)
Definition contains (sep : ascii) (s : string) : bool :=
  bool_decide (0 < occurrences sep s)%nat.

(** Lines 37-41: one item of [TARGETS].  [None]: the unpacking
    [ip, name = item.split("|")] raises [ValueError]. *)
Definition parse_target (strip : string → string) (item : string) : option Target :=
  if contains "|" item then
    match split_on "|" item with
    | [ip'; name'] => Some {| ip := strip ip'; name := strip name' |}
    | _ => None
    end
  else Some {| ip := strip item; name := "Unknown-GPU" |}.

(** Lines 33-41: [TARGETS] from the variable of that name.  [None]: the
    module raises at import. *)
Definition parse_targets (strip : string → string) (raw_targets : string)
    : option (list Target) :=
  if decide (raw_targets = "") then Some []
  else mapM (parse_target strip) (split_on "," raw_targets).

(** Lines 60-62: the webhooks from [SLACK_WEBHOOK_URL]. *)
Definition parse_webhooks (strip : string → string) (url : string) : list string :=
  if decide (url = "") then []
  else List.filter (λ u, negb (String.eqb u "")) (map strip (split_on "," url)).

(** [str.isspace] on the characters of ASCII. *)
Definition is_space (a : ascii) : bool :=
  let n := nat_of_ascii a in
  ((9 <=? n) && (n <=? 13) || (28 <=? n) && (n <=? 32))%nat.

Fixpoint lstrip (s : string) : string :=
  match s with
  | String a rest => if is_space a then lstrip rest else s
  | EmptyString => EmptyString
  end.

Fixpoint rstrip (s : string) : string :=
  match s with
  | String a rest =>
      match rstrip rest with
      | EmptyString => if is_space a then EmptyString else String a EmptyString
      | rest' => String a rest'
      end
  | EmptyString => EmptyString
  end.

(** [str.strip] on text whose white space is ASCII. *)
Definition ascii_strip (s : string) : string := rstrip (lstrip s).

(** ** More of what a trace shows *)

(** The deliveries to the webhooks: url and text. *)
Definition posts (tr : list Event) : list (string * string) :=
  flat_map (λ ev, match ev with EvPost url text _ => [(url, text)] | _ => [] end) tr.

(** The errors logged. *)
Definition error_logs (tr : list Event) : list string :=
  flat_map (λ ev, match ev with EvLog ERROR msg => [msg] | _ => [] end) tr.

(** The errors that the deliveries to [urls] meet, the first one being
    request number [n]: a webhook that does not answer.  (An answer of any
    status counts as delivered: the code does not look at it.) *)
Fixpoint delivery_errors (env : Env) (n : nat) (urls : list string) : list string :=
  match urls with
  | [] => []
  | url :: rest =>
      match http env n url with
      | Failure e => ["Slack Error for " +:+ url +:+ ": " +:+ e]
      | Response _ => []
      end ++ delivery_errors env (S n) rest
  end.

(** ** Invariants of the store *)

(** [P], a property of the two collections, is kept from [w] to [w']. *)
Definition kept (P : gmap string Incident → gmap string Archive → Prop)
    (w w' : World) : Prop :=
  P (crashes w) (crash_history w) → P (crashes w') (crash_history w').

(** [m] keeps [P], whatever the outside answers. *)
Definition keeps {A} (P : gmap string Incident → gmap string Archive → Prop)
    (m : M A) : Prop :=
  ∀ env w, kept P w (m env w).2.

(** [P] survives what the processing of peer [id] can do to the store. *)
Record store_stable (P : gmap string Incident → gmap string Archive → Prop)
    (id : string) : Prop := {
  stable_update : ∀ f c h, P c h → P (partial_alter f id c) h;
  stable_delete : ∀ c h, P c h → P (delete id c) h;
  stable_insert : ∀ key doc c h, h !! key = None → P c h → P c (<[key := doc]> h);
}.

(** An active incident as the engine leaves it: marked down, witnessed,
    time stamps in whole milliseconds, and alerted, if at all, no sooner than
    the confirmation delay after it began. *)
Definition incident_ok (r : Incident) : Prop :=
  status r = "down"
  ∧ witnesses r ≠ []
  ∧ bson_datetime (down_since r) = down_since r
  ∧ match last_alert_sent_at r with
    | Some T => down_since r + CONFIRMATION_DELAY_MINUTES * us_per_minute ≤ T
    | None => True
    end.

(** An archived incident: resolved, and at least one minute long. *)
Definition archive_ok (h : Archive) : Prop :=
  status (incident h) = "resolved"
  ∧ witnesses (incident h) ≠ []
  ∧ down_since (incident h) + us_per_minute ≤ recovered_at h.

Definition store_ok (c : gmap string Incident) (h : gmap string Archive) : Prop :=
  map_Forall (λ _ r, incident_ok r) c ∧ map_Forall (λ _ a, archive_ok a) h.

(** [m] makes at most [k] requests to the store. *)
Definition store_requests {A} (k : nat) (m : M A) : Prop :=
  ∀ env w, (n_store w ≤ n_store (m env w).2 ≤ n_store w + k)%nat.

(** The alerts about a peer, by their first words. *)
Definition peer_alert (m : string) : Prop :=
  ∃ rest, m = " *RECOVERY:* " +:+ rest
          ∨ m = " *CRASH ALERT:* " +:+ rest
          ∨ m = " *REMINDER:* " +:+ rest.

(** ** The program *)

Section Monitor.

(** The configuration read from the environment at import (lines 27-41).
    [webhooks] is the list of line 62, the non-empty stripped pieces of
    [SLACK_WEBHOOK_URL] (empty when the variable is unset); [banner] is the
    start-up message of line 90. *)
Context (HEALTH_PORT : Z) (MONGO_URI : string) (MY_SERVER_ID : string)
        (webhooks : list string) (TARGETS : list Target) (banner : string).

(** Lines 59-68.  [EvAlert] marks the call; with no webhook configured
    nothing is posted. *)
Definition send_slack_alert (message : string) : M unit :=
  λ env w,
    for_each webhooks (λ url,
      try_except (client_post url message)
        (λ e, log ERROR ("Slack Error for " +:+ url +:+ ": " +:+ str e)))
      env (emit (EvAlert message) w).

(** Lines 70-77. *)
Definition check_external_connectivity : M bool :=
  try_except
    (code ← client_get 3 GOOGLE_HEALTH_CHECK_URL; mret (code =? 200))
    (λ _, mret false).

(** Lines 79-85. *)
Definition ping_peer (target_url : string) : M bool :=
  try_except
    (code ← client_get 5 target_url; mret (code =? 200))
    (λ _, mret false).

(** [f"http://{ip}:{HEALTH_PORT}/health"] *)
Definition health_url (target_ip : string) : string :=
  "http://" +:+ target_ip +:+ ":" +:+ pretty HEALTH_PORT +:+ "/health".

(** Lines 108-117: the scan of all targets, from the running count and
    result dictionary. *)
Fixpoint scan (targets : list Target) (successful_pings_count : Z)
    (peer_results : gmap string bool) : M (Z * gmap string bool) :=
  match targets with
  | [] => mret (successful_pings_count, peer_results)
  | target :: rest =>
      alive ← ping_peer (health_url (ip target));
      scan rest
        (if alive : bool then successful_pings_count + 1 else successful_pings_count)
        (<[ip target := alive]> peer_results)
  end.

(** The replies that a scan of [targets] gets when it starts at request
    number [n]. *)
Fixpoint scan_replies (env : Env) (n : nat) (targets : list Target) : list http_reply :=
  match targets with
  | [] => []
  | target :: rest => http env n (health_url (ip target)) :: scan_replies env (S n) rest
  end.

(** The result dictionary of a scan of [targets] that starts at request
    number [n] with the dictionary [peer_results]. *)
Fixpoint scan_results (env : Env) (n : nat) (targets : list Target)
    (peer_results : gmap string bool) : gmap string bool :=
  match targets with
  | [] => peer_results
  | target :: rest =>
      scan_results env (S n) rest
        (<[ip target := alive_reply (http env n (health_url (ip target)))]> peer_results)
  end.

(** Line 120. *)
Definition isolated (successful_pings_count : Z) : bool :=
  (0 <? Z.of_nat (length TARGETS)) && (successful_pings_count =? 0).

(** Lines 161-167: the retries left to do, by attempt number; the result is
    the new [is_alive]. *)
Fixpoint retry (target : Target) (attempts : list nat) : M bool :=
  match attempts with
  | [] => mret false
  | attempt :: rest =>
      sleep INITIAL_BACKOFF_SECONDS;;
      alive ← ping_peer (health_url (ip target));
      if alive : bool then
        log INFO (name target +:+ " recovered on retry " +:+ pretty (S attempt) +:+ ".");;
        mret true
      else retry target rest
  end.

(** Lines 156-167: [None] is the [continue] of line 158. *)
Definition confirm (target : Target) (is_alive : bool) : M (option bool) :=
  if negb is_alive then
    connected ← check_external_connectivity;
    if negb connected then mret None
    else
      log INFO (name target +:+ " (" +:+ ip target +:+ ") failed check. Retrying...");;
      alive ← retry target (seq 0 MAX_RETRIES);
      mret (Some alive)
  else mret (Some is_alive).

(** Lines 172-194. *)
Definition recovery_logic (target : Target) : M unit :=
  crash_record ← find_one (ip target);
  match crash_record with
  | Some record =>
      recovered ← now;
      let duration_mins := int_minutes (recovered - down_since record) in
      delete_one (ip target);;
      if 1 <=? duration_mins then
        insert_one (ip target +:+ "_" +:+ strftime recovered)
                   (archive_record record recovered);;
        log INFO ("Recovery detected: " +:+ name target +:+ " (Down " +:+
                  pretty duration_mins +:+ " mins)");;
        send_slack_alert
          (" *RECOVERY:* Server *" +:+ name target +:+ "* (" +:+ ip target +:+
           ") is back online." +:+ nl +:+
           " Was down for: " +:+ pretty duration_mins +:+ " mins")
      else
        log INFO (name target +:+ " blip resolved (<1 min). No alert.")
  | None => mret tt
  end.

(** Lines 231-236. *)
Definition crash_message (target : Target) (time_down : Z) (crash_doc : Incident) : string :=
  let msg :=
    " *CRASH ALERT:* *" +:+ name target +:+ "* (" +:+ ip target +:+ ") is DOWN." +:+ nl +:+
    " Down for: " +:+ pretty (int_minutes time_down) +:+ " mins" +:+ nl +:+
    " Confirmed by: " +:+ String.concat ", " (witnesses crash_doc) in
  match last_alert_sent_at crash_doc with
  | Some _ => " *REMINDER:* " +:+ msg
  | None => msg
  end.

(** Lines 222-227. *)
Definition should_alert (current_time : Z) (crash_doc : Incident) : bool :=
  minutes_ge (current_time - down_since crash_doc) CONFIRMATION_DELAY_MINUTES &&
  match last_alert_sent_at crash_doc with
  | None => true
  | Some last_alert =>
      timedelta_hours REMINDER_INTERVAL_HOURS <? current_time - last_alert
  end.

(** Lines 198-243. *)
Definition crash_logic (target : Target) : M unit :=
  current_time ← now;
  update_one (ip target) (mark_down (name target) current_time MY_SERVER_ID);;
  crash_doc ← find_one (ip target);
  match crash_doc with
  | Some doc =>
      let time_down := current_time - down_since doc in
      if should_alert current_time doc then
        log WARNING ("Sending alert for " +:+ name target +:+ " (Down " +:+
                     pretty (int_minutes time_down) +:+ " mins)");;
        update_one (ip target) (mark_alerted current_time);;
        send_slack_alert (crash_message target time_down doc)
      else mret tt
  | None => mret tt
  end.

(** Lines 169-246: the guarded part of a peer's processing. *)
Definition guarded (target : Target) (is_alive : bool) : M unit :=
  try_except
    (if is_alive then recovery_logic target else crash_logic target)
    (λ e, log ERROR ("Error processing " +:+ name target +:+ ": " +:+ str e)).

(** A peer found down on [n] ticks in a row: what these ticks do to it. *)
Fixpoint down_ticks (target : Target) (n : nat) : M unit :=
  match n with
  | O => mret tt
  | S n' => guarded target false;; down_ticks target n'
  end.

(** Lines 148-246: one iteration of the loop over the targets. *)
Definition process_target (peer_results : gmap string bool) (target : Target) : M unit :=
  outcome ← confirm target (default false (peer_results !! ip target));
  match outcome with
  | None => mret tt
  | Some is_alive => guarded target is_alive
  end.

(** Lines 96-248: one iteration of [while True], from and to [was_isolated]. *)
Definition tick (was_isolated : bool) : M bool :=
  collection ← get_active_collection;
  match collection with
    | None =>
        log WARNING "Waiting for DB connection...";;
        sleep 30;;
        mret was_isolated
    | Some _ =>
        (connected ← check_external_connectivity;
         if negb connected then
           log WARNING "Local internet down — Pausing monitoring loop.";;
           sleep 30;;
           mret was_isolated
         else
           '(successful_pings_count, peer_results) ← scan TARGETS 0 ∅;
           let is_isolated := isolated successful_pings_count in
           if is_isolated && negb was_isolated then
             log WARNING ("ISOLATION DETECTED: " +:+ MY_SERVER_ID +:+
                          " cannot reach any peers.");;
             send_slack_alert
               ("*MONITOR ISOLATED:* *" +:+ MY_SERVER_ID +:+
                "* cannot reach ANY peers." +:+ nl +:+ "Please verify manually.");;
             sleep 30;;
             mret true
           else if is_isolated && was_isolated then
             log INFO "... still isolated.";;
             sleep 30;;
             mret was_isolated
           else
             was_isolated' ←
               (if negb is_isolated && was_isolated then
                  log INFO "Connection restored. Exiting isolation mode.";;
                  send_slack_alert
                    (" *MONITOR RECONNECTED:* *" +:+ MY_SERVER_ID +:+
                     "* has rejoined the mesh.");;
                  mret false
                else mret was_isolated);
             for_each TARGETS (process_target peer_results);;
             sleep 30;;
             mret was_isolated')
    end.

(** The first [n] iterations of the loop. *)
Fixpoint ticks (n : nat) (was_isolated : bool) : M bool :=
  match n with
  | O => mret was_isolated
  | S n' => was_isolated' ← tick was_isolated; ticks n' was_isolated'
  end.

(** Lines 88-248, cut after [n] iterations. *)
Definition monitor_peers (n : nat) : M bool :=
  sleep 5;;
  log INFO banner;;
  ticks n false.

(** Lines 254-263: the connection made at start-up. *)
Definition connect : M unit :=
  if decide (MONGO_URI = "") then mret tt
  else
    try_except
      (mongo_connect;;
       log INFO "MongoDB Connected!";;
       set_collections (Some COLLECTION_ACTIVE) (Some COLLECTION_HISTORY))
      (λ e, log ERROR ("DB Connect Fail: " +:+ str e)).

(** Lines 252-265 followed by the monitor task, cut after [n] iterations. *)
Definition lifespan (n : nat) : M bool :=
  connect;;
  monitor_peers n.

(** ** A concrete mesh

    The instance [gpu-a] watches [node-b] and [node-c]; [node-b] does not
    answer.  The clock starts on 2024-01-01 00:00:00 UTC and each reading
    comes 70 seconds after the previous one. *)

Definition node_b : Target := {| ip := "10.0.0.2"; name := "node-b" |}.
Definition node_c : Target := {| ip := "10.0.0.3"; name := "node-c" |}.

Definition midnight : Z := 1704067200 * us_per_second.

Definition node_b_down : Env := {|
  http := λ _ url,
    if decide (url = "http://10.0.0.2:8051/health") then Failure "timed out"
    else Response 200;
  clock := λ n, midnight + (Z.of_nat n + 1) * 70 * us_per_second;
  mongo := λ _, None;
|}.

(** The same, with a store that raises on its third request. *)
Definition third_request_fails : Env := {|
  http := http node_b_down;
  clock := clock node_b_down;
  mongo := λ n, if decide (n = 2%nat) then Some "connection closed" else None;
|}.

(** The same, with a store that is down for the first request only, and
    every peer answering. *)
Definition store_back_after_startup : Env := {|
  http := λ _ _, Response 200;
  clock := clock node_b_down;
  mongo := λ n, if decide (n = 0%nat) then Some "server selection timeout" else None;
|}.

(** The store answers, every peer answers, and the clock reads [secs]
    seconds past midnight. *)
Definition seconds_past_midnight (secs : Z) : Env := {|
  http := λ _ _, Response 200;
  clock := λ _, midnight + secs * us_per_second;
  mongo := λ _, None;
|}.

(** The alert channel of [gpu-a]. *)
Definition hooks : list string := ["http://hooks.example/a"].

(** The world when the process starts. *)
Definition at_startup : World := {|
  crashes := ∅; crash_history := ∅;
  active_collection := None; history_collection := None;
  trace := []; n_http := 0; n_clock := 0; n_store := 0;
|}.

(** The record of [node-b], down since midnight, not alerted yet. *)
Definition node_b_record : Incident := {|
  status := "down"; target_name := "node-b";
  down_since := midnight; last_alert_sent_at := None;
  witnesses := ["gpu-c"];
|}.

(** The same record once alerted, at three minutes past midnight. *)
Definition node_b_alerted : Incident := {|
  status := "down"; target_name := "node-b";
  down_since := midnight;
  last_alert_sent_at := Some (midnight + 180 * us_per_second);
  witnesses := ["gpu-c"; "gpu-a"];
|}.

Definition connected_with (record : Incident) : World := {|
  crashes := {[ "10.0.0.2" := record ]}; crash_history := ∅;
  active_collection := Some COLLECTION_ACTIVE;
  history_collection := Some COLLECTION_HISTORY;
  trace := []; n_http := 0; n_clock := 0; n_store := 0;
|}.

(** A clock whose readings come two hours apart. *)
Definition two_hourly : Env := {|
  http := http node_b_down;
  clock := λ n, midnight + 180 * us_per_second + (Z.of_nat n + 1) * 3600 * us_per_second;
  mongo := λ _, None;
|}.

(** The monitor itself is off the network. *)
Definition offline : Env := {|
  http := λ _ _, Failure "network unreachable";
  clock := clock node_b_down;
  mongo := λ _, None;
|}.

(** The clock of [two_hourly] with the store of [third_request_fails]. *)
Definition stamp_fails : Env := {|
  http := http node_b_down;
  clock := clock two_hourly;
  mongo := mongo third_request_fails;
|}.

(** [node-b] is down, and the history has an entry under the key that a
    recovery at 00:01:10 makes. *)
Definition recovered_before : World := {|
  crashes := {[ "10.0.0.2" := node_b_record ]};
  crash_history :=
    {[ "10.0.0.2_20240101_000110" :=
         archive_record node_b_record (midnight + 70 * us_per_second) ]};
  active_collection := Some COLLECTION_ACTIVE;
  history_collection := Some COLLECTION_HISTORY;
  trace := []; n_http := 0; n_clock := 0; n_store := 0;
|}.

(** * Verification *)

Lemma alerts_app tr1 tr2 : alerts (tr1 ++ tr2) = alerts tr1 ++ alerts tr2.
Proof. apply flat_map_app. Qed.

Lemma probes_app tr1 tr2 : probes (tr1 ++ tr2) = probes tr1 ++ probes tr2.
Proof. apply flat_map_app. Qed.

Lemma store_events_app tr1 tr2 :
  store_events (tr1 ++ tr2) = store_events tr1 ++ store_events tr2.
Proof. apply List.filter_app. Qed.

Lemma same_store_refl w : same_store w w.
Proof. by split. Qed.

Lemma same_store_trans w1 w2 w3 :
  same_store w1 w2 → same_store w2 w3 → same_store w1 w3.
Proof. intros [] []; split; congruence. Qed.

Ltac munfold :=
  unfold mbind, M_bind, mret, M_ret, try_except, sleep, log, now, client_get,
    client_post, store_op, get_active_collection, set_collections in *.

(** Closes [same_store w w'] when [w'] is [w] with events appended that are
    neither store operations nor probes. *)
Ltac same_store_by_trace :=
  split; simpl; try done;
  rewrite ?store_events_app; simpl;
  rewrite ?store_events_app; simpl;
  by rewrite ?app_nil_r.

(** ** The notifier *)

Lemma post_all message urls env w :
  ∃ w',
    for_each urls (λ url,
      try_except (client_post url message)
        (λ e, log ERROR ("Slack Error for " +:+ url +:+ ": " +:+ str e))) env w
    = (Ok tt, w')
    ∧ same_store w w'
    ∧ alerts (trace w') = alerts (trace w)
    ∧ probes (trace w') = probes (trace w)
    ∧ n_http w' = (n_http w + length urls)%nat.
Proof.
  revert w. induction urls as [|url urls IH]; intros w.
  - exists w. simpl. split_and!; [done | apply same_store_refl | done | done | lia].
  - simpl. munfold.
    destruct (http env (n_http w) url) as [code|msg] eqn:Hr;
      edestruct IH as (w' & -> & Hs & Ha & Hp & Hn); eexists; (split; [done|]);
      split_and!.
    + eapply same_store_trans; [|exact Hs]. same_store_by_trace.
    + rewrite Ha. simpl. rewrite alerts_app. simpl. by rewrite app_nil_r.
    + rewrite Hp. simpl. rewrite probes_app. simpl. by rewrite app_nil_r.
    + rewrite Hn. simpl. lia.
    + eapply same_store_trans; [|exact Hs]. same_store_by_trace.
    + rewrite Ha. simpl. rewrite !alerts_app. simpl. by rewrite !app_nil_r.
    + rewrite Hp. simpl. rewrite !probes_app. simpl. by rewrite !app_nil_r.
    + rewrite Hn. simpl. lia.
Qed.

Lemma send_slack_alert_spec message env w :
  ∃ w',
    send_slack_alert message env w = (Ok tt, w')
    ∧ same_store w w'
    ∧ alerts (trace w') = alerts (trace w) ++ [message]
    ∧ probes (trace w') = probes (trace w)
    ∧ n_http w' = (n_http w + length webhooks)%nat.
Proof.
  unfold send_slack_alert.
  destruct (post_all message webhooks env (emit (EvAlert message) w))
    as (w' & -> & Hs & Ha & Hp & Hn).
  exists w'. split_and!; [done | | | |].
  - eapply same_store_trans; [|exact Hs]. same_store_by_trace.
  - rewrite Ha. simpl. by rewrite alerts_app.
  - rewrite Hp. simpl. rewrite probes_app. simpl. by rewrite app_nil_r.
  - rewrite Hn. done.
Qed.

(** ** The prober *)

Lemma check_external_connectivity_run env w :
  let r := http env (n_http w) GOOGLE_HEALTH_CHECK_URL in
  check_external_connectivity env w
  = (Ok (alive_reply r), next_http (emit (EvGet GOOGLE_HEALTH_CHECK_URL 3 r) w)).
Proof.
  unfold check_external_connectivity. munfold.
  by destruct (http env (n_http w) GOOGLE_HEALTH_CHECK_URL).
Qed.

Lemma ping_peer_run target_url env w :
  let r := http env (n_http w) target_url in
  ping_peer target_url env w
  = (Ok (alive_reply r), next_http (emit (EvGet target_url 5 r) w)).
Proof.
  unfold ping_peer. munfold. by destruct (http env (n_http w) target_url).
Qed.

Lemma alive_reply_200 r : alive_reply r = true ↔ r = Response 200.
Proof.
  destruct r as [code|msg]; simpl; [|done].
  rewrite Z.eqb_eq. split; [by intros -> | by intros [= ->]].
Qed.

(** C9.  [check_external_connectivity] and [ping_peer] never raise; each
    returns [True] exactly when its GET is answered by a response whose
    status code is 200, and [False] on any other response or on any
    exception of the client (network error, timeout). *)
Theorem prober_contract env w target_url :
  (∃ b w', check_external_connectivity env w = (Ok b, w')
           ∧ (b = true ↔ http env (n_http w) GOOGLE_HEALTH_CHECK_URL = Response 200))
  ∧ (∃ b w', ping_peer target_url env w = (Ok b, w')
             ∧ (b = true ↔ http env (n_http w) target_url = Response 200)).
Proof.
  split.
  - rewrite check_external_connectivity_run. do 2 eexists. split; [done|].
    apply alive_reply_200.
  - rewrite ping_peer_run. do 2 eexists. split; [done|]. apply alive_reply_200.
Qed.

(** ** The crash logic *)

(** The crash logic when the store answers its (at most three) requests. *)
Lemma crash_logic_run target env w doc :
  mongo env (n_store w) = None →
  mongo env (S (n_store w)) = None →
  mongo env (S (S (n_store w))) = None →
  let t := clock env (n_clock w) in
  mark_down (name target) t MY_SERVER_ID (crashes w !! ip target) = Some doc →
  ∃ w',
    crash_logic target env w = (Ok tt, w')
    ∧ n_clock w' = S (n_clock w)
    ∧ crash_history w' = crash_history w
    ∧ crashes w' =
        (if should_alert t doc
         then partial_alter (mark_alerted t) (ip target)
                (partial_alter (mark_down (name target) t MY_SERVER_ID) (ip target) (crashes w))
         else partial_alter (mark_down (name target) t MY_SERVER_ID) (ip target) (crashes w))
    ∧ alerts (trace w') =
        alerts (trace w) ++
        (if should_alert t doc
         then [crash_message target (t - down_since doc) doc] else []).
Proof.
  intros H0 H1 H2 t Hdoc.
  unfold crash_logic, update_one, find_one. munfold. simpl.
  rewrite H0. simpl. rewrite H1. simpl.
  rewrite lookup_partial_alter_eq. fold t. rewrite Hdoc.
  destruct (should_alert t doc) eqn:Hsa.
  - simpl. rewrite H2.
    match goal with |- context [send_slack_alert ?m ?e ?w0] =>
      destruct (send_slack_alert_spec m e w0) as (w' & -> & Hs & Ha & _) end.
    exists w'. destruct Hs. simpl in *. split_and!; try done.
    rewrite Ha, !alerts_app. simpl. by rewrite !app_nil_r.
  - eexists. split; [done|]. simpl. split_and!; try done.
    rewrite !alerts_app. simpl. by rewrite !app_nil_r.
Qed.

(** C2.  A down-tick on a peer that has an active record leaves the record
    in place with its [down_since] unchanged, whatever the store and the
    network answer: the upsert keeps [down_since] and [last_alert_sent_at] of
    a record that exists, and sets them ([down_since] to the current time,
    [last_alert_sent_at] to null) only on the record that it creates. *)
Theorem down_since_immutable target env w r :
  crashes w !! ip target = Some r →
  (∀ t, ∃ doc,
      mark_down (name target) t MY_SERVER_ID (Some r) = Some doc
      ∧ down_since doc = down_since r
      ∧ last_alert_sent_at doc = last_alert_sent_at r)
  ∧ (∀ t, ∃ doc,
      mark_down (name target) t MY_SERVER_ID None = Some doc
      ∧ down_since doc = bson_datetime t
      ∧ last_alert_sent_at doc = None)
  ∧ ∃ w' r',
      guarded target false env w = (Ok tt, w')
      ∧ crashes w' !! ip target = Some r'
      ∧ down_since r' = down_since r.
Proof.
  intros Hr. split; [|split].
  - intros t. eexists. by split.
  - intros t. eexists. by split.
  - unfold guarded, crash_logic, update_one, find_one. munfold. simpl.
    destruct (mongo env (n_store w)) as [m0|]; simpl.
    { do 2 eexists. split; [done|]. simpl. by split. }
    destruct (mongo env (S (n_store w))) as [m1|]; simpl.
    { do 2 eexists. split; [done|]. simpl.
      rewrite lookup_partial_alter_eq, Hr. by split. }
    rewrite lookup_partial_alter_eq, Hr. simpl.
    match goal with |- context [should_alert ?t ?d] => destruct (should_alert t d) end.
    + simpl. destruct (mongo env (S (S (n_store w)))) as [m2|]; simpl.
      { do 2 eexists. split; [done|]. simpl.
        rewrite lookup_partial_alter_eq, Hr. by split. }
      match goal with |- context [send_slack_alert ?m ?e ?w0] =>
        destruct (send_slack_alert_spec m e w0) as (w' & -> & Hs & _) end.
      destruct Hs as [Hc _ _ _ _ _ _]. simpl in Hc.
      do 2 eexists. split; [done|]. rewrite Hc.
      rewrite !lookup_partial_alter_eq, Hr. by split.
    + do 2 eexists. split; [done|]. simpl.
      rewrite lookup_partial_alter_eq, Hr. by split.
Qed.

Lemma add_to_set_idemp x l : add_to_set x (add_to_set x l) = add_to_set x l.
Proof.
  unfold add_to_set. destruct (decide (x ∈ l)) as [Hin|Hnin].
  - by rewrite decide_True.
  - rewrite decide_True; [done|]. set_solver.
Qed.

(** A down-tick on which the timing policy says no: nothing is sent,
    whatever the store and the network answer. *)
Lemma guarded_down_silent target env w r :
  crashes w !! ip target = Some r →
  should_alert (clock env (n_clock w)) r = false →
  ∃ w', guarded target false env w = (Ok tt, w')
        ∧ alerts (trace w') = alerts (trace w).
Proof.
  intros Hr Hsa.
  unfold guarded, crash_logic, update_one, find_one. munfold. simpl.
  destruct (mongo env (n_store w)) as [m0|]; simpl.
  { eexists. split; [done|]. simpl. rewrite !alerts_app. simpl.
    by rewrite !app_nil_r. }
  destruct (mongo env (S (n_store w))) as [m1|]; simpl.
  { eexists. split; [done|]. simpl. rewrite !alerts_app. simpl.
    by rewrite !app_nil_r. }
  rewrite lookup_partial_alter_eq, Hr. simpl.
  unfold should_alert in *. simpl. rewrite Hsa.
  eexists. split; [done|]. simpl. rewrite !alerts_app. simpl.
  by rewrite !app_nil_r.
Qed.

(** A down-tick on a record that exists, when the store answers. *)
Lemma guarded_down_run target env w r :
  (∀ k, mongo env k = None) →
  crashes w !! ip target = Some r →
  let t := clock env (n_clock w) in
  let doc := {| status := "down"; target_name := name target;
                down_since := down_since r;
                last_alert_sent_at := last_alert_sent_at r;
                witnesses := add_to_set MY_SERVER_ID (witnesses r) |} in
  ∃ w',
    guarded target false env w = (Ok tt, w')
    ∧ n_clock w' = S (n_clock w)
    ∧ crash_history w' = crash_history w
    ∧ crashes w' !! ip target =
        Some (if should_alert t r
              then {| status := "down"; target_name := name target;
                      down_since := down_since r;
                      last_alert_sent_at := Some (bson_datetime t);
                      witnesses := add_to_set MY_SERVER_ID (witnesses r) |}
              else doc)
    ∧ alerts (trace w') =
        alerts (trace w) ++
        (if should_alert t r
         then [crash_message target (t - down_since r) doc] else []).
Proof.
  intros Hm Hr t doc.
  destruct (crash_logic_run target env w doc) as (w' & Hrun & Hc & Hh & Hcr & Ha);
    try apply Hm.
  { by rewrite Hr. }
  exists w'. unfold guarded, try_except. rewrite Hrun.
  split_and!; try done.
  rewrite Hcr. fold t. change (should_alert t doc) with (should_alert t r).
  destruct (should_alert t r); by rewrite !lookup_partial_alter_eq, Hr.
Qed.
Lemma should_alert_ext t r r' :
  down_since r' = down_since r →
  last_alert_sent_at r' = last_alert_sent_at r →
  should_alert t r' = should_alert t r.
Proof. unfold should_alert. by intros -> ->. Qed.

Lemma should_alert_early t r :
  t - down_since r < CONFIRMATION_DELAY_MINUTES * us_per_minute →
  should_alert t r = false.
Proof.
  intros H. unfold should_alert, minutes_ge.
  apply andb_false_iff. left. apply Z.leb_gt. done.
Qed.

Lemma should_alert_first t r :
  CONFIRMATION_DELAY_MINUTES * us_per_minute ≤ t - down_since r →
  last_alert_sent_at r = None →
  should_alert t r = true.
Proof.
  intros H Hl. unfold should_alert, minutes_ge. rewrite Hl.
  rewrite andb_true_r. by apply Z.leb_le.
Qed.

Lemma should_alert_throttled t r T :
  last_alert_sent_at r = Some T →
  t - T ≤ timedelta_hours REMINDER_INTERVAL_HOURS →
  should_alert t r = false.
Proof.
  intros Hl H. unfold should_alert. rewrite Hl.
  apply andb_false_iff. right. apply Z.ltb_ge. done.
Qed.

Lemma should_alert_reminder t r T :
  last_alert_sent_at r = Some T →
  down_since r ≤ T →
  timedelta_hours REMINDER_INTERVAL_HOURS < t - T →
  should_alert t r = true.
Proof.
  intros Hl Hd H. unfold should_alert, minutes_ge. rewrite Hl.
  apply andb_true_iff. split; [apply Z.leb_le | by apply Z.ltb_lt].
  revert H. unfold timedelta_hours, REMINDER_INTERVAL_HOURS, us_per_hour,
    CONFIRMATION_DELAY_MINUTES, us_per_minute, us_per_second. lia.
Qed.

(** Consecutive down-ticks on which the timing policy says no. *)
Lemma down_ticks_silent target env n : ∀ w r,
  (∀ k, mongo env k = None) →
  crashes w !! ip target = Some r →
  (∀ i, (i < n)%nat → should_alert (clock env (n_clock w + i)) r = false) →
  ∃ w' r',
    down_ticks target n env w = (Ok tt, w')
    ∧ alerts (trace w') = alerts (trace w)
    ∧ n_clock w' = (n_clock w + n)%nat
    ∧ crash_history w' = crash_history w
    ∧ crashes w' !! ip target = Some r'
    ∧ down_since r' = down_since r
    ∧ last_alert_sent_at r' = last_alert_sent_at r
    ∧ add_to_set MY_SERVER_ID (witnesses r') = add_to_set MY_SERVER_ID (witnesses r).
Proof.
  induction n as [|n IH]; intros w r Hm Hr Hq.
  - exists w, r. simpl. split_and!; try done.
  - destruct (guarded_down_run target env w r Hm Hr)
      as (w1 & Hrun & Hc1 & Hh1 & Hcr1 & Ha1).
    assert (Hsa : should_alert (clock env (n_clock w)) r = false).
    { rewrite <- (Hq 0%nat); [|lia]. by rewrite Nat.add_0_r. }
    rewrite Hsa in Hcr1, Ha1. rewrite app_nil_r in Ha1.
    edestruct (IH w1) as (w' & r' & Hrun' & Ha & Hc & Hh & Hcr & Hd & Hl & Hw);
      [exact Hm | exact Hcr1 | |].
    { intros i Hi. rewrite Hc1.
      erewrite should_alert_ext; [|done..].
      replace (S (n_clock w) + i)%nat with (n_clock w + S i)%nat by lia.
      apply Hq. lia. }
    simpl in Hd, Hl, Hw.
    exists w', r'. simpl. unfold mbind, M_bind. rewrite Hrun, Hrun'.
    split_and!; try congruence.
    + lia.
    + rewrite Hw. apply add_to_set_idemp.
Qed.

(** The last of a run of down-ticks, on which the timing policy says yes. *)
Lemma down_ticks_then_alert target env n w r :
  (∀ k, mongo env k = None) →
  crashes w !! ip target = Some r →
  (∀ i, (i < n)%nat → should_alert (clock env (n_clock w + i)) r = false) →
  should_alert (clock env (n_clock w + n)) r = true →
  let t := clock env (n_clock w + n) in
  ∃ w1 w2 r2,
    down_ticks target n env w = (Ok tt, w1)
    ∧ alerts (trace w1) = alerts (trace w)
    ∧ guarded target false env w1 = (Ok tt, w2)
    ∧ alerts (trace w2) =
        alerts (trace w1) ++
        [crash_message target (t - down_since r)
           {| status := "down"; target_name := name target;
              down_since := down_since r;
              last_alert_sent_at := last_alert_sent_at r;
              witnesses := add_to_set MY_SERVER_ID (witnesses r) |}]
    ∧ crashes w2 !! ip target = Some r2
    ∧ down_since r2 = down_since r
    ∧ last_alert_sent_at r2 = Some (bson_datetime t).
Proof.
  intros Hm Hr Hq Hlast t.
  destruct (down_ticks_silent target env n w r Hm Hr Hq)
    as (w1 & r1 & Hrun1 & Ha1 & Hc1 & Hh1 & Hr1 & Hd1 & Hl1 & Hw1).
  destruct (guarded_down_run target env w1 r1 Hm Hr1)
    as (w2 & Hrun2 & Hc2 & Hh2 & Hr2 & Ha2).
  rewrite Hc1 in Hr2, Ha2. subst t.
  rewrite (should_alert_ext _ r r1 Hd1 Hl1), Hlast in Hr2, Ha2.
  rewrite Hd1, Hl1, Hw1 in Ha2.
  eexists w1, w2, _. split_and!; done.
Qed.

(** C3.  For a peer with an active record: on a down-tick where
    [time_down = now - down_since] is below 3 minutes no alert is sent
    (whatever the store and the network answer); and over consecutive
    down-ticks with the store answering, starting from a record whose
    [last_alert_sent_at] is null, the [n] ticks before the delay has elapsed
    send nothing and the first tick with [time_down >= 3 min] sends exactly
    one crash alert (without reminder marker) and stamps the record. *)
Theorem crash_alert_after_confirmation target env w r :
  crashes w !! ip target = Some r →
  (clock env (n_clock w) - down_since r < CONFIRMATION_DELAY_MINUTES * us_per_minute →
   ∃ w', guarded target false env w = (Ok tt, w')
         ∧ alerts (trace w') = alerts (trace w))
  ∧ ∀ n,
      (∀ k, mongo env k = None) →
      last_alert_sent_at r = None →
      (∀ i, (i < n)%nat →
            clock env (n_clock w + i) - down_since r
            < CONFIRMATION_DELAY_MINUTES * us_per_minute) →
      let t := clock env (n_clock w + n) in
      CONFIRMATION_DELAY_MINUTES * us_per_minute ≤ t - down_since r →
      ∃ w1 w2 r2,
        down_ticks target n env w = (Ok tt, w1)
        ∧ alerts (trace w1) = alerts (trace w)
        ∧ guarded target false env w1 = (Ok tt, w2)
        ∧ alerts (trace w2) =
            alerts (trace w1) ++
            [" *CRASH ALERT:* *" +:+ name target +:+ "* (" +:+ ip target +:+
             ") is DOWN." +:+ nl +:+
             " Down for: " +:+ pretty (int_minutes (t - down_since r)) +:+ " mins" +:+ nl +:+
             " Confirmed by: " +:+
             String.concat ", " (add_to_set MY_SERVER_ID (witnesses r))]
        ∧ crashes w2 !! ip target = Some r2
        ∧ down_since r2 = down_since r
        ∧ last_alert_sent_at r2 = Some (bson_datetime t).
Proof.
  intros Hr. split.
  - intros Hearly. apply (guarded_down_silent target env w r Hr).
    by apply should_alert_early.
  - intros n Hm Hnull Hearly t Hlate.
    destruct (down_ticks_then_alert target env n w r Hm Hr)
      as (w1 & w2 & r2 & H1 & H2 & H3 & H4 & H5 & H6 & H7).
    { intros i Hi. apply should_alert_early. by apply Hearly. }
    { by apply should_alert_first. }
    exists w1, w2, r2. split_and!; try done.
    rewrite H4. unfold crash_message. simpl. by rewrite Hnull.
Qed.

(** C4.  For a peer whose record has [last_alert_sent_at = T]: on a
    down-tick with [now - T <= 2 hours] no alert is sent (whatever the store
    and the network answer); and over consecutive down-ticks with the store
    answering, on a record with [down_since <= T], the [n] ticks within two
    hours of [T] send nothing and the first tick with [now - T > 2 hours]
    sends exactly one alert, which starts with the reminder marker and lists
    the witnesses accumulated in the record, and stamps the record anew. *)
Theorem reminder_cadence target env w r T :
  crashes w !! ip target = Some r →
  last_alert_sent_at r = Some T →
  (clock env (n_clock w) - T ≤ timedelta_hours REMINDER_INTERVAL_HOURS →
   ∃ w', guarded target false env w = (Ok tt, w')
         ∧ alerts (trace w') = alerts (trace w))
  ∧ ∀ n,
      (∀ k, mongo env k = None) →
      down_since r ≤ T →
      (∀ i, (i < n)%nat →
            clock env (n_clock w + i) - T ≤ timedelta_hours REMINDER_INTERVAL_HOURS) →
      let t := clock env (n_clock w + n) in
      timedelta_hours REMINDER_INTERVAL_HOURS < t - T →
      ∃ w1 w2 r2,
        down_ticks target n env w = (Ok tt, w1)
        ∧ alerts (trace w1) = alerts (trace w)
        ∧ guarded target false env w1 = (Ok tt, w2)
        ∧ alerts (trace w2) =
            alerts (trace w1) ++
            [" *REMINDER:* " +:+
             (" *CRASH ALERT:* *" +:+ name target +:+ "* (" +:+ ip target +:+
              ") is DOWN." +:+ nl +:+
              " Down for: " +:+ pretty (int_minutes (t - down_since r)) +:+ " mins" +:+ nl +:+
              " Confirmed by: " +:+
              String.concat ", " (add_to_set MY_SERVER_ID (witnesses r)))]
        ∧ crashes w2 !! ip target = Some r2
        ∧ down_since r2 = down_since r
        ∧ last_alert_sent_at r2 = Some (bson_datetime t).
Proof.
  intros Hr HT. split.
  - intros Hsoon. apply (guarded_down_silent target env w r Hr).
    by apply (should_alert_throttled _ _ T).
  - intros n Hm Hinv Hsoon t Hlate.
    destruct (down_ticks_then_alert target env n w r Hm Hr)
      as (w1 & w2 & r2 & H1 & H2 & H3 & H4 & H5 & H6 & H7).
    { intros i Hi. apply (should_alert_throttled _ _ T); [done|]. by apply Hsoon. }
    { by apply (should_alert_reminder _ _ T). }
    exists w1, w2, r2. split_and!; try done.
    rewrite H4. unfold crash_message. simpl. by rewrite HT.
Qed.

(** ** The recovery logic *)

Lemma int_minutes_ge_1 td : (1 <=? int_minutes td) = (us_per_minute <=? td).
Proof.
  unfold int_minutes, us_per_minute, us_per_second.
  destruct (Z.leb_spec (60 * 1000000) td);
    [apply Z.leb_le | apply Z.leb_gt]; Z.to_euclidean_division_equations; lia.
Qed.

(** C5.  For a peer observed alive that has an active record [r], with the
    store answering: the record is deleted from the active collection; when
    [now - down_since] is at least one minute (and the history key is not
    taken), exactly one history record is added, under the key made of the ip
    and the recovery time, with status [resolved], the incident's
    [down_since] and other fields, and [recovered_at], and exactly one
    recovery alert naming the peer and the downtime in minutes is sent; when
    it is less than one minute, nothing is archived and nothing is sent. *)
Theorem recovery_archives_and_alerts target env w r :
  (∀ k, mongo env k = None) →
  crashes w !! ip target = Some r →
  let t := clock env (n_clock w) in
  let key := ip target +:+ "_" +:+ strftime t in
  ∃ w',
    guarded target true env w = (Ok tt, w')
    ∧ crashes w' = delete (ip target) (crashes w)
    ∧ crashes w' !! ip target = None
    ∧ (us_per_minute ≤ t - down_since r →
       crash_history w !! key = None →
       ∃ h,
         crash_history w' = <[key := h]> (crash_history w)
         ∧ status (incident h) = "resolved"
         ∧ down_since (incident h) = down_since r
         ∧ target_name (incident h) = target_name r
         ∧ last_alert_sent_at (incident h) = last_alert_sent_at r
         ∧ witnesses (incident h) = witnesses r
         ∧ recovered_at h = bson_datetime t
         ∧ alerts (trace w') =
             alerts (trace w) ++
             [" *RECOVERY:* Server *" +:+ name target +:+ "* (" +:+ ip target +:+
              ") is back online." +:+ nl +:+
              " Was down for: " +:+ pretty (int_minutes (t - down_since r)) +:+ " mins"])
    ∧ (t - down_since r < us_per_minute →
       crash_history w' = crash_history w
       ∧ alerts (trace w') = alerts (trace w)).
Proof.
  intros Hm Hr t key.
  unfold guarded, recovery_logic, find_one, delete_one, insert_one. munfold. simpl.
  rewrite !Hm. simpl. rewrite Hr. simpl. fold t. rewrite !Hm.
  rewrite int_minutes_ge_1.
  destruct (us_per_minute <=? t - down_since r) eqn:Hdur.
  - apply Z.leb_le in Hdur. simpl. rewrite !Hm. fold key.
    destruct (crash_history w !! key) as [old|] eqn:Hkey.
    { eexists. split; [done|]. simpl. split_and!; try done.
      - apply lookup_delete_eq.
      - lia. }
    match goal with |- context [send_slack_alert ?m ?e ?w0] =>
      destruct (send_slack_alert_spec m e w0) as (w' & -> & Hs & Ha & _) end.
    exists w'. destruct Hs as [Hc Hh _ _ _ _ _]. simpl in *. split_and!; try done.
    + rewrite Hc. apply lookup_delete_eq.
    + intros _ _. exists (archive_record r t). split_and!; try done.
      rewrite Ha, !alerts_app. simpl. by rewrite !app_nil_r.
    + lia.
  - apply Z.leb_gt in Hdur. eexists. split; [done|]. simpl. split_and!; try done.
    + apply lookup_delete_eq.
    + lia.
    + intros _. split; [done|]. rewrite !alerts_app. simpl. by rewrite !app_nil_r.
Qed.

(** C10.  Resolution is not atomic: for a peer observed alive whose record
    shows at least one minute of downtime, the record is deleted before the
    history record is inserted; when the insert raises after the find and
    the delete went through, the error is logged, and the incident is
    neither in the active collection nor in the history, and no recovery
    alert is sent. *)
Theorem resolution_not_atomic target env w r msg :
  crashes w !! ip target = Some r →
  mongo env (n_store w) = None →
  mongo env (S (n_store w)) = None →
  mongo env (S (S (n_store w))) = Some msg →
  let t := clock env (n_clock w) in
  let key := ip target +:+ "_" +:+ strftime t in
  us_per_minute ≤ t - down_since r →
  ∃ w',
    guarded target true env w = (Ok tt, w')
    ∧ crashes w' !! ip target = None
    ∧ crash_history w' = crash_history w
    ∧ alerts (trace w') = alerts (trace w)
    ∧ trace w' =
        trace w ++
        [EvFind (ip target); EvDelete (ip target); EvInsert key;
         EvLog ERROR ("Error processing " +:+ name target +:+ ": " +:+ msg)].
Proof.
  intros Hr H0 H1 H2 t key Hdur.
  unfold guarded, recovery_logic, find_one, delete_one, insert_one. munfold. simpl.
  rewrite H0. simpl. rewrite Hr. simpl. fold t. rewrite H1.
  rewrite int_minutes_ge_1. apply Z.leb_le in Hdur. rewrite Hdur.
  simpl. rewrite H2. fold key.
  eexists. split; [done|]. simpl. split_and!; try done.
  - apply lookup_delete_eq.
  - rewrite !alerts_app. simpl. by rewrite !app_nil_r.
  - by rewrite <- !app_assoc.
Qed.

(** ** The confirmation retry *)

Lemma bind_run {A B} (m : M A) (k : A → M B) env w :
  (m ≫= k) env w =
  match m env w with
  | (Ok a, w') => k a env w'
  | (Raise e, w') => (Raise e, w')
  end.
Proof. reflexivity. Qed.

Lemma retry_cons target attempt rest env w :
  let url := health_url (ip target) in
  let r := http env (n_http w) url in
  let w1 := next_http (emit (EvGet url 5 r) (emit (EvSleep INITIAL_BACKOFF_SECONDS) w)) in
  retry target (attempt :: rest) env w =
  if alive_reply r
  then (Ok true,
        emit (EvLog INFO (name target +:+ " recovered on retry " +:+
                          pretty (S attempt) +:+ ".")) w1)
  else retry target rest env w1.
Proof.
  intros url r w1. simpl retry.
  unfold mbind, M_bind, mret, M_ret, sleep, log.
  rewrite ping_peer_run. fold url. change (n_http (emit _ w)) with (n_http w).
  fold r w1. by destruct (alive_reply r).
Qed.

(** The retry loop, by the first of its three probes that succeeds. *)
Lemma retry_run target env w :
  let url := health_url (ip target) in
  let r1 := http env (n_http w) url in
  let r2 := http env (S (n_http w)) url in
  let r3 := http env (S (S (n_http w))) url in
  ∃ w1,
    retry target (seq 0 MAX_RETRIES) env w
    = (Ok (alive_reply r1 || alive_reply r2 || alive_reply r3), w1)
    ∧ same_store w w1
    ∧ alerts (trace w1) = alerts (trace w)
    ∧ trace w1 =
        trace w ++
        (if alive_reply r1 then
           [EvSleep 10; EvGet url 5 r1;
            EvLog INFO (name target +:+ " recovered on retry 1.")]
         else if alive_reply r2 then
           [EvSleep 10; EvGet url 5 r1; EvSleep 10; EvGet url 5 r2;
            EvLog INFO (name target +:+ " recovered on retry 2.")]
         else if alive_reply r3 then
           [EvSleep 10; EvGet url 5 r1; EvSleep 10; EvGet url 5 r2;
            EvSleep 10; EvGet url 5 r3;
            EvLog INFO (name target +:+ " recovered on retry 3.")]
         else
           [EvSleep 10; EvGet url 5 r1; EvSleep 10; EvGet url 5 r2;
            EvSleep 10; EvGet url 5 r3]).
Proof.
  intros url r1 r2 r3.
  unfold MAX_RETRIES. simpl seq. rewrite retry_cons. fold url r1.
  destruct (alive_reply r1) eqn:H1; [|rewrite retry_cons; fold url; simpl n_http;
    fold r2; destruct (alive_reply r2) eqn:H2; [|rewrite retry_cons; fold url;
      simpl n_http; fold r3; destruct (alive_reply r3) eqn:H3]];
  (eexists; split; [reflexivity|]; split_and!;
    [ same_store_by_trace
    | simpl; rewrite !alerts_app; simpl; by rewrite !app_nil_r
    | simpl; by rewrite <- !app_assoc ]).
Qed.

(** C6.  For a peer whose scan outcome is down, the engine first checks
    external connectivity once.  If that fails, the peer's processing stops
    there for this tick: nothing else happens, in particular no store
    operation and no alert.  Otherwise it probes the peer again at most
    [MAX_RETRIES = 3] times, each probe preceded by a sleep of
    [INITIAL_BACKOFF_SECONDS = 10], stops at the first probe that succeeds,
    and goes on with the peer as alive exactly when one of them did. *)
Theorem confirmation_retry peer_results target env w :
  default false (peer_results !! ip target) = false →
  let url := health_url (ip target) in
  let r0 := http env (n_http w) GOOGLE_HEALTH_CHECK_URL in
  let w0 := next_http (emit (EvGet GOOGLE_HEALTH_CHECK_URL 3 r0) w) in
  let r1 := http env (S (n_http w)) url in
  let r2 := http env (S (S (n_http w))) url in
  let r3 := http env (S (S (S (n_http w)))) url in
  (alive_reply r0 = false →
   process_target peer_results target env w = (Ok tt, w0))
  ∧ (alive_reply r0 = true →
     ∃ w1,
       let alive := alive_reply r1 || alive_reply r2 || alive_reply r3 in
       confirm target false env w = (Ok (Some alive), w1)
       ∧ process_target peer_results target env w = guarded target alive env w1
       ∧ same_store w w1
       ∧ alerts (trace w1) = alerts (trace w)
       ∧ trace w1 =
           trace w0 ++
           [EvLog INFO (name target +:+ " (" +:+ ip target +:+ ") failed check. Retrying...")] ++
           (if alive_reply r1 then
              [EvSleep 10; EvGet url 5 r1;
               EvLog INFO (name target +:+ " recovered on retry 1.")]
            else if alive_reply r2 then
              [EvSleep 10; EvGet url 5 r1; EvSleep 10; EvGet url 5 r2;
               EvLog INFO (name target +:+ " recovered on retry 2.")]
            else if alive_reply r3 then
              [EvSleep 10; EvGet url 5 r1; EvSleep 10; EvGet url 5 r2;
               EvSleep 10; EvGet url 5 r3;
               EvLog INFO (name target +:+ " recovered on retry 3.")]
            else
              [EvSleep 10; EvGet url 5 r1; EvSleep 10; EvGet url 5 r2;
               EvSleep 10; EvGet url 5 r3])).
Proof.
  intros Hdown url r0 w0 r1 r2 r3.
  assert (Hc : confirm target false env w =
               if alive_reply r0
               then (log INFO (name target +:+ " (" +:+ ip target +:+
                               ") failed check. Retrying...");;
                     alive ← retry target (seq 0 MAX_RETRIES);
                     mret (Some alive)) env w0
               else (Ok None, w0)).
  { unfold confirm. change (negb false) with true. cbv iota.
    rewrite (bind_run check_external_connectivity), check_external_connectivity_run. fold r0 w0.
    by destruct (alive_reply r0). }
  unfold process_target. rewrite Hdown, bind_run, Hc.
  split; intros H0; rewrite H0.
  - done.
  - rewrite bind_run. unfold log at 1 2.
    destruct (retry_run target env
                (emit (EvLog INFO (name target +:+ " (" +:+ ip target +:+
                                   ") failed check. Retrying...")) w0))
      as (w1 & Hrun & Hs & Ha & Htr).
    simpl n_http in Hrun, Htr. fold url r1 r2 r3 in Hrun, Htr.
    exists w1. rewrite !bind_run, Hrun. split; [done|]. split; [done|].
    split_and!.
    + eapply same_store_trans; [|exact Hs]. same_store_by_trace.
    + rewrite Ha. simpl. rewrite !alerts_app. simpl. by rewrite !app_nil_r.
    + rewrite Htr. simpl. by rewrite <- !app_assoc.
Qed.

(** ** Alerts sent and exceptions raised, by the structure of the program *)

Lemma sends_refl P w : sends P w w.
Proof. exists []. by rewrite app_nil_r. Qed.

Lemma sends_trans P w1 w2 w3 : sends P w1 w2 → sends P w2 w3 → sends P w1 w3.
Proof.
  intros (s1 & H1 & F1) (s2 & H2 & F2). exists (s1 ++ s2). split.
  - by rewrite H2, H1, app_assoc.
  - by apply Forall_app.
Qed.

Lemma sends_quiet P w w' : alerts (trace w') = alerts (trace w) → sends P w w'.
Proof. intros H. exists []. by rewrite app_nil_r. Qed.

Lemma emits_ret {A} P (a : A) : emits P (mret a).
Proof. intros env w. apply sends_refl. Qed.

Lemma emits_bind {A B} P (m : M A) (k : A → M B) :
  emits P m → (∀ a, emits P (k a)) → emits P (m ≫= k).
Proof.
  intros Hm Hk env w. specialize (Hm env w). rewrite bind_run.
  destruct (m env w) as [[a|e] w1]; simpl in *; [|done].
  eapply sends_trans; [exact Hm | apply Hk].
Qed.

Lemma emits_try_except {A} P (body : M A) handler :
  emits P body → (∀ e, emits P (handler e)) → emits P (try_except body handler).
Proof.
  intros Hm Hk env w. specialize (Hm env w). unfold try_except.
  destruct (body env w) as [[a|e] w1]; simpl in *; [done|].
  eapply sends_trans; [exact Hm | apply Hk].
Qed.

Lemma emits_quiet {A} P (m : M A) :
  (∀ env w, alerts (trace (m env w).2) = alerts (trace w)) → emits P m.
Proof. intros H env w. apply sends_quiet, H. Qed.

Lemma emits_sleep P s : emits P (sleep s).
Proof.
  apply emits_quiet. intros env w. simpl. rewrite alerts_app. simpl.
  by rewrite app_nil_r.
Qed.

Lemma emits_log P l msg : emits P (log l msg).
Proof.
  apply emits_quiet. intros env w. simpl. rewrite alerts_app. simpl.
  by rewrite app_nil_r.
Qed.

Lemma emits_now P : emits P now.
Proof. by apply emits_quiet. Qed.

Lemma emits_get_active_collection P : emits P get_active_collection.
Proof. by apply emits_quiet. Qed.

Lemma emits_store_op {A} P ev (op : World → result A * World) :
  is_store_event ev = true →
  (∀ w, trace (op w).2 = trace w) →
  emits P (store_op ev op).
Proof.
  intros Hev Hop. apply emits_quiet. intros env w. unfold store_op.
  destruct (mongo env (n_store w)); simpl; rewrite ?Hop; simpl;
    rewrite alerts_app; destruct ev; try done; simpl; by rewrite app_nil_r.
Qed.

Lemma emits_find_one P id : emits P (find_one id).
Proof. by apply emits_store_op. Qed.

Lemma emits_delete_one P id : emits P (delete_one id).
Proof. by apply emits_store_op. Qed.

Lemma emits_update_one P id update : emits P (update_one id update).
Proof. by apply emits_store_op. Qed.

Lemma emits_insert_one P id doc : emits P (insert_one id doc).
Proof.
  apply emits_store_op; [done|]. intros w. by destruct (crash_history w !! id).
Qed.

Lemma emits_check_external_connectivity P : emits P check_external_connectivity.
Proof.
  apply emits_quiet. intros env w. rewrite check_external_connectivity_run.
  simpl. rewrite alerts_app. simpl. by rewrite app_nil_r.
Qed.

Lemma emits_ping_peer P url : emits P (ping_peer url).
Proof.
  apply emits_quiet. intros env w. rewrite ping_peer_run.
  simpl. rewrite alerts_app. simpl. by rewrite app_nil_r.
Qed.

Lemma emits_send_slack_alert (P : string → Prop) message :
  P message → emits P (send_slack_alert message).
Proof.
  intros HP env w.
  destruct (send_slack_alert_spec message env w) as (w' & -> & _ & Ha & _).
  exists [message]. split; [done|]. by apply Forall_singleton.
Qed.

Lemma emits_for_each {A} P (xs : list A) body :
  (∀ x, emits P (body x)) → emits P (for_each xs body).
Proof.
  intros Hb. induction xs as [|x xs IH]; simpl.
  - apply emits_ret.
  - apply emits_bind; [apply Hb | intros _; apply IH].
Qed.

Lemma safe_ret {A} (a : A) : safe (mret a).
Proof. intros env w. by exists a. Qed.

Lemma safe_bind {A B} (m : M A) (k : A → M B) :
  safe m → (∀ a, safe (k a)) → safe (m ≫= k).
Proof.
  intros Hm Hk env w. destruct (Hm env w) as [a Ha]. rewrite bind_run.
  destruct (m env w) as [[a'|e] w1]; simpl in *; [apply Hk | done].
Qed.

Lemma safe_try_except {A} (body : M A) handler :
  (∀ e, safe (handler e)) → safe (try_except body handler).
Proof.
  intros Hk env w. unfold try_except.
  destruct (body env w) as [[a|e] w1]; [by exists a | apply Hk].
Qed.

Lemma safe_sleep s : safe (sleep s).
Proof. intros env w. by exists tt. Qed.

Lemma safe_log l msg : safe (log l msg).
Proof. intros env w. by exists tt. Qed.

Lemma safe_get_active_collection : safe get_active_collection.
Proof. intros env w. by eexists. Qed.

Lemma safe_check_external_connectivity : safe check_external_connectivity.
Proof. intros env w. rewrite check_external_connectivity_run. by eexists. Qed.

Lemma safe_ping_peer url : safe (ping_peer url).
Proof. intros env w. rewrite ping_peer_run. by eexists. Qed.

Lemma safe_send_slack_alert message : safe (send_slack_alert message).
Proof.
  intros env w.
  destruct (send_slack_alert_spec message env w) as (w' & -> & _). by exists tt.
Qed.

Lemma safe_for_each {A} (xs : list A) body :
  (∀ x, safe (body x)) → safe (for_each xs body).
Proof.
  intros Hb. induction xs as [|x xs IH]; simpl.
  - apply safe_ret.
  - apply safe_bind; [apply Hb | intros _; apply IH].
Qed.

Create HintDb monitor.
#[local] Hint Resolve emits_ret emits_sleep emits_log emits_now
  emits_get_active_collection emits_find_one emits_delete_one emits_update_one
  emits_insert_one emits_check_external_connectivity emits_ping_peer
  safe_ret safe_sleep safe_log safe_get_active_collection
  safe_check_external_connectivity safe_ping_peer safe_send_slack_alert : monitor.

(** Splits a goal about a program along its binds and exception handlers. *)
Ltac step :=
  first [ solve [auto with monitor]
        | apply emits_bind; [|intros ?] | apply emits_try_except; [|intros ?]
        | apply emits_for_each; intros ?
        | apply safe_bind; [|intros ?] | apply safe_try_except; intros ?
        | apply safe_for_each; intros ? ].

(** ** The processing of one peer *)

Lemma emits_retry P target attempts : emits P (retry target attempts).
Proof.
  induction attempts as [|attempt rest IH]; simpl; [auto with monitor|].
  repeat step.
  match goal with b : bool |- _ => destruct b end; [repeat step | done].
Qed.

Lemma safe_retry target attempts : safe (retry target attempts).
Proof.
  induction attempts as [|attempt rest IH]; simpl; [auto with monitor|].
  repeat step.
  match goal with b : bool |- _ => destruct b end; [repeat step | done].
Qed.

#[local] Hint Resolve emits_retry safe_retry : monitor.

Lemma emits_confirm P target is_alive : emits P (confirm target is_alive).
Proof.
  unfold confirm. destruct is_alive; cbn [negb]; repeat step.
  match goal with b : bool |- _ => destruct b end; cbn [negb]; repeat step.
Qed.

Lemma safe_confirm target is_alive : safe (confirm target is_alive).
Proof.
  unfold confirm. destruct is_alive; cbn [negb]; repeat step.
  match goal with b : bool |- _ => destruct b end; cbn [negb]; repeat step.
Qed.

Lemma emits_recovery_logic target : emits starts_with_space (recovery_logic target).
Proof.
  unfold recovery_logic. repeat step.
  match goal with o : option Incident |- _ => destruct o as [record|] end;
    repeat step.
  match goal with |- context [if ?b then _ else _] => destruct b end;
    repeat step.
  apply emits_send_slack_alert. by eexists.
Qed.

Lemma emits_crash_logic target : emits starts_with_space (crash_logic target).
Proof.
  unfold crash_logic. repeat step.
  match goal with o : option Incident |- _ => destruct o as [doc|] end;
    repeat step.
  match goal with |- context [if ?b then _ else _] => destruct b end;
    repeat step.
  apply emits_send_slack_alert. unfold crash_message.
  destruct (last_alert_sent_at doc); by eexists.
Qed.

#[local] Hint Resolve emits_confirm safe_confirm emits_recovery_logic
  emits_crash_logic : monitor.

Lemma emits_guarded target is_alive : emits starts_with_space (guarded target is_alive).
Proof. unfold guarded. destruct is_alive; repeat step. Qed.

Lemma safe_guarded target is_alive : safe (guarded target is_alive).
Proof. unfold guarded. repeat step. Qed.

#[local] Hint Resolve emits_guarded safe_guarded : monitor.

Lemma emits_process_target peer_results target :
  emits starts_with_space (process_target peer_results target).
Proof.
  unfold process_target. repeat step.
  match goal with o : option bool |- _ => destruct o end; repeat step.
Qed.

Lemma safe_process_target peer_results target :
  safe (process_target peer_results target).
Proof.
  unfold process_target. repeat step.
  match goal with o : option bool |- _ => destruct o end; repeat step.
Qed.

#[local] Hint Resolve emits_process_target safe_process_target : monitor.

(** ** The loop *)

Lemma emits_scan P targets : ∀ count results, emits P (scan targets count results).
Proof.
  induction targets as [|target rest IH]; intros count results; simpl; repeat step.
Qed.

Lemma safe_scan targets : ∀ count results, safe (scan targets count results).
Proof.
  induction targets as [|target rest IH]; intros count results; simpl; repeat step.
Qed.

#[local] Hint Resolve emits_scan safe_scan : monitor.

Lemma safe_tick was_isolated : safe (tick was_isolated).
Proof.
  unfold tick. repeat step.
  match goal with o : option string |- _ => destruct o end; repeat step.
  match goal with b : bool |- _ => destruct b end; cbn [negb]; repeat step.
  match goal with p : Z * gmap string bool |- _ => destruct p as [count results] end.
  destruct (isolated count), was_isolated; cbn [negb andb]; repeat step.
Qed.

Lemma safe_ticks n : ∀ was_isolated, safe (ticks n was_isolated).
Proof.
  induction n as [|n IH]; intros was_isolated; simpl; [auto with monitor|].
  apply safe_bind; [apply safe_tick | intros b; apply IH].
Qed.

Lemma safe_run {A} (m : M A) env w : safe m → ∃ a w', m env w = (Ok a, w').
Proof.
  intros Hm. destruct (Hm env w) as [a Ha].
  destruct (m env w) as [r w']. simpl in Ha. subst r. by exists a, w'.
Qed.

(** C7.  An exception raised by the recovery or crash logic of a peer (a
    store error or any other) does not leave the peer's iteration: whenever
    the confirmation step hands the peer on and its logic then raises [e],
    the iteration [process_target] returns normally with the error logged as
    [Error processing <name>: <e>] and nothing else done after it, and the
    loop goes on with the remaining peers from there.  A store request that
    raises does make the logic raise, and is caught and logged in this way.
    No iteration raises, so the loop over the targets completes, and no
    sequence of ticks raises. *)
Theorem peer_failures_contained (peer_results : gmap string bool)
    (target : Target) (rest : list Target) (is_alive : bool) env w :
  (∀ alive w1 e w2,
      confirm target (default false (peer_results !! ip target)) env w
      = (Ok (Some alive), w1) →
      (if alive : bool then recovery_logic target else crash_logic target) env w1
      = (Raise e, w2) →
      let logged :=
        emit (EvLog ERROR ("Error processing " +:+ name target +:+ ": " +:+ str e)) w2 in
      process_target peer_results target env w = (Ok tt, logged)
      ∧ for_each (target :: rest) (process_target peer_results) env w
        = for_each rest (process_target peer_results) env logged)
  ∧ (∀ msg,
      mongo env (n_store w) = Some msg →
      ∃ w2,
        (if is_alive then recovery_logic target else crash_logic target) env w
        = (Raise (PyMongoError msg), w2)
        ∧ guarded target is_alive env w
          = (Ok tt,
             emit (EvLog ERROR ("Error processing " +:+ name target +:+ ": " +:+ msg)) w2))
  ∧ (∀ e w1,
      (if is_alive then recovery_logic target else crash_logic target) env w
      = (Raise e, w1) →
      guarded target is_alive env w
      = (Ok tt, emit (EvLog ERROR ("Error processing " +:+ name target +:+ ": " +:+ str e)) w1))
  ∧ (∃ w', process_target peer_results target env w = (Ok tt, w')
           ∧ for_each (target :: rest) (process_target peer_results) env w
             = for_each rest (process_target peer_results) env w')
  ∧ (∃ w', for_each TARGETS (process_target peer_results) env w = (Ok tt, w'))
  ∧ (∀ n was_isolated, ∃ b w', ticks n was_isolated env w = (Ok b, w')).
Proof.
  assert (Hcaught : ∀ alive e w1 w2,
            (if alive : bool then recovery_logic target else crash_logic target) env w1
            = (Raise e, w2) →
            guarded target alive env w1
            = (Ok tt, emit (EvLog ERROR ("Error processing " +:+ name target +:+
                                         ": " +:+ str e)) w2)).
  { intros alive e w1 w2 Hraise. unfold guarded, try_except.
    destruct alive; by rewrite Hraise. }
  split_and!.
  - intros alive w1 e w2 Hconfirm Hraise logged.
    assert (Hpeer : process_target peer_results target env w = (Ok tt, logged)).
    { unfold process_target. rewrite bind_run, Hconfirm. by apply Hcaught. }
    split; [exact Hpeer|]. simpl. by rewrite bind_run, Hpeer.
  - intros msg Hdown. destruct is_alive.
    + assert (Hraise : recovery_logic target env w
                       = (Raise (PyMongoError msg), next_store (emit (EvFind (ip target)) w))).
      { unfold recovery_logic, find_one, store_op. rewrite bind_run, Hdown.
        reflexivity. }
      eexists. split; [exact Hraise|]. exact (Hcaught true _ _ _ Hraise).
    + assert (Hraise : crash_logic target env w
                       = (Raise (PyMongoError msg),
                          next_store (emit (EvUpdate (ip target)) (next_clock w)))).
      { unfold crash_logic, update_one, store_op, now. rewrite !bind_run.
        cbv beta iota. simpl n_store. rewrite Hdown. reflexivity. }
      eexists. split; [exact Hraise|]. exact (Hcaught false _ _ _ Hraise).
  - intros e w1. apply Hcaught.
  - destruct (safe_run (process_target peer_results target) env w) as ([] & w' & Hrun);
      [auto with monitor|].
    exists w'. split; [done|]. simpl. by rewrite bind_run, Hrun.
  - destruct (safe_run (for_each TARGETS (process_target peer_results)) env w)
      as ([] & w' & Hrun); [repeat step|]. by exists w'.
  - intros n was_isolated. apply safe_run, safe_ticks.
Qed.

(** ** The isolation detector *)

Lemma scan_run targets : ∀ count results env w,
  let replies := scan_replies env (n_http w) targets in
  ∃ results' w',
    scan targets count results env w
    = (Ok (count + Z.of_nat (length (List.filter alive_reply replies)), results'), w')
    ∧ same_store w w'
    ∧ alerts (trace w') = alerts (trace w)
    ∧ probes (trace w') = probes (trace w) ++ map (λ t, health_url (ip t)) targets
    ∧ n_http w' = (n_http w + length targets)%nat.
Proof.
  induction targets as [|target rest IH]; intros count results env w; simpl.
  - exists results, w. rewrite Z.add_0_r, app_nil_r.
    split_and!; done || apply same_store_refl.
  - rewrite bind_run, ping_peer_run.
    set (r := http env (n_http w) (health_url (ip target))).
    set (w1 := next_http (emit (EvGet (health_url (ip target)) 5 r) w)).
    destruct (IH (if alive_reply r then count + 1 else count)
                 (<[ip target := alive_reply r]> results) env w1)
      as (results' & w' & Hrun & Hs & Ha & Hp & Hn).
    exists results', w'. split_and!.
    + rewrite Hrun. f_equal. f_equal. f_equal. subst w1. simpl n_http.
      destruct (alive_reply r); simpl length; lia.
    + eapply same_store_trans; [|exact Hs]. subst w1. same_store_by_trace.
    + rewrite Ha. subst w1. simpl. rewrite alerts_app. simpl. by rewrite app_nil_r.
    + rewrite Hp. subst w1. simpl. rewrite probes_app. simpl.
      by rewrite <- app_assoc.
    + rewrite Hn. subst w1. simpl. lia.
Qed.

Lemma no_success_forallb replies :
  (Z.of_nat (length (List.filter alive_reply replies)) =? 0)
  = forallb (λ r, negb (alive_reply r)) replies.
Proof.
  induction replies as [|r replies IH]; simpl; [done|].
  by destruct (alive_reply r).
Qed.

Lemma isolated_spec env n :
  isolated (0 + Z.of_nat (length (List.filter alive_reply (scan_replies env n TARGETS))))
  = bool_decide (0 < length TARGETS)%nat
    && forallb (λ r, negb (alive_reply r)) (scan_replies env n TARGETS).
Proof.
  unfold isolated. rewrite Z.add_0_l, no_success_forallb. f_equal.
  case_bool_decide; [apply Z.ltb_lt | apply Z.ltb_ge]; lia.
Qed.

Lemma count_occ_starts_with_space sent message :
  Forall starts_with_space sent →
  ¬ starts_with_space message →
  count_occ String.string_dec sent message = 0%nat.
Proof.
  intros Hall Hm. apply count_occ_not_In. intros Hin.
  apply Hm. rewrite Forall_forall in Hall. apply Hall. by apply list_elem_of_In.
Qed.

(** The normal monitoring of a tick: it completes, and sends alerts about
    peers only. *)
Lemma normal_monitoring_run (peer_results : gmap string bool) (b : bool) env w :
  ∃ w',
    (for_each TARGETS (process_target peer_results);; sleep 30;; mret b) env w
    = (Ok b, w')
    ∧ sends starts_with_space w w'.
Proof.
  destruct (safe_run (for_each TARGETS (process_target peer_results)) env w)
    as ([] & w1 & Hrun); [repeat step|].
  assert (Hsends : sends starts_with_space w w1).
  { assert (He : emits starts_with_space (for_each TARGETS (process_target peer_results)))
      by repeat step.
    specialize (He env w). by rewrite Hrun in He. }
  rewrite bind_run, Hrun. eexists. split; [reflexivity|].
  eapply sends_trans; [exact Hsends|]. apply sends_quiet. simpl.
  rewrite alerts_app. simpl. by rewrite app_nil_r.
Qed.

Lemma log_run l msg env w : log l msg env w = (Ok tt, emit (EvLog l msg) w).
Proof. reflexivity. Qed.

Lemma sleep_run s env w : sleep s env w = (Ok tt, emit (EvSleep s) w).
Proof. reflexivity. Qed.

Lemma ret_run {A} (a : A) env w : (mret a : M A) env w = (Ok a, w).
Proof. reflexivity. Qed.

(** Runs the binds, logs, sleeps and returns at the head of a program. *)
Ltac run :=
  repeat (progress (rewrite ?bind_run, ?log_run, ?sleep_run, ?ret_run; cbv beta iota)).

(** C1.  On a tick that gets to the isolation check (the store handle is
    set and the external connectivity check passes), [is_isolated] is
    (number of targets > 0) and (no probe of the scan succeeded), and the
    tick ends in the state ISOLATED exactly when [is_isolated].  The
    isolation alert is sent once on the ticks where [is_isolated] holds and
    the previous state was CONNECTED, and on no other tick.  On a tick where
    [is_isolated] holds nothing else happens: no other alert, no store
    operation, and no probe besides the connectivity check and the scan (no
    confirmation retry). *)
Theorem isolation_detector env w was_isolated :
  let passes :=
    bool_decide (is_Some (active_collection w))
    && alive_reply (http env (n_http w) GOOGLE_HEALTH_CHECK_URL) in
  let replies := scan_replies env (S (n_http w)) TARGETS in
  let is_isolated :=
    bool_decide (0 < length TARGETS)%nat
    && forallb (λ r, negb (alive_reply r)) replies in
  let isolation_alert :=
    "*MONITOR ISOLATED:* *" +:+ MY_SERVER_ID +:+ "* cannot reach ANY peers." +:+
    nl +:+ "Please verify manually." in
  ∃ w' sent,
    tick was_isolated env w = (Ok (if passes then is_isolated else was_isolated), w')
    ∧ alerts (trace w') = alerts (trace w) ++ sent
    ∧ count_occ String.string_dec sent isolation_alert
      = (if passes && is_isolated && negb was_isolated then 1 else 0)%nat
    ∧ (passes = true → is_isolated = true →
       sent = (if was_isolated then [] else [isolation_alert])
       ∧ same_store w w'
       ∧ probes (trace w') =
           probes (trace w) ++
           GOOGLE_HEALTH_CHECK_URL :: map (λ t, health_url (ip t)) TARGETS).
Proof.
  intros passes replies is_isolated isolation_alert.
  assert (Hiso : ¬ starts_with_space isolation_alert).
  { intros [rest Hrest]. discriminate Hrest. }
  unfold tick. rewrite bind_run. unfold get_active_collection at 1.
  destruct (active_collection w) as [c|] eqn:Hac; subst passes.
  2:{ (* no store handle: the tick is paused *)
    rewrite bool_decide_eq_false_2 by (by intros [? ?]). cbn [andb].
    eexists _, []. split; [reflexivity|]. split_and!; try done.
    simpl. rewrite !alerts_app. simpl. by rewrite !app_nil_r. }
  rewrite bool_decide_eq_true_2 by eauto. cbn [andb].
  rewrite bind_run, check_external_connectivity_run.
  set (r0 := http env (n_http w) GOOGLE_HEALTH_CHECK_URL).
  set (w0 := next_http (emit (EvGet GOOGLE_HEALTH_CHECK_URL 3 r0) w)).
  destruct (alive_reply r0) eqn:H0; cbn [negb].
  2:{ (* no external connectivity: the tick is paused *)
    eexists _, []. split; [reflexivity|]. split_and!; try done.
    simpl. rewrite !alerts_app. simpl. by rewrite !app_nil_r. }
  destruct (scan_run TARGETS 0 ∅ env w0) as (results & w1 & Hscan & Hs & Ha & Hp & Hn).
  rewrite bind_run, Hscan. cbv zeta. change (n_http w0) with (S (n_http w)).
  rewrite isolated_spec. fold replies is_isolated.
  assert (Ha0 : alerts (trace w1) = alerts (trace w)).
  { rewrite Ha. subst w0. simpl. rewrite alerts_app. simpl. by rewrite app_nil_r. }
  assert (Hs0 : same_store w w1).
  { eapply same_store_trans; [|exact Hs]. subst w0. same_store_by_trace. }
  assert (Hp0 : probes (trace w1) =
                probes (trace w) ++
                GOOGLE_HEALTH_CHECK_URL :: map (λ t, health_url (ip t)) TARGETS).
  { rewrite Hp. subst w0. simpl. rewrite probes_app. simpl. by rewrite <- app_assoc. }
  destruct is_isolated, was_isolated; cbn [negb andb].
  - (* still isolated *)
    eexists _, []. split; [reflexivity|]. split_and!; try done.
    + simpl. rewrite !alerts_app. simpl. by rewrite !app_nil_r.
    + intros _ _. split_and!; try done.
      * eapply same_store_trans; [exact Hs0|]. same_store_by_trace.
      * simpl. rewrite !probes_app. simpl. by rewrite !app_nil_r.
  - (* entering isolation *)
    run.
    match goal with |- context [send_slack_alert ?m ?e ?w2] =>
      destruct (send_slack_alert_spec m e w2) as (w3 & -> & Hs3 & Ha3 & Hp3 & _) end.
    run.
    eexists _, [isolation_alert]. split; [reflexivity|]. split_and!.
    + simpl. rewrite alerts_app, Ha3. simpl. rewrite alerts_app, Ha0. simpl.
      by rewrite !app_nil_r.
    + cbn [count_occ].
      by destruct (String.string_dec isolation_alert isolation_alert).
    + intros _ _. split_and!; try done.
      * eapply same_store_trans; [exact Hs0|].
        eapply same_store_trans; [|eapply same_store_trans; [exact Hs3|]];
          same_store_by_trace.
      * simpl. rewrite probes_app, Hp3. simpl. rewrite probes_app, Hp0. simpl.
        by rewrite !app_nil_r.
  - (* leaving isolation, then the normal monitoring *)
    rewrite bind_run, (bind_run (log _ _)), log_run. cbv beta iota.
    rewrite (bind_run (send_slack_alert _)).
    match goal with |- context [send_slack_alert ?m ?e ?w2] =>
      destruct (send_slack_alert_spec m e w2) as (w3 & -> & Hs3 & Ha3 & Hp3 & _) end.
    rewrite ret_run.
    destruct (normal_monitoring_run results false env w3) as (w4 & Hrun & sent & Hsent & Hall).
    rewrite Hrun.
    eexists _, (_ :: sent). split; [reflexivity|]. split_and!; [| |done].
    + rewrite Hsent, Ha3. simpl. rewrite alerts_app, Ha0. simpl.
      rewrite app_nil_r, <- app_assoc. reflexivity.
    + apply count_occ_starts_with_space; [|done].
      apply Forall_cons. split; [by eexists | done].
  - (* connected: the normal monitoring *)
    rewrite bind_run, ret_run.
    destruct (normal_monitoring_run results false env w1) as (w4 & Hrun & sent & Hsent & Hall).
    rewrite Hrun. exists w4, sent. split; [reflexivity|]. split_and!; [| |done].
    + by rewrite Hsent, Ha0.
    + by apply count_occ_starts_with_space.
Qed.

(** ** Start-up without a store *)

(** Without a store handle every tick only logs and sleeps. *)
Lemma paused_ticks n : ∀ was_isolated env w,
  active_collection w = None →
  ∃ w',
    ticks n was_isolated env w = (Ok was_isolated, w')
    ∧ trace w' =
        trace w ++
        concat (replicate n [EvLog WARNING "Waiting for DB connection..."; EvSleep 30])
    ∧ crashes w' = crashes w
    ∧ crash_history w' = crash_history w
    ∧ active_collection w' = None
    ∧ n_http w' = n_http w
    ∧ n_store w' = n_store w.
Proof.
  induction n as [|n IH]; intros was_isolated env w Hac.
  - exists w. simpl. rewrite app_nil_r. by split_and!.
  - simpl ticks. rewrite bind_run. unfold tick.
    rewrite bind_run. unfold get_active_collection at 1. rewrite Hac. run.
    edestruct (IH was_isolated env) as (w' & -> & Htr & Hc & Hh & Ha & Hn & Hs);
      [|exists w'; split; [reflexivity|]].
    { exact Hac. }
    split_and!; try done.
    rewrite Htr. simpl. by rewrite <- !app_assoc.
Qed.

(** The start-up when the connection attempt raises: the handle stays unset,
    and from then on the monitor only logs and sleeps, whatever the store and
    the network would answer. *)
Lemma lifespan_without_store n env w msg :
  MONGO_URI ≠ "" →
  active_collection w = None →
  mongo env (n_store w) = Some msg →
  ∃ w',
    lifespan n env w = (Ok false, w')
    ∧ trace w' =
        trace w ++
        [EvConnect; EvLog ERROR ("DB Connect Fail: " +:+ msg);
         EvSleep 5; EvLog INFO banner] ++
        concat (replicate n [EvLog WARNING "Waiting for DB connection..."; EvSleep 30])
    ∧ crashes w' = crashes w
    ∧ crash_history w' = crash_history w
    ∧ active_collection w' = None
    ∧ n_http w' = n_http w
    ∧ n_store w' = S (n_store w).
Proof.
  intros Huri Hac Hdown. unfold lifespan, connect, monitor_peers.
  rewrite decide_False by done. rewrite bind_run.
  unfold try_except. rewrite bind_run. unfold mongo_connect at 1. rewrite Hdown.
  cbv beta iota zeta. run.
  edestruct (paused_ticks n false env) as (w' & -> & Htr & Hc & Hh & Ha & Hn & Hs);
    [|exists w'; split; [reflexivity|]].
  { exact Hac. }
  split_and!; try done.
  rewrite Htr. simpl. by rewrite <- !app_assoc.
Qed.

Lemma probes_waiting n :
  probes (concat (replicate n [EvLog WARNING "Waiting for DB connection..."; EvSleep 30])) = [].
Proof. induction n as [|n IH]; simpl; done. Qed.

(** C8, as the code has it.  If the connection attempt at start-up raises,
    the monitor does not crash: the error is logged, and every tick logs a
    warning and sleeps 30 seconds, without any probe, store operation or
    peer processing.  The handle is never set again, so this lasts for
    every number of ticks, whatever the store would answer later. *)
Theorem startup_without_store n env w msg :
  MONGO_URI ≠ "" →
  active_collection w = None →
  mongo env (n_store w) = Some msg →
  ∃ w',
    lifespan n env w = (Ok false, w')
    ∧ trace w' =
        trace w ++
        [EvConnect; EvLog ERROR ("DB Connect Fail: " +:+ msg);
         EvSleep 5; EvLog INFO banner] ++
        concat (replicate n [EvLog WARNING "Waiting for DB connection..."; EvSleep 30])
    ∧ probes (trace w') = probes (trace w)
    ∧ crashes w' = crashes w
    ∧ crash_history w' = crash_history w
    ∧ active_collection w' = None
    ∧ n_store w' = S (n_store w).
Proof.
  intros Huri Hac Hdown.
  destruct (lifespan_without_store n env w msg Huri Hac Hdown)
    as (w' & Hrun & Htr & Hc & Hh & Ha & Hn & Hs).
  exists w'. split_and!; try done.
  rewrite Htr, !probes_app, probes_waiting. simpl. by rewrite app_nil_r.
Qed.

(** ** The configuration parsers *)

Lemma split_on_cons sep s : ∃ piece pieces, split_on sep s = piece :: pieces.
Proof.
  induction s as [|a rest (piece & pieces & IH)]; simpl; [by eauto|].
  case_decide; [by eauto|]. rewrite IH. by eauto.
Qed.

Lemma length_split_on sep s : length (split_on sep s) = S (occurrences sep s).
Proof.
  induction s as [|a rest IH]; simpl; [done|].
  case_decide; simpl; [by rewrite IH|].
  destruct (split_on_cons sep rest) as (piece & pieces & Hs).
  rewrite Hs in IH |- *. done.
Qed.

Lemma split_on_snoc sep s :
  split_on sep (s +:+ String sep "") = split_on sep s ++ [""].
Proof.
  induction s as [|a rest IH]; simpl.
  - by rewrite decide_True.
  - case_decide; [by rewrite IH|].
    rewrite IH. destruct (split_on_cons sep rest) as (piece & pieces & ->). done.
Qed.

Lemma occurrences_pieces sep s :
  Forall (λ piece, occurrences sep piece = 0%nat) (split_on sep s).
Proof.
  induction s as [|a rest IH]; simpl.
  - by apply Forall_singleton.
  - case_decide as Ha.
    + by apply Forall_cons.
    + destruct (split_on_cons sep rest) as (piece & pieces & Hs).
      rewrite Hs in IH |- *. apply Forall_cons in IH as [Hp Hps].
      apply Forall_cons. split; [|done]. simpl. by rewrite decide_False.
Qed.

(** One item parses unless it has two bars or more. *)
Lemma parse_target_is_Some strip item :
  is_Some (parse_target strip item) ↔ (occurrences "|" item ≤ 1)%nat.
Proof.
  unfold parse_target, contains.
  pose proof (length_split_on "|" item) as Hlen.
  case_bool_decide as Hbar.
  - destruct (split_on "|" item) as [|a [|b [|c rest]]]; simpl in Hlen.
    + lia.
    + lia.
    + split; [intros _; lia | by eauto].
    + split; [by intros [? ?] | lia].
  - split; [intros _; lia | by eauto].
Qed.

(** X1.  [TARGETS] parses unless some item between commas has two bars or
    more, in which case the unpacking raises and the module fails at import.
    When it parses from a text that is not empty there is one target per
    item, blank items included (one more than there are commas), and an item
    without a bar gets the name [Unknown-GPU]. *)
Theorem parse_targets_shape strip raw_targets :
  (parse_targets strip raw_targets = None
   ↔ Exists (λ item, 2 ≤ occurrences "|" item)%nat (split_on "," raw_targets))
  ∧ ∀ targets,
      parse_targets strip raw_targets = Some targets →
      (raw_targets = "" ∧ targets = []
       ∨ raw_targets ≠ "" ∧ length targets = S (occurrences "," raw_targets))
      ∧ Forall2 (λ item target,
                   occurrences "|" item = 0%nat →
                   target = {| ip := strip item; name := "Unknown-GPU" |})
                (if decide (raw_targets = "") then [] else split_on "," raw_targets)
                targets.
Proof.
  unfold parse_targets. split.
  - case_decide as Hraw.
    + subst raw_targets. simpl. split; [done|].
      intros Hex. apply Exists_cons in Hex as [Hex|Hex]; [simpl in Hex; lia|].
      by apply Exists_nil in Hex.
    + rewrite mapM_None, !Exists_exists.
      split; intros (item & Hin & Hitem); exists item; (split; [done|]).
      * destruct (decide (occurrences "|" item ≤ 1)%nat) as [Hle|Hgt]; [|lia].
        apply (parse_target_is_Some strip) in Hle. rewrite Hitem in Hle.
        by destruct Hle.
      * destruct (parse_target strip item) as [target|] eqn:Hparse; [|done].
        assert (Hle : (occurrences "|" item ≤ 1)%nat)
          by (apply (parse_target_is_Some strip); rewrite Hparse; eauto).
        lia.
  - intros targets. case_decide as Hraw.
    + intros [= <-]. split; [by left | by constructor].
    + intros Hmap. split.
      * right. split; [done|].
        by rewrite <- (length_mapM _ _ _ Hmap), length_split_on.
      * apply mapM_Some in Hmap. eapply Forall2_impl; [exact Hmap|].
        intros item target Hparse Hbar. unfold parse_target, contains in Hparse.
        rewrite bool_decide_eq_false_2 in Hparse by lia. by injection Hparse as <-.
Qed.

(** X2.  A comma at the end of [TARGETS] is not ignored: the blank item
    after it becomes one more target, with the ip of a blank text and the
    name [Unknown-GPU]. *)
Theorem parse_targets_trailing_comma strip raw_targets :
  raw_targets ≠ "" →
  parse_targets strip (raw_targets +:+ ",")
  = (targets ← parse_targets strip raw_targets;
     Some (targets ++ [{| ip := strip ""; name := "Unknown-GPU" |}])).
Proof.
  intros Hraw. unfold parse_targets.
  rewrite decide_False by (by destruct raw_targets).
  rewrite decide_False by done.
  change "," with (String "," "") at 1. rewrite split_on_snoc.
  destruct (mapM (parse_target strip) (split_on "," raw_targets)) as [targets|] eqn:Hmap;
    simpl.
  - apply mapM_Some. apply Forall2_app; [by apply mapM_Some|].
    by apply Forall2_cons.
  - apply mapM_None. apply Exists_app. left. by apply mapM_None.
Qed.

(** X3.  In [SLACK_WEBHOOK_URL], unlike in [TARGETS], blank pieces are
    dropped: a comma at the end changes nothing, and no webhook is ever the
    empty text. *)
Theorem parse_webhooks_trailing_comma strip url :
  strip "" = "" →
  url ≠ "" →
  parse_webhooks strip (url +:+ ",") = parse_webhooks strip url
  ∧ "" ∉ parse_webhooks strip url.
Proof.
  intros Hstrip Hurl. unfold parse_webhooks.
  rewrite decide_False by (by destruct url).
  rewrite decide_False by done. split.
  - change "," with (String "," "") at 1.
    rewrite split_on_snoc, map_app, List.filter_app. simpl.
    rewrite Hstrip. simpl. by rewrite app_nil_r.
  - intros Hin. apply list_elem_of_In, filter_In in Hin as [_ Hne]. done.
Qed.

(** ** The deliveries of the notifier *)

Lemma posts_app tr1 tr2 : posts (tr1 ++ tr2) = posts tr1 ++ posts tr2.
Proof. apply flat_map_app. Qed.

Lemma error_logs_app tr1 tr2 : error_logs (tr1 ++ tr2) = error_logs tr1 ++ error_logs tr2.
Proof. apply flat_map_app. Qed.

Lemma deliver_all message urls : ∀ env w,
  ∃ w',
    for_each urls (λ url,
      try_except (client_post url message)
        (λ e, log ERROR ("Slack Error for " +:+ url +:+ ": " +:+ str e))) env w
    = (Ok tt, w')
    ∧ posts (trace w') = posts (trace w) ++ map (λ url, (url, message)) urls
    ∧ error_logs (trace w') = error_logs (trace w) ++ delivery_errors env (n_http w) urls.
Proof.
  induction urls as [|url urls IH]; intros env w.
  - exists w. simpl. by rewrite !app_nil_r.
  - simpl. munfold.
    destruct (http env (n_http w) url) as [code|msg] eqn:Hr;
      edestruct IH as (w' & -> & Hp & He); eexists; (split; [done|]);
      rewrite Hp, He; simpl; rewrite ?posts_app, ?error_logs_app; simpl;
      rewrite ?posts_app, ?error_logs_app; simpl;
      by rewrite ?app_nil_r, <- ?app_assoc.
Qed.

(** X4.  [send_slack_alert] never raises and tries every webhook once, in
    order, whatever happened to the ones before: a webhook that does not
    answer is logged as an error and skipped; an answer of any status, an
    error status included, counts as delivered.  It does not touch the
    store. *)
Theorem notifier_tries_every_webhook message env w :
  ∃ w',
    send_slack_alert message env w = (Ok tt, w')
    ∧ posts (trace w') = posts (trace w) ++ map (λ url, (url, message)) webhooks
    ∧ error_logs (trace w') =
        error_logs (trace w) ++ delivery_errors env (n_http w) webhooks
    ∧ same_store w w'.
Proof.
  destruct (send_slack_alert_spec message env w) as (w' & Hrun & Hs & _).
  exists w'. split; [done|]. unfold send_slack_alert in Hrun.
  destruct (deliver_all message webhooks env (emit (EvAlert message) w))
    as (w'' & Hrun' & Hp & He).
  rewrite Hrun' in Hrun. injection Hrun as ->.
  rewrite Hp, He. simpl. rewrite posts_app, error_logs_app. simpl.
  by rewrite !app_nil_r.
Qed.

(** ** What the program keeps of the store *)

Lemma kept_refl P w : kept P w w.
Proof. by intros ?. Qed.

Lemma kept_trans P w1 w2 w3 : kept P w1 w2 → kept P w2 w3 → kept P w1 w3.
Proof. unfold kept. auto. Qed.

Lemma kept_same P w w' :
  crashes w' = crashes w → crash_history w' = crash_history w → kept P w w'.
Proof. unfold kept. by intros -> ->. Qed.

Lemma keeps_ret {A} P (a : A) : keeps P (mret a).
Proof. intros env w. apply kept_refl. Qed.

Lemma keeps_bind {A B} P (m : M A) (k : A → M B) :
  keeps P m → (∀ a, keeps P (k a)) → keeps P (m ≫= k).
Proof.
  intros Hm Hk env w. specialize (Hm env w). rewrite bind_run.
  destruct (m env w) as [[a|e] w1]; simpl in *; [|done].
  eapply kept_trans; [exact Hm | apply Hk].
Qed.

Lemma keeps_try_except {A} P (body : M A) handler :
  keeps P body → (∀ e, keeps P (handler e)) → keeps P (try_except body handler).
Proof.
  intros Hm Hk env w. specialize (Hm env w). unfold try_except.
  destruct (body env w) as [[a|e] w1]; simpl in *; [done|].
  eapply kept_trans; [exact Hm | apply Hk].
Qed.

Lemma keeps_for_each {A} P (xs : list A) body :
  (∀ x, keeps P (body x)) → keeps P (for_each xs body).
Proof.
  intros Hb. induction xs as [|x xs IH]; simpl.
  - apply keeps_ret.
  - apply keeps_bind; [apply Hb | intros _; apply IH].
Qed.

Lemma keeps_quiet {A} P (m : M A) :
  (∀ env w, same_store w (m env w).2) → keeps P m.
Proof. intros H env w. destruct (H env w). by apply kept_same. Qed.

Lemma keeps_sleep P s : keeps P (sleep s).
Proof. intros env w. by apply kept_same. Qed.

Lemma keeps_log P l msg : keeps P (log l msg).
Proof. intros env w. by apply kept_same. Qed.

Lemma keeps_now P : keeps P now.
Proof. intros env w. by apply kept_same. Qed.

Lemma keeps_get_active_collection P : keeps P get_active_collection.
Proof. intros env w. by apply kept_same. Qed.

Lemma keeps_check_external_connectivity P : keeps P check_external_connectivity.
Proof. intros env w. rewrite check_external_connectivity_run. by apply kept_same. Qed.

Lemma keeps_ping_peer P url : keeps P (ping_peer url).
Proof. intros env w. rewrite ping_peer_run. by apply kept_same. Qed.

Lemma keeps_send_slack_alert P message : keeps P (send_slack_alert message).
Proof.
  intros env w.
  destruct (send_slack_alert_spec message env w) as (w' & -> & [] & _).
  by apply kept_same.
Qed.

Lemma keeps_find_one P id : keeps P (find_one id).
Proof.
  intros env w. unfold find_one, store_op.
  destruct (mongo env (n_store w)); by apply kept_same.
Qed.

Lemma keeps_delete_one P id :
  (∀ c h, P c h → P (delete id c) h) → keeps P (delete_one id).
Proof.
  intros HP env w. unfold delete_one, store_op.
  destruct (mongo env (n_store w)); [by apply kept_same|].
  intros H. simpl. by apply HP.
Qed.

Lemma keeps_update_one P id update :
  (∀ c h, P c h → P (partial_alter update id c) h) → keeps P (update_one id update).
Proof.
  intros HP env w. unfold update_one, store_op.
  destruct (mongo env (n_store w)); [by apply kept_same|].
  intros H. simpl. by apply HP.
Qed.

Lemma keeps_insert_one P id doc :
  (∀ c h, h !! id = None → P c h → P c (<[id := doc]> h)) → keeps P (insert_one id doc).
Proof.
  intros HP env w. unfold insert_one, store_op.
  destruct (mongo env (n_store w)); [by apply kept_same|]. simpl.
  destruct (crash_history w !! id) eqn:Hid; [by apply kept_same|].
  intros H. simpl. by apply HP.
Qed.

Create HintDb keep.
#[local] Hint Resolve keeps_ret keeps_sleep keeps_log keeps_now
  keeps_get_active_collection keeps_check_external_connectivity keeps_ping_peer
  keeps_send_slack_alert keeps_find_one : keep.

Ltac kstep :=
  first [ solve [auto with keep]
        | apply keeps_bind; [|intros ?] | apply keeps_try_except; [|intros ?]
        | apply keeps_for_each; intros ? ].

Lemma keeps_retry P target attempts : keeps P (retry target attempts).
Proof.
  induction attempts as [|attempt rest IH]; simpl; [auto with keep|].
  repeat kstep.
  match goal with b : bool |- _ => destruct b end; [repeat kstep | done].
Qed.

Lemma keeps_scan P targets : ∀ count results, keeps P (scan targets count results).
Proof.
  induction targets as [|target rest IH]; intros count results; simpl; repeat kstep.
Qed.

#[local] Hint Resolve keeps_retry keeps_scan : keep.

Lemma keeps_confirm P target is_alive : keeps P (confirm target is_alive).
Proof.
  unfold confirm. destruct is_alive; cbn [negb]; repeat kstep.
  match goal with b : bool |- _ => destruct b end; cbn [negb]; repeat kstep.
Qed.

#[local] Hint Resolve keeps_confirm : keep.

Lemma keeps_recovery_logic P target :
  store_stable P (ip target) → keeps P (recovery_logic target).
Proof.
  intros [_ Hdel Hins]. unfold recovery_logic. repeat kstep.
  match goal with o : option Incident |- _ => destruct o as [record|] end;
    repeat kstep.
  - apply keeps_delete_one. exact Hdel.
  - match goal with |- context [if ?b then _ else _] => destruct b end;
      repeat kstep.
    apply keeps_insert_one. intros c h. apply Hins.
Qed.

Lemma keeps_crash_logic P target :
  store_stable P (ip target) → keeps P (crash_logic target).
Proof.
  intros [Hupd _ _]. unfold crash_logic. repeat kstep.
  - apply keeps_update_one, Hupd.
  - match goal with o : option Incident |- _ => destruct o as [doc|] end;
      repeat kstep.
    match goal with |- context [if ?b then _ else _] => destruct b end;
      repeat kstep.
    apply keeps_update_one, Hupd.
Qed.

Lemma keeps_guarded P target is_alive :
  store_stable P (ip target) → keeps P (guarded target is_alive).
Proof.
  intros Hst. unfold guarded. apply keeps_try_except; [|auto with keep].
  destruct is_alive; [by apply keeps_recovery_logic | by apply keeps_crash_logic].
Qed.

Lemma keeps_process_target P peer_results target :
  store_stable P (ip target) → keeps P (process_target peer_results target).
Proof.
  intros Hst. unfold process_target. repeat kstep.
  match goal with o : option bool |- _ => destruct o end;
    [by apply keeps_guarded | auto with keep].
Qed.

Lemma keeps_tick_from P was_isolated :
  (∀ peer_results target, keeps P (process_target peer_results target)) →
  keeps P (tick was_isolated).
Proof.
  intros Hpeer. unfold tick. repeat kstep.
  match goal with o : option string |- _ => destruct o end; repeat kstep.
  match goal with b : bool |- _ => destruct b end; cbn [negb]; repeat kstep.
  match goal with p : Z * gmap string bool |- _ => destruct p as [count results] end.
  destruct (isolated count), was_isolated; cbn [negb andb]; repeat kstep.
Qed.

Lemma keeps_ticks_from P n : ∀ was_isolated,
  (∀ peer_results target, keeps P (process_target peer_results target)) →
  keeps P (ticks n was_isolated).
Proof.
  induction n as [|n IH]; intros was_isolated Hpeer; simpl; [auto with keep|].
  apply keeps_bind; [by apply keeps_tick_from | intros b; by apply IH].
Qed.

(** X5.  The history is write-once: whatever the store, the network and the
    clock answer, no number of ticks removes or changes an archived
    incident. *)
Theorem history_is_write_once n was_isolated env w :
  crash_history w ⊆ crash_history (ticks n was_isolated env w).2.
Proof.
  apply (keeps_ticks_from (λ _ h, crash_history w ⊆ h) n was_isolated); [|done].
  intros peer_results target. apply keeps_process_target.
  split; [done | done |].
  intros key doc c h Hfresh Hsub. apply insert_subseteq_r; [|done].
  by eapply lookup_weaken_None.
Qed.

(** X6.  The processing of one peer touches no other peer's incident:
    whatever the outside answers, the record under any other ip is the same
    before and after. *)
Theorem peers_do_not_interfere peer_results target other env w :
  other ≠ ip target →
  crashes (process_target peer_results target env w).2 !! other = crashes w !! other.
Proof.
  intros Hother.
  apply (keeps_process_target (λ c _, c !! other = crashes w !! other));
    [|done].
  split.
  - intros f c h Hc. by rewrite lookup_partial_alter_ne.
  - intros c h Hc. by rewrite lookup_delete_ne.
  - done.
Qed.

(** ** The invariant of the store *)

Lemma bson_datetime_idemp t : bson_datetime (bson_datetime t) = bson_datetime t.
Proof. unfold bson_datetime. by rewrite Z.div_mul. Qed.

Lemma bson_datetime_after_delay d t minutes :
  bson_datetime d = d →
  d + minutes * us_per_minute ≤ t →
  d + minutes * us_per_minute ≤ bson_datetime t.
Proof.
  unfold bson_datetime, us_per_minute, us_per_second. intros Hd Ht.
  Z.to_euclidean_division_equations. lia.
Qed.

Lemma add_to_set_not_nil x l : add_to_set x l ≠ [].
Proof.
  unfold add_to_set. case_decide as Hin.
  - intros ->. by apply not_elem_of_nil in Hin.
  - by destruct l.
Qed.

Lemma incident_ok_mark_down name' t server doc r :
  (∀ d, doc = Some d → incident_ok d) →
  mark_down name' t server doc = Some r →
  incident_ok r.
Proof.
  intros Hdoc Hr. destruct doc as [d|]; injection Hr as <-.
  - destruct (Hdoc d eq_refl) as (_ & _ & Hal & Hlast).
    split_and!; simpl; [done | apply add_to_set_not_nil | done | done].
  - split_and!; simpl; [done | done | apply bson_datetime_idemp | done].
Qed.

Lemma store_ok_mark_down name' t server id c h :
  store_ok c h → store_ok (partial_alter (mark_down name' t server) id c) h.
Proof.
  intros [Hc Hh]. split; [|done]. intros k r Hk.
  destruct (decide (k = id)) as [->|Hne].
  - rewrite lookup_partial_alter_eq in Hk.
    eapply incident_ok_mark_down; [|exact Hk]. intros d Hd. by eapply Hc.
  - rewrite lookup_partial_alter_ne in Hk by done. by eapply Hc.
Qed.

Lemma store_ok_mark_alerted t id doc c h :
  store_ok c h →
  c !! id = Some doc →
  should_alert t doc = true →
  store_ok (partial_alter (mark_alerted t) id c) h.
Proof.
  intros [Hc Hh] Hdoc Hsa. split; [|done]. intros k r Hk.
  destruct (decide (k = id)) as [->|Hne].
  - rewrite lookup_partial_alter_eq, Hdoc in Hk. injection Hk as <-.
    destruct (Hc id doc Hdoc) as (Hst & Hw & Hal & _).
    split_and!; simpl; [done | done | done |].
    apply bson_datetime_after_delay; [done|].
    unfold should_alert, minutes_ge in Hsa.
    apply andb_true_iff in Hsa as [Hsa _]. apply Z.leb_le in Hsa. lia.
  - rewrite lookup_partial_alter_ne in Hk by done. by eapply Hc.
Qed.

Lemma store_ok_delete id c h : store_ok c h → store_ok (delete id c) h.
Proof. intros [Hc Hh]. split; [by apply map_Forall_delete | done]. Qed.

Lemma store_ok_archive key record t c h :
  store_ok c h →
  incident_ok record →
  us_per_minute ≤ t - down_since record →
  store_ok c (<[key := archive_record record t]> h).
Proof.
  intros [Hc Hh] (_ & Hw & Hal & _) Hdur. split; [done|].
  apply map_Forall_insert_2; [|done].
  split_and!; simpl; [done | done |].
  pose proof (bson_datetime_after_delay (down_since record) t 1 Hal). lia.
Qed.

Lemma keeps_store_ok_crash_logic target : keeps store_ok (crash_logic target).
Proof.
  intros env w Hok.
  unfold crash_logic, update_one, find_one. munfold. simpl.
  destruct (mongo env (n_store w)) as [m0|]; simpl; [done|].
  pose proof (store_ok_mark_down (name target) (clock env (n_clock w))
                MY_SERVER_ID (ip target) _ _ Hok) as Hok1.
  destruct (mongo env (S (n_store w))) as [m1|]; simpl; [done|].
  destruct (partial_alter _ (ip target) (crashes w) !! ip target) as [doc|] eqn:Hdoc;
    simpl; [|done].
  destruct (should_alert (clock env (n_clock w)) doc) eqn:Hsa; simpl; [|done].
  destruct (mongo env (S (S (n_store w)))) as [m2|]; simpl; [done|].
  match goal with |- context [send_slack_alert ?m ?e ?w0] =>
    destruct (send_slack_alert_spec m e w0) as (w' & -> & [Hc Hh _ _ _ _ _] & _) end.
  simpl in *. rewrite Hc, Hh. by eapply store_ok_mark_alerted.
Qed.

Lemma keeps_store_ok_recovery_logic target : keeps store_ok (recovery_logic target).
Proof.
  intros env w Hok.
  unfold recovery_logic, find_one, delete_one, insert_one. munfold. simpl.
  destruct (mongo env (n_store w)) as [m0|]; simpl; [done|].
  destruct (crashes w !! ip target) as [record|] eqn:Hrec; simpl; [|done].
  destruct (mongo env (S (n_store w))) as [m1|]; simpl; [done|].
  pose proof (store_ok_delete (ip target) _ _ Hok) as Hok1.
  rewrite int_minutes_ge_1.
  destruct (us_per_minute <=? clock env (n_clock w) - down_since record) eqn:Hdur;
    simpl; [|done].
  destruct (mongo env (S (S (n_store w)))) as [m2|]; simpl; [done|].
  destruct (crash_history w !! _) as [old|] eqn:Hkey; simpl; [done|].
  match goal with |- context [send_slack_alert ?m ?e ?w0] =>
    destruct (send_slack_alert_spec m e w0) as (w' & -> & [Hc Hh _ _ _ _ _] & _) end.
  simpl in *. rewrite Hc, Hh. apply store_ok_archive; [done | | by apply Z.leb_le].
  destruct Hok as [Hok _]. by eapply Hok.
Qed.

Lemma keeps_store_ok_process_target peer_results target :
  keeps store_ok (process_target peer_results target).
Proof.
  unfold process_target. repeat kstep.
  match goal with o : option bool |- _ => destruct o as [is_alive|] end;
    [|auto with keep].
  unfold guarded. apply keeps_try_except; [|auto with keep].
  destruct is_alive;
    [apply keeps_store_ok_recovery_logic | apply keeps_store_ok_crash_logic].
Qed.

(** X7.  The engine keeps the store well formed, whatever the outside
    answers and for any number of ticks: every active incident is marked
    down, has a witness, and, once alerted, bears an alert time at least the
    confirmation delay after [down_since]; every archived incident is marked
    resolved and was recovered at least one minute after it began.  The
    empty store is well formed. *)
Theorem store_stays_well_formed n was_isolated env w :
  store_ok (crashes w) (crash_history w) →
  store_ok ∅ ∅
  ∧ let w' := (ticks n was_isolated env w).2 in
    store_ok (crashes w') (crash_history w').
Proof.
  intros Hok. split.
  - split; apply map_Forall_empty.
  - by apply (keeps_ticks_from store_ok n was_isolated
                keeps_store_ok_process_target env w).
Qed.

(** ** The first and the later down-ticks *)

Lemma partial_alter_mark_down_fresh name' t server id (c : gmap string Incident) :
  c !! id = None →
  partial_alter (mark_down name' t server) id c
  = <[id := {| status := "down"; target_name := name';
               down_since := bson_datetime t; last_alert_sent_at := None;
               witnesses := [server] |}]> c.
Proof.
  intros Hnone. apply map_eq. intros k. destruct (decide (k = id)) as [->|Hne].
  - by rewrite lookup_partial_alter_eq, lookup_insert_eq, Hnone.
  - by rewrite lookup_partial_alter_ne, lookup_insert_ne.
Qed.

Lemma bson_datetime_bounds t : bson_datetime t ≤ t < bson_datetime t + 1000.
Proof. unfold bson_datetime. Z.to_euclidean_division_equations. lia. Qed.

(** X8.  The first down-tick of a peer that has no record, with the store
    answering, opens the incident and sends nothing: the record is created
    with [down_since] the current time in whole milliseconds, no alert time,
    and this instance as its only witness. *)
Theorem first_down_tick_opens_incident target env w :
  (∀ k, mongo env k = None) →
  crashes w !! ip target = None →
  ∃ w',
    guarded target false env w = (Ok tt, w')
    ∧ crashes w' =
        <[ip target := {| status := "down"; target_name := name target;
                          down_since := bson_datetime (clock env (n_clock w));
                          last_alert_sent_at := None;
                          witnesses := [MY_SERVER_ID] |}]> (crashes w)
    ∧ crash_history w' = crash_history w
    ∧ alerts (trace w') = alerts (trace w).
Proof.
  intros Hm Hnone.
  set (t := clock env (n_clock w)).
  set (doc := {| status := "down"; target_name := name target;
                 down_since := bson_datetime t; last_alert_sent_at := None;
                 witnesses := [MY_SERVER_ID] |}).
  destruct (crash_logic_run target env w doc) as (w' & Hrun & _ & Hh & Hc & Ha);
    try apply Hm.
  { by rewrite Hnone. }
  fold t in Hc, Ha.
  assert (Hsa : should_alert t doc = false).
  { apply should_alert_early. simpl.
    pose proof (bson_datetime_bounds t).
    unfold CONFIRMATION_DELAY_MINUTES, us_per_minute, us_per_second. lia. }
  rewrite Hsa in Hc, Ha. rewrite app_nil_r in Ha.
  exists w'. unfold guarded, try_except. rewrite Hrun.
  split_and!; try done.
  rewrite Hc. by apply partial_alter_mark_down_fresh.
Qed.

Lemma add_to_set_elem x l : x ∈ add_to_set x l.
Proof. unfold add_to_set. case_decide; set_solver. Qed.

Lemma add_to_set_prefix x l : l `prefix_of` add_to_set x l.
Proof. unfold add_to_set. case_decide; [done | by apply prefix_app_r]. Qed.

Lemma add_to_set_NoDup x l : NoDup l → NoDup (add_to_set x l).
Proof.
  unfold add_to_set. case_decide as Hin; [done|]. intros Hl.
  apply NoDup_app. split_and!; [done | | apply NoDup_singleton].
  intros y Hy Hyx. apply list_elem_of_singleton in Hyx. by subst.
Qed.

(** X9.  A down-tick on an incident that exists, with the store answering,
    refreshes [target_name], keeps the status [down], and adds this instance
    to the witnesses: the witnesses so far stay, in their order, the instance
    is among them afterwards, no duplicate appears, and an instance already a
    witness changes nothing. *)
Theorem down_tick_adds_witness target env w r :
  (∀ k, mongo env k = None) →
  crashes w !! ip target = Some r →
  ∃ w' r',
    guarded target false env w = (Ok tt, w')
    ∧ crashes w' !! ip target = Some r'
    ∧ status r' = "down"
    ∧ target_name r' = name target
    ∧ MY_SERVER_ID ∈ witnesses r'
    ∧ witnesses r `prefix_of` witnesses r'
    ∧ (NoDup (witnesses r) → NoDup (witnesses r'))
    ∧ (MY_SERVER_ID ∈ witnesses r → witnesses r' = witnesses r).
Proof.
  intros Hm Hr.
  destruct (guarded_down_run target env w r Hm Hr) as (w' & Hrun & _ & _ & Hrec & _).
  eexists w', _. split; [exact Hrun|]. split; [exact Hrec|].
  destruct (should_alert (clock env (n_clock w)) r); simpl;
    (split_and!; [done | done | apply add_to_set_elem | apply add_to_set_prefix
                 | apply add_to_set_NoDup |]);
    intros Hin; unfold add_to_set; by rewrite decide_True.
Qed.

(** X10.  A peer that answered the scan and has no incident costs one read
    of the store and nothing else: no write, no alert, no further probe; if
    the read raises, the error is logged. *)
Theorem healthy_peer_costs_one_read (peer_results : gmap string bool) target env w :
  peer_results !! ip target = Some true →
  crashes w !! ip target = None →
  process_target peer_results target env w
  = (Ok tt,
     match mongo env (n_store w) with
     | None => next_store (emit (EvFind (ip target)) w)
     | Some msg =>
         emit (EvLog ERROR ("Error processing " +:+ name target +:+ ": " +:+ msg))
           (next_store (emit (EvFind (ip target)) w))
     end).
Proof.
  intros Halive Hnone.
  unfold process_target, confirm. rewrite Halive. simpl.
  unfold guarded, recovery_logic, find_one. munfold. simpl.
  destruct (mongo env (n_store w)); simpl; [done|]. by rewrite Hnone.
Qed.

(** X11.  When the monitor has no external connectivity, the tick stops
    after the connectivity check: no peer is probed, the store is not
    touched, nothing is sent, and the isolation state is left as it was. *)
Theorem offline_tick_probes_no_peer was_isolated collection env w :
  active_collection w = Some collection →
  alive_reply (http env (n_http w) GOOGLE_HEALTH_CHECK_URL) = false →
  tick was_isolated env w
  = (Ok was_isolated,
     emit (EvSleep 30)
       (emit (EvLog WARNING "Local internet down — Pausing monitoring loop.")
          (next_http
             (emit (EvGet GOOGLE_HEALTH_CHECK_URL 3
                      (http env (n_http w) GOOGLE_HEALTH_CHECK_URL)) w)))).
Proof.
  intros Hac Hoff. unfold tick. rewrite bind_run.
  unfold get_active_collection at 1. rewrite Hac.
  rewrite bind_run, check_external_connectivity_run. cbv zeta. rewrite Hoff.
  reflexivity.
Qed.

(** ** The cadence of the loop *)

Lemma normal_monitoring_ends_with_sleep (peer_results : gmap string bool) (b : bool) env w :
  ∃ w1,
    (for_each TARGETS (process_target peer_results);; sleep 30;; mret b) env w
    = (Ok b, emit (EvSleep 30) w1).
Proof.
  destruct (safe_run (for_each TARGETS (process_target peer_results)) env w)
    as ([] & w1 & Hrun); [repeat step|].
  exists w1. by rewrite bind_run, Hrun.
Qed.

(** X12.  Every tick, whatever path it takes and whatever the outside
    answers, completes without raising and ends with the sleep of 30
    seconds: the loop never spins. *)
Theorem tick_ends_with_sleep was_isolated env w :
  ∃ state w1, tick was_isolated env w = (Ok state, emit (EvSleep 30) w1).
Proof.
  unfold tick. rewrite bind_run. unfold get_active_collection at 1.
  destruct (active_collection w) as [c|]; [|by eexists _, _].
  rewrite bind_run, check_external_connectivity_run. cbv zeta.
  destruct (alive_reply _); cbn [negb]; [|by eexists _, _].
  rewrite bind_run.
  match goal with |- context [scan TARGETS 0 ∅ ?e ?w0] =>
    destruct (scan_run TARGETS 0 ∅ e w0) as (results & w1 & Hscan & _) end.
  rewrite Hscan. cbv zeta.
  destruct (isolated _), was_isolated; cbn [negb andb].
  - by eexists _, _.
  - run.
    match goal with |- context [send_slack_alert ?m ?e ?w2] =>
      destruct (send_slack_alert_spec m e w2) as (w3 & -> & _) end.
    run. by eexists _, _.
  - rewrite bind_run, (bind_run (log _ _)), log_run. cbv beta iota.
    rewrite (bind_run (send_slack_alert _)).
    match goal with |- context [send_slack_alert ?m ?e ?w2] =>
      destruct (send_slack_alert_spec m e w2) as (w3 & -> & _) end.
    rewrite ret_run.
    destruct (normal_monitoring_ends_with_sleep results false env w3) as (w4 & ->).
    by eexists _, _.
  - rewrite bind_run, ret_run.
    destruct (normal_monitoring_ends_with_sleep results false env w1) as (w4 & ->).
    by eexists _, _.
Qed.

(** ** Leaving isolation *)

Lemma emits_peer_recovery_logic target : emits peer_alert (recovery_logic target).
Proof.
  unfold recovery_logic. repeat step.
  match goal with o : option Incident |- _ => destruct o as [record|] end;
    repeat step.
  match goal with |- context [if ?b then _ else _] => destruct b end;
    repeat step.
  apply emits_send_slack_alert. eexists. left. reflexivity.
Qed.

Lemma emits_peer_crash_logic target : emits peer_alert (crash_logic target).
Proof.
  unfold crash_logic. repeat step.
  match goal with o : option Incident |- _ => destruct o as [doc|] end;
    repeat step.
  match goal with |- context [if ?b then _ else _] => destruct b end;
    repeat step.
  apply emits_send_slack_alert. unfold crash_message.
  destruct (last_alert_sent_at doc); eexists;
    [right; right; reflexivity | right; left; reflexivity].
Qed.

Lemma emits_peer_process_target peer_results target :
  emits peer_alert (process_target peer_results target).
Proof.
  unfold process_target. apply emits_bind; [apply emits_confirm|].
  intros [is_alive|]; [|apply emits_ret].
  unfold guarded. apply emits_try_except; [|intros e; apply emits_log].
  destruct is_alive; [apply emits_peer_recovery_logic | apply emits_peer_crash_logic].
Qed.

Lemma peer_monitoring_run (peer_results : gmap string bool) (b : bool) env w :
  ∃ w',
    (for_each TARGETS (process_target peer_results);; sleep 30;; mret b) env w
    = (Ok b, w')
    ∧ sends peer_alert w w'.
Proof.
  destruct (safe_run (for_each TARGETS (process_target peer_results)) env w)
    as ([] & w1 & Hrun); [repeat step|].
  assert (Hsends : sends peer_alert w w1).
  { pose proof (emits_for_each peer_alert TARGETS (process_target peer_results)
                  (emits_peer_process_target peer_results) env w) as He.
    by rewrite Hrun in He. }
  rewrite bind_run, Hrun. eexists. split; [reflexivity|].
  eapply sends_trans; [exact Hsends|]. apply sends_quiet. simpl.
  rewrite alerts_app. simpl. by rewrite app_nil_r.
Qed.

Lemma peer_loop_run (peer_results : gmap string bool) env w :
  ∃ w' sent,
    for_each TARGETS (process_target peer_results) env w = (Ok tt, w')
    ∧ alerts (trace w') = alerts (trace w) ++ sent
    ∧ Forall peer_alert sent.
Proof.
  destruct (safe_run (for_each TARGETS (process_target peer_results)) env w)
    as ([] & w1 & Hrun); [repeat step|].
  pose proof (emits_for_each peer_alert TARGETS (process_target peer_results)
                (emits_peer_process_target peer_results) env w) as He.
  rewrite Hrun in He. destruct He as (sent & Hsent & Hall). by exists w1, sent.
Qed.

Lemma count_occ_peer_alerts sent message :
  Forall peer_alert sent → ¬ peer_alert message →
  count_occ String.string_dec sent message = 0%nat.
Proof.
  intros Hall Hm. apply count_occ_not_In. intros Hin.
  apply Hm. rewrite Forall_forall in Hall. apply Hall. by apply list_elem_of_In.
Qed.

(** X13.  The reconnection alert is sent once on the ticks that find the
    monitor not isolated after it was, and on no other tick.  On such a tick
    it comes first and the state becomes CONNECTED; the per-peer processing
    of the same tick follows: after the scan, the log entry and the alert,
    the loop over the targets runs on the results of that scan, from the
    world the alert left, and the tick ends with the sleep that follows the
    loop; the alerts of the loop are about peers only. *)
Theorem reconnection_alert env w was_isolated :
  let passes :=
    bool_decide (is_Some (active_collection w))
    && alive_reply (http env (n_http w) GOOGLE_HEALTH_CHECK_URL) in
  let replies := scan_replies env (S (n_http w)) TARGETS in
  let is_isolated :=
    bool_decide (0 < length TARGETS)%nat
    && forallb (λ r, negb (alive_reply r)) replies in
  let reconnected :=
    " *MONITOR RECONNECTED:* *" +:+ MY_SERVER_ID +:+ "* has rejoined the mesh." in
  let checked :=
    next_http (emit (EvGet GOOGLE_HEALTH_CHECK_URL 3
                       (http env (n_http w) GOOGLE_HEALTH_CHECK_URL)) w) in
  ∃ state w' sent,
    tick was_isolated env w = (Ok state, w')
    ∧ alerts (trace w') = alerts (trace w) ++ sent
    ∧ count_occ String.string_dec sent reconnected
      = (if passes && negb is_isolated && was_isolated then 1 else 0)%nat
    ∧ (passes = true → is_isolated = false → was_isolated = true →
       state = false
       ∧ ∃ about_peers count peer_results scanned alerted processed,
           sent = reconnected :: about_peers
           ∧ Forall peer_alert about_peers
           ∧ scan TARGETS 0 ∅ env checked = (Ok (count, peer_results), scanned)
           ∧ send_slack_alert reconnected env
               (emit (EvLog INFO "Connection restored. Exiting isolation mode.") scanned)
             = (Ok tt, alerted)
           ∧ for_each TARGETS (process_target peer_results) env alerted
             = (Ok tt, processed)
           ∧ alerts (trace processed) = alerts (trace alerted) ++ about_peers
           ∧ w' = emit (EvSleep 30) processed).
Proof.
  intros passes replies is_isolated reconnected checked.
  assert (Hrec : ¬ peer_alert reconnected).
  { intros [rest [H|[H|H]]]; discriminate H. }
  unfold tick. rewrite bind_run. unfold get_active_collection at 1.
  destruct (active_collection w) as [c|] eqn:Hac; subst passes.
  2:{ rewrite bool_decide_eq_false_2 by (by intros [? ?]). cbn [andb].
      eexists _, _, []. split; [reflexivity|]. split_and!; try done.
      simpl. rewrite !alerts_app. simpl. by rewrite !app_nil_r. }
  rewrite bool_decide_eq_true_2 by eauto. cbn [andb].
  rewrite bind_run, check_external_connectivity_run.
  set (r0 := http env (n_http w) GOOGLE_HEALTH_CHECK_URL).
  set (w0 := next_http (emit (EvGet GOOGLE_HEALTH_CHECK_URL 3 r0) w)).
  destruct (alive_reply r0) eqn:H0; cbn [negb].
  2:{ eexists _, _, []. split; [reflexivity|]. split_and!; try done.
      simpl. rewrite !alerts_app. simpl. by rewrite !app_nil_r. }
  destruct (scan_run TARGETS 0 ∅ env w0) as (results & w1 & Hscan & Hs & Ha & Hp & Hn).
  rewrite bind_run, Hscan. cbv zeta. change (n_http w0) with (S (n_http w)).
  rewrite isolated_spec. fold replies is_isolated.
  assert (Ha0 : alerts (trace w1) = alerts (trace w)).
  { rewrite Ha. subst w0. simpl. rewrite alerts_app. simpl. by rewrite app_nil_r. }
  destruct is_isolated, was_isolated; cbn [negb andb].
  - eexists _, _, []. split; [reflexivity|]. split_and!; try done.
    simpl. rewrite !alerts_app. simpl. by rewrite !app_nil_r.
  - run.
    match goal with |- context [send_slack_alert ?m ?e ?w2] =>
      destruct (send_slack_alert_spec m e w2) as (w3 & -> & Hs3 & Ha3 & Hp3 & _) end.
    run. eexists _, _, [_]. split; [reflexivity|]. split_and!; [| |done].
    + simpl. rewrite alerts_app, Ha3. simpl. rewrite alerts_app, Ha0. simpl.
      by rewrite !app_nil_r.
    + cbn [count_occ].
      match goal with |- context [String.string_dec ?a ?b] =>
        destruct (String.string_dec a b) as [Heq|]; [discriminate Heq | done] end.
  - rewrite bind_run, (bind_run (log _ _)), log_run. cbv beta iota.
    rewrite (bind_run (send_slack_alert _)).
    match goal with |- context [send_slack_alert ?m ?e ?w2] =>
      destruct (send_slack_alert_spec m e w2) as (w3 & Hsend & Hs3 & Ha3 & Hp3 & _) end.
    rewrite Hsend, ret_run.
    destruct (peer_loop_run results env w3) as (w4 & sent & Hloop & Hsent & Hall).
    rewrite bind_run, Hloop. run.
    eexists _, _, (reconnected :: sent). split; [reflexivity|]. split_and!.
    + simpl. rewrite alerts_app, Hsent, Ha3. simpl. rewrite alerts_app, Ha0. simpl.
      by rewrite !app_nil_r, <- !app_assoc.
    + cbn [count_occ].
      destruct (String.string_dec reconnected reconnected); [|done].
      by rewrite count_occ_peer_alerts.
    + intros _ _ _. split; [done|].
      exists sent. eexists. exists results, w1, w3, w4.
      split_and!; [done | done | exact Hscan | exact Hsend | exact Hloop | exact Hsent | done].
  - rewrite bind_run, ret_run.
    destruct (peer_monitoring_run results false env w1) as (w4 & Hrun & sent & Hsent & Hall).
    rewrite Hrun. exists false, w4, sent. split; [reflexivity|]. split_and!; [| |done].
    + by rewrite Hsent, Ha0.
    + by apply count_occ_peer_alerts.
Qed.

(** ** Store errors in the middle of a peer's processing *)

(** X14.  The history key has the precision of a second: when the key of a
    recovery is already taken, the insert raises after the delete went
    through, so that the active record is gone, the history is as it was (the
    older entry stays), the error is logged and no recovery alert is sent. *)
Theorem history_key_collision target env w r old :
  (∀ k, mongo env k = None) →
  crashes w !! ip target = Some r →
  let t := clock env (n_clock w) in
  us_per_minute ≤ t - down_since r →
  crash_history w !! (ip target +:+ "_" +:+ strftime t) = Some old →
  ∃ w' e,
    guarded target true env w = (Ok tt, w')
    ∧ crashes w' !! ip target = None
    ∧ crash_history w' = crash_history w
    ∧ alerts (trace w') = alerts (trace w)
    ∧ error_logs (trace w') =
        error_logs (trace w) ++ ["Error processing " +:+ name target +:+ ": " +:+ e].
Proof.
  intros Hm Hr t Hdur Hkey.
  unfold guarded, recovery_logic, find_one, delete_one, insert_one. munfold. simpl.
  rewrite !Hm. simpl. rewrite Hr. simpl. fold t. rewrite !Hm.
  rewrite int_minutes_ge_1. apply Z.leb_le in Hdur. rewrite Hdur.
  simpl. rewrite !Hm, Hkey.
  eexists _, _. split; [done|]. simpl. split_and!; try done.
  - apply lookup_delete_eq.
  - rewrite !alerts_app. simpl. by rewrite !app_nil_r.
  - rewrite !error_logs_app. simpl. by rewrite !app_nil_r.
Qed.

(** X15.  The alert time is written before the alert is dispatched: when
    that write raises, no alert is sent, the error is logged, and the record
    keeps its former alert time, so that the alert is due again on the next
    tick. *)
Theorem alert_waits_for_the_stamp target env w r msg :
  crashes w !! ip target = Some r →
  mongo env (n_store w) = None →
  mongo env (S (n_store w)) = None →
  mongo env (S (S (n_store w))) = Some msg →
  should_alert (clock env (n_clock w)) r = true →
  ∃ w' r',
    guarded target false env w = (Ok tt, w')
    ∧ alerts (trace w') = alerts (trace w)
    ∧ crashes w' !! ip target = Some r'
    ∧ down_since r' = down_since r
    ∧ last_alert_sent_at r' = last_alert_sent_at r
    ∧ (∀ t, should_alert t r' = should_alert t r)
    ∧ error_logs (trace w') =
        error_logs (trace w) ++ ["Error processing " +:+ name target +:+ ": " +:+ msg].
Proof.
  intros Hr H0 H1 H2 Hsa.
  unfold guarded, crash_logic, update_one, find_one. munfold. simpl.
  rewrite H0. simpl. rewrite H1. simpl.
  rewrite lookup_partial_alter_eq, Hr. simpl.
  set (doc := {| status := "down"; target_name := name target;
                 down_since := down_since r;
                 last_alert_sent_at := last_alert_sent_at r;
                 witnesses := add_to_set MY_SERVER_ID (witnesses r) |}).
  change (should_alert (clock env (n_clock w)) doc)
    with (should_alert (clock env (n_clock w)) r).
  rewrite Hsa. simpl. rewrite H2.
  eexists _, doc. split; [done|]. simpl. split_and!.
  - rewrite !alerts_app. simpl. by rewrite !app_nil_r.
  - by rewrite lookup_partial_alter_eq, Hr.
  - done.
  - done.
  - done.
  - rewrite !error_logs_app. simpl. by rewrite !app_nil_r.
Qed.

(** ** The outcomes of the scan *)

Lemma scan_results_run targets : ∀ count results env w,
  ∃ count' w',
    scan targets count results env w
    = (Ok (count', scan_results env (n_http w) targets results), w').
Proof.
  induction targets as [|target rest IH]; intros count results env w; simpl.
  - by eexists _, _.
  - rewrite bind_run, ping_peer_run. cbv zeta.
    edestruct IH as (count' & w' & ->). by eexists _, _.
Qed.

Lemma scan_results_other env targets : ∀ n results id,
  id ∉ map ip targets →
  scan_results env n targets results !! id = results !! id.
Proof.
  induction targets as [|target rest IH]; intros n results id Hid; simpl; [done|].
  simpl in Hid. apply not_elem_of_cons in Hid as [Hne Hid].
  rewrite IH by done. by rewrite lookup_insert_ne.
Qed.

Lemma scan_results_last env before target after : ∀ n results,
  ip target ∉ map ip after →
  scan_results env n (before ++ target :: after) results !! ip target
  = Some (alive_reply (http env (n + length before) (health_url (ip target)))).
Proof.
  induction before as [|t0 before IH]; intros n results Hlast; simpl.
  - rewrite scan_results_other by done.
    by rewrite lookup_insert_eq, Nat.add_0_r.
  - rewrite IH by done. do 3 f_equal. lia.
Qed.

Lemma scan_results_dom env targets : ∀ n results id,
  is_Some (results !! id) →
  is_Some (scan_results env n targets results !! id).
Proof.
  induction targets as [|target rest IH]; intros n results id Hid; simpl; [done|].
  apply IH. destruct (decide (ip target = id)) as [->|Hne].
  - rewrite lookup_insert_eq. by eauto.
  - by rewrite lookup_insert_ne.
Qed.

Lemma scan_results_is_Some env targets : ∀ n results target,
  target ∈ targets →
  is_Some (scan_results env n targets results !! ip target).
Proof.
  induction targets as [|t0 rest IH]; intros n results target Hin; simpl.
  - by apply elem_of_nil in Hin.
  - apply elem_of_cons in Hin as [->|Hin]; [|by apply IH].
    apply scan_results_dom. rewrite lookup_insert_eq. by eauto.
Qed.

(** X16.  The scan leaves an outcome for every target, so that the default
    of [peer_results.get(ip, False)] is never used; the outcome under an ip
    is that of its last probe in the scan: of two targets with the same ip,
    the first is processed with the outcome of the second. *)
Theorem scan_outcomes env w :
  ∃ count peer_results w',
    scan TARGETS 0 ∅ env w = (Ok (count, peer_results), w')
    ∧ (∀ target, target ∈ TARGETS → is_Some (peer_results !! ip target))
    ∧ (∀ before target after,
         TARGETS = before ++ target :: after →
         ip target ∉ map ip after →
         peer_results !! ip target
         = Some (alive_reply (http env (n_http w + length before)
                                (health_url (ip target))))).
Proof.
  destruct (scan_results_run TARGETS 0 ∅ env w) as (count & w' & Hrun).
  eexists _, _, _. split; [exact Hrun|]. split.
  - intros target Hin. by apply scan_results_is_Some.
  - intros before target after -> Hnot. by apply scan_results_last.
Qed.

(** ** Edges of the configuration *)

Lemma error_logs_waiting n :
  error_logs (concat (replicate n [EvLog WARNING "Waiting for DB connection..."; EvSleep 30])) = [].
Proof. induction n as [|n IH]; simpl; done. Qed.

(** X17.  With [MONGO_URI] empty no connection is attempted and nothing is
    logged as an error, and the monitor never monitors: for any number of
    ticks it only logs that it is waiting and sleeps, without a probe or a
    store request. *)
Theorem unconfigured_store_never_monitors n env w :
  MONGO_URI = "" →
  active_collection w = None →
  ∃ w',
    lifespan n env w = (Ok false, w')
    ∧ trace w' =
        trace w ++ [EvSleep 5; EvLog INFO banner] ++
        concat (replicate n [EvLog WARNING "Waiting for DB connection..."; EvSleep 30])
    ∧ error_logs (trace w') = error_logs (trace w)
    ∧ n_http w' = n_http w
    ∧ n_store w' = n_store w.
Proof.
  intros Huri Hac. unfold lifespan, connect, monitor_peers.
  rewrite decide_True by done. run.
  edestruct (paused_ticks n false env) as (w' & -> & Htr & _ & _ & _ & Hn & Hs);
    [|exists w'; split; [reflexivity|]].
  { exact Hac. }
  split_and!; try done.
  - rewrite Htr. simpl. by rewrite <- !app_assoc.
  - rewrite Htr. simpl. rewrite !error_logs_app, error_logs_waiting. simpl.
    by rewrite !app_nil_r.
Qed.

(** X18.  With no target configured a connected monitor is never isolated:
    its tick is the connectivity check and the sleep, and nothing else. *)
Theorem no_targets_no_isolation collection env w :
  TARGETS = [] →
  active_collection w = Some collection →
  alive_reply (http env (n_http w) GOOGLE_HEALTH_CHECK_URL) = true →
  tick false env w
  = (Ok false,
     emit (EvSleep 30)
       (next_http
          (emit (EvGet GOOGLE_HEALTH_CHECK_URL 3
                   (http env (n_http w) GOOGLE_HEALTH_CHECK_URL)) w))).
Proof.
  intros Hnil Hac Hon. unfold tick, isolated. rewrite Hnil. rewrite bind_run.
  unfold get_active_collection at 1. rewrite Hac.
  rewrite bind_run, check_external_connectivity_run. cbv zeta. rewrite Hon.
  reflexivity.
Qed.

(** ** An incident from its opening to its archive *)

(** The recovery of a peer whose record shows a minute or more, when the
    store answers and the history key is free. *)
Lemma resolve_run target env w r :
  (∀ k, mongo env k = None) →
  crashes w !! ip target = Some r →
  let t := clock env (n_clock w) in
  let key := ip target +:+ "_" +:+ strftime t in
  us_per_minute ≤ t - down_since r →
  crash_history w !! key = None →
  ∃ w',
    guarded target true env w = (Ok tt, w')
    ∧ crashes w' = delete (ip target) (crashes w)
    ∧ crash_history w' = <[key := archive_record r t]> (crash_history w)
    ∧ alerts (trace w') =
        alerts (trace w) ++
        [" *RECOVERY:* Server *" +:+ name target +:+ "* (" +:+ ip target +:+
         ") is back online." +:+ nl +:+
         " Was down for: " +:+ pretty (int_minutes (t - down_since r)) +:+ " mins"].
Proof.
  intros Hm Hr t key Hdur Hfresh.
  unfold guarded, recovery_logic, find_one, delete_one, insert_one. munfold. simpl.
  rewrite !Hm. simpl. rewrite Hr. simpl. fold t. rewrite !Hm.
  rewrite int_minutes_ge_1. apply Z.leb_le in Hdur. rewrite Hdur.
  simpl. rewrite !Hm. fold key. rewrite Hfresh.
  match goal with |- context [send_slack_alert ?m ?e ?w0] =>
    destruct (send_slack_alert_spec m e w0) as (w' & -> & [Hc Hh _ _ _ _ _] & Ha & _) end.
  exists w'. simpl in *. split_and!; try done.
  rewrite Ha, !alerts_app. simpl. by rewrite !app_nil_r.
Qed.

(** X19.  The life of an incident, with the store answering: a down-tick on
    a peer without record followed by an up-tick a minute or more later
    leaves the active collection as it was before the incident, and adds to
    the history exactly one entry, which bears the time of the first tick as
    [down_since], the time of the second as [recovered_at] (both in whole
    milliseconds) and this instance as witness; the only alert sent is the
    recovery alert. *)
Theorem incident_life_cycle target env w :
  (∀ k, mongo env k = None) →
  crashes w !! ip target = None →
  let t0 := clock env (n_clock w) in
  let t1 := clock env (S (n_clock w)) in
  let key := ip target +:+ "_" +:+ strftime t1 in
  us_per_minute ≤ t1 - bson_datetime t0 →
  crash_history w !! key = None →
  ∃ w1 w2,
    guarded target false env w = (Ok tt, w1)
    ∧ guarded target true env w1 = (Ok tt, w2)
    ∧ crashes w2 = crashes w
    ∧ crash_history w2 =
        <[key := {| incident := {| status := "resolved";
                                   target_name := name target;
                                   down_since := bson_datetime t0;
                                   last_alert_sent_at := None;
                                   witnesses := [MY_SERVER_ID] |};
                    recovered_at := bson_datetime t1 |}]> (crash_history w)
    ∧ alerts (trace w2) =
        alerts (trace w) ++
        [" *RECOVERY:* Server *" +:+ name target +:+ "* (" +:+ ip target +:+
         ") is back online." +:+ nl +:+
         " Was down for: " +:+ pretty (int_minutes (t1 - bson_datetime t0)) +:+ " mins"].
Proof.
  intros Hm Hnone t0 t1 key Hdur Hfresh.
  set (doc := {| status := "down"; target_name := name target;
                 down_since := bson_datetime t0; last_alert_sent_at := None;
                 witnesses := [MY_SERVER_ID] |}).
  destruct (crash_logic_run target env w doc) as (w1 & Hrun1 & Hclk & Hh1 & Hc1 & Ha1);
    try apply Hm.
  { by rewrite Hnone. }
  fold t0 in Hc1, Ha1.
  assert (Hsa : should_alert t0 doc = false).
  { apply should_alert_early. simpl. pose proof (bson_datetime_bounds t0).
    unfold CONFIRMATION_DELAY_MINUTES, us_per_minute, us_per_second. lia. }
  rewrite Hsa in Hc1, Ha1. rewrite app_nil_r in Ha1.
  rewrite (partial_alter_mark_down_fresh _ _ _ _ _ Hnone) in Hc1. fold doc in Hc1.
  destruct (resolve_run target env w1 doc Hm) as (w2 & Hrun2 & Hc2 & Hh2 & Ha2).
  { by rewrite Hc1, lookup_insert_eq. }
  { rewrite Hclk. exact Hdur. }
  { rewrite Hclk, Hh1. exact Hfresh. }
  rewrite Hclk in Hh2, Ha2. fold t1 key in Hh2, Ha2.
  exists w1, w2. unfold guarded at 1, try_except. rewrite Hrun1.
  split_and!; try done.
  - rewrite Hc2, Hc1. by apply delete_insert_id.
  - by rewrite Hh2, Hh1.
  - by rewrite Ha2, Ha1.
Qed.

(** ** The requests to the store *)

Lemma store_requests_ret {A} k (a : A) : store_requests k (mret a).
Proof. intros env w. simpl. lia. Qed.

Lemma store_requests_bind {A B} k1 k2 (m : M A) (f : A → M B) :
  store_requests k1 m → (∀ a, store_requests k2 (f a)) →
  store_requests (k1 + k2) (m ≫= f).
Proof.
  intros Hm Hf env w. specialize (Hm env w). rewrite bind_run.
  destruct (m env w) as [[a|e] w1]; simpl in *; [|lia].
  specialize (Hf a env w1). lia.
Qed.

Lemma store_requests_try_except {A} k1 k2 (body : M A) handler :
  store_requests k1 body → (∀ e, store_requests k2 (handler e)) →
  store_requests (k1 + k2) (try_except body handler).
Proof.
  intros Hm Hf env w. specialize (Hm env w). unfold try_except.
  destruct (body env w) as [[a|e] w1]; simpl in *; [lia|].
  specialize (Hf e env w1). lia.
Qed.

Lemma store_requests_for_each {A} k (xs : list A) body :
  (∀ x, store_requests k (body x)) →
  store_requests (length xs * k) (for_each xs body).
Proof.
  intros Hb. induction xs as [|x xs IH]; simpl.
  - apply store_requests_ret.
  - apply store_requests_bind; [apply Hb | intros _; apply IH].
Qed.

Lemma store_requests_quiet {A} k (m : M A) :
  (∀ env w, same_store w (m env w).2) → store_requests k m.
Proof. intros H env w. destruct (H env w) as [_ _ _ _ _ Hn _]. lia. Qed.

Lemma store_requests_sleep k s : store_requests k (sleep s).
Proof. intros env w. simpl. lia. Qed.

Lemma store_requests_log k l msg : store_requests k (log l msg).
Proof. intros env w. simpl. lia. Qed.

Lemma store_requests_now k : store_requests k now.
Proof. intros env w. simpl. lia. Qed.

Lemma store_requests_get_active_collection k : store_requests k get_active_collection.
Proof. intros env w. simpl. lia. Qed.

Lemma store_requests_check_external_connectivity k :
  store_requests k check_external_connectivity.
Proof. intros env w. rewrite check_external_connectivity_run. simpl. lia. Qed.

Lemma store_requests_ping_peer k url : store_requests k (ping_peer url).
Proof. intros env w. rewrite ping_peer_run. simpl. lia. Qed.

Lemma store_requests_send_slack_alert k message :
  store_requests k (send_slack_alert message).
Proof.
  apply store_requests_quiet. intros env w.
  by destruct (send_slack_alert_spec message env w) as (w' & -> & Hs & _).
Qed.

Lemma store_requests_store_op {A} k ev (op : World → result A * World) :
  (∀ w, n_store (op w).2 = n_store w) → store_requests (S k) (store_op ev op).
Proof.
  intros Hop env w. unfold store_op.
  destruct (mongo env (n_store w)); simpl; rewrite ?Hop; simpl; lia.
Qed.

Lemma store_requests_find_one k id : store_requests (S k) (find_one id).
Proof. by apply store_requests_store_op. Qed.

Lemma store_requests_delete_one k id : store_requests (S k) (delete_one id).
Proof. by apply store_requests_store_op. Qed.

Lemma store_requests_update_one k id update : store_requests (S k) (update_one id update).
Proof. by apply store_requests_store_op. Qed.

Lemma store_requests_insert_one k id doc : store_requests (S k) (insert_one id doc).
Proof.
  apply store_requests_store_op. intros w. by destruct (crash_history w !! id).
Qed.

Lemma store_requests_retry target attempts : store_requests 0 (retry target attempts).
Proof.
  induction attempts as [|attempt rest IH]; simpl; [apply store_requests_ret|].
  apply (store_requests_bind 0 0); [apply store_requests_sleep|]. intros _.
  apply (store_requests_bind 0 0); [apply store_requests_ping_peer|]. intros [|]; [|done].
  apply (store_requests_bind 0 0); [apply store_requests_log|]. intros _.
  apply store_requests_ret.
Qed.

Lemma store_requests_scan targets : ∀ count results,
  store_requests 0 (scan targets count results).
Proof.
  induction targets as [|target rest IH]; intros count results; simpl.
  - apply store_requests_ret.
  - apply (store_requests_bind 0 0); [apply store_requests_ping_peer|].
    intros alive. apply IH.
Qed.

Lemma store_requests_confirm target is_alive : store_requests 0 (confirm target is_alive).
Proof.
  unfold confirm. destruct is_alive; cbn [negb]; [apply store_requests_ret|].
  apply (store_requests_bind 0 0); [apply store_requests_check_external_connectivity|].
  intros [|]; cbn [negb]; [|apply store_requests_ret].
  apply (store_requests_bind 0 0); [apply store_requests_log|]. intros _.
  apply (store_requests_bind 0 0); [apply store_requests_retry|]. intros alive.
  apply store_requests_ret.
Qed.

Lemma store_requests_recovery_logic target : store_requests 3 (recovery_logic target).
Proof.
  unfold recovery_logic.
  apply (store_requests_bind 1 2); [apply store_requests_find_one|].
  intros [record|]; [|apply store_requests_ret].
  apply (store_requests_bind 0 2); [apply store_requests_now|]. intros recovered.
  apply (store_requests_bind 1 1); [apply store_requests_delete_one|]. intros _.
  destruct (1 <=? _); [|apply store_requests_log].
  apply (store_requests_bind 1 0); [apply store_requests_insert_one|]. intros _.
  apply (store_requests_bind 0 0); [apply store_requests_log|]. intros _.
  apply store_requests_send_slack_alert.
Qed.

Lemma store_requests_crash_logic target : store_requests 3 (crash_logic target).
Proof.
  unfold crash_logic.
  apply (store_requests_bind 0 3); [apply store_requests_now|]. intros current_time.
  apply (store_requests_bind 1 2); [apply store_requests_update_one|]. intros _.
  apply (store_requests_bind 1 1); [apply store_requests_find_one|].
  intros [doc|]; [|apply store_requests_ret].
  destruct (should_alert _ _); [|apply store_requests_ret].
  apply (store_requests_bind 0 1); [apply store_requests_log|]. intros _.
  apply (store_requests_bind 1 0); [apply store_requests_update_one|]. intros _.
  apply store_requests_send_slack_alert.
Qed.

Lemma store_requests_process_target peer_results target :
  store_requests 3 (process_target peer_results target).
Proof.
  unfold process_target.
  apply (store_requests_bind 0 3); [apply store_requests_confirm|].
  intros [is_alive|]; [|apply store_requests_ret].
  unfold guarded. apply (store_requests_try_except 3 0); [|intros e; apply store_requests_log].
  destruct is_alive; [apply store_requests_recovery_logic | apply store_requests_crash_logic].
Qed.

Lemma store_requests_tick was_isolated :
  store_requests (length TARGETS * 3) (tick was_isolated).
Proof.
  set (k := (length TARGETS * 3)%nat). unfold tick.
  apply (store_requests_bind 0 k); [apply store_requests_get_active_collection|].
  intros [collection|].
  2:{ apply (store_requests_bind 0 k); [apply store_requests_log|]. intros _.
      apply (store_requests_bind 0 k); [apply store_requests_sleep|]. intros _.
      apply store_requests_ret. }
  apply (store_requests_bind 0 k); [apply store_requests_check_external_connectivity|].
  intros [|]; cbn [negb].
  2:{ apply (store_requests_bind 0 k); [apply store_requests_log|]. intros _.
      apply (store_requests_bind 0 k); [apply store_requests_sleep|]. intros _.
      apply store_requests_ret. }
  apply (store_requests_bind 0 k); [apply store_requests_scan|].
  intros [count results]. cbv zeta.
  destruct (isolated count), was_isolated; cbn [negb andb].
  - apply (store_requests_bind 0 k); [apply store_requests_log|]. intros _.
    apply (store_requests_bind 0 k); [apply store_requests_sleep|]. intros _.
    apply store_requests_ret.
  - apply (store_requests_bind 0 k); [apply store_requests_log|]. intros _.
    apply (store_requests_bind 0 k); [apply store_requests_send_slack_alert|]. intros _.
    apply (store_requests_bind 0 k); [apply store_requests_sleep|]. intros _.
    apply store_requests_ret.
  - apply (store_requests_bind 0 k).
    { apply (store_requests_bind 0 0); [apply store_requests_log|]. intros _.
      apply (store_requests_bind 0 0); [apply store_requests_send_slack_alert|].
      intros _. apply store_requests_ret. }
    intros state. replace k with (k + 0)%nat by lia.
    apply store_requests_bind;
      [apply store_requests_for_each, store_requests_process_target|]. intros _.
    apply (store_requests_bind 0 0); [apply store_requests_sleep|]. intros _.
    apply store_requests_ret.
  - apply (store_requests_bind 0 k); [apply store_requests_ret|].
    intros state. replace k with (k + 0)%nat by lia.
    apply store_requests_bind;
      [apply store_requests_for_each, store_requests_process_target|]. intros _.
    apply (store_requests_bind 0 0); [apply store_requests_sleep|]. intros _.
    apply store_requests_ret.
Qed.

Lemma store_requests_none {A} (m : M A) env w :
  store_requests 0 m → n_store (m env w).2 = n_store w.
Proof. intros Hm. specialize (Hm env w). lia. Qed.

(** X20.  The processing of a peer makes at most three requests to the
    store, whatever path it takes and whatever the outside answers, and a
    tick at most three for each target.  The safety checks (the look at the
    store handle and the connectivity check), the scan, the notifier, the
    confirmation step and its retries make no request to the store.  A tick
    that stops at a safety check or finds the monitor isolated makes none
    either.  On any other tick, the world in which the per-peer loop starts
    (after the scan and, when leaving isolation, the log entry and the
    reconnection alert) has seen no request to the store, and the tick is
    that loop followed by the sleep: all its requests to the store are made
    by the loop. *)
Theorem store_requests_per_tick peer_results target was_isolated env w :
  let passes :=
    bool_decide (is_Some (active_collection w))
    && alive_reply (http env (n_http w) GOOGLE_HEALTH_CHECK_URL) in
  let replies := scan_replies env (S (n_http w)) TARGETS in
  let is_isolated :=
    bool_decide (0 < length TARGETS)%nat
    && forallb (λ r, negb (alive_reply r)) replies in
  let reconnected :=
    " *MONITOR RECONNECTED:* *" +:+ MY_SERVER_ID +:+ "* has rejoined the mesh." in
  let checked :=
    next_http (emit (EvGet GOOGLE_HEALTH_CHECK_URL 3
                       (http env (n_http w) GOOGLE_HEALTH_CHECK_URL)) w) in
  (n_store w ≤ n_store (process_target peer_results target env w).2 ≤ n_store w + 3)%nat
  ∧ (n_store w ≤ n_store (tick was_isolated env w).2
     ≤ n_store w + length TARGETS * 3)%nat
  ∧ n_store (get_active_collection env w).2 = n_store w
  ∧ n_store (check_external_connectivity env w).2 = n_store w
  ∧ (∀ targets count results,
       n_store (scan targets count results env w).2 = n_store w)
  ∧ (∀ message, n_store (send_slack_alert message env w).2 = n_store w)
  ∧ (∀ is_alive, n_store (confirm target is_alive env w).2 = n_store w)
  ∧ (∀ attempts, n_store (retry target attempts env w).2 = n_store w)
  ∧ (passes = false ∨ is_isolated = true →
     n_store (tick was_isolated env w).2 = n_store w)
  ∧ (passes = true → is_isolated = false →
     ∃ count results scanned,
       scan TARGETS 0 ∅ env checked = (Ok (count, results), scanned)
       ∧ let ready :=
           if was_isolated
           then (send_slack_alert reconnected env
                   (emit (EvLog INFO "Connection restored. Exiting isolation mode.")
                         scanned)).2
           else scanned in
         n_store ready = n_store w
         ∧ tick was_isolated env w
           = (Ok false,
              emit (EvSleep 30)
                   (for_each TARGETS (process_target results) env ready).2)).
Proof.
  intros passes replies is_isolated reconnected checked.
  split; [apply store_requests_process_target|].
  split; [apply store_requests_tick|].
  split; [apply store_requests_none, store_requests_get_active_collection|].
  split; [apply store_requests_none, store_requests_check_external_connectivity|].
  split; [intros; apply store_requests_none, store_requests_scan|].
  split; [intros; apply store_requests_none, store_requests_send_slack_alert|].
  split; [intros; apply store_requests_none, store_requests_confirm|].
  split; [intros; apply store_requests_none, store_requests_retry|].
  subst reconnected. unfold tick. rewrite bind_run. unfold get_active_collection.
  destruct (active_collection w) as [c|] eqn:Hac; subst passes.
  2:{ rewrite bool_decide_eq_false_2 by (by intros [? ?]). cbn [andb].
      split; [intros _; by run | discriminate]. }
  rewrite bool_decide_eq_true_2 by eauto. cbn [andb].
  rewrite bind_run, check_external_connectivity_run.
  set (r0 := http env (n_http w) GOOGLE_HEALTH_CHECK_URL).
  fold r0 in checked. fold checked.
  destruct (alive_reply r0) eqn:H0; cbn [negb].
  2:{ split; [intros _; by run | discriminate]. }
  destruct (scan_run TARGETS 0 ∅ env checked) as (results & w1 & Hscan & Hs & _).
  pose proof (same_n_store _ _ Hs) as Hn. change (n_store checked) with (n_store w) in Hn.
  rewrite bind_run, Hscan. cbv zeta. change (n_http checked) with (S (n_http w)).
  rewrite isolated_spec. fold replies is_isolated.
  destruct is_isolated, was_isolated; cbn [negb andb].
  - split; [intros _; by run | discriminate].
  - split; [intros _ | discriminate]. run.
    match goal with |- context [send_slack_alert ?m ?e ?w2] =>
      destruct (send_slack_alert_spec m e w2) as (w3 & -> & Hs3 & _) end.
    run. simpl. by rewrite (same_n_store _ _ Hs3).
  - split; [intros [H|H]; discriminate H|]. intros _ _.
    eexists _, results, w1. split; [reflexivity|]. cbv zeta.
    rewrite bind_run, (bind_run (log _ _)), log_run. cbv beta iota.
    rewrite (bind_run (send_slack_alert _)).
    match goal with |- context [send_slack_alert ?m ?e ?w2] =>
      destruct (send_slack_alert_spec m e w2) as (w3 & Hsend & Hs3 & _) end.
    rewrite Hsend, ret_run. cbn [snd].
    split; [by rewrite (same_n_store _ _ Hs3)|].
    destruct (safe_run (for_each TARGETS (process_target results)) env w3)
      as ([] & w4 & Hloop); [repeat step|].
    rewrite bind_run, Hloop. by run.
  - split; [intros [H|H]; discriminate H|]. intros _ _.
    eexists _, results, w1. split; [reflexivity|]. cbv zeta.
    split; [done|]. rewrite bind_run, ret_run.
    destruct (safe_run (for_each TARGETS (process_target results)) env w1)
      as ([] & w4 & Hloop); [repeat step|].
    rewrite bind_run, Hloop. by run.
Qed.

(** ** An episode of isolation *)

Lemma scan_replies_all_down env targets : ∀ n,
  (∀ k target, target ∈ targets →
     alive_reply (http env k (health_url (ip target))) = false) →
  forallb (λ r, negb (alive_reply r)) (scan_replies env n targets) = true.
Proof.
  induction targets as [|target rest IH]; intros n Hdown; simpl; [done|].
  rewrite Hdown by (by left). simpl. apply IH.
  intros k t Hin. apply Hdown. by right.
Qed.

(** A tick that finds every peer silent. *)
Lemma isolated_tick_run was_isolated env w collection :
  active_collection w = Some collection →
  TARGETS ≠ [] →
  alive_reply (http env (n_http w) GOOGLE_HEALTH_CHECK_URL) = true →
  forallb (λ r, negb (alive_reply r)) (scan_replies env (S (n_http w)) TARGETS) = true →
  ∃ w',
    tick was_isolated env w = (Ok true, w')
    ∧ same_store w w'
    ∧ alerts (trace w') =
        alerts (trace w) ++
        (if was_isolated then []
         else ["*MONITOR ISOLATED:* *" +:+ MY_SERVER_ID +:+
               "* cannot reach ANY peers." +:+ nl +:+ "Please verify manually."]).
Proof.
  intros Hac Hne Hon Hdown. unfold tick. rewrite bind_run.
  unfold get_active_collection at 1. rewrite Hac.
  rewrite bind_run, check_external_connectivity_run. cbv zeta. rewrite Hon.
  cbn [negb].
  set (w0 := next_http (emit _ w)).
  destruct (scan_run TARGETS 0 ∅ env w0) as (results & w1 & Hscan & Hs & Ha & _).
  rewrite bind_run, Hscan. cbv zeta. change (n_http w0) with (S (n_http w)).
  rewrite isolated_spec, Hdown.
  rewrite bool_decide_eq_true_2 by (destruct TARGETS; [done | simpl; lia]).
  assert (Ha0 : alerts (trace w1) = alerts (trace w)).
  { rewrite Ha. subst w0. simpl. rewrite alerts_app. simpl. by rewrite app_nil_r. }
  assert (Hs0 : same_store w w1).
  { eapply same_store_trans; [|exact Hs]. subst w0. same_store_by_trace. }
  destruct was_isolated; cbn [negb andb].
  - run. eexists. split; [reflexivity|]. split.
    + eapply same_store_trans; [exact Hs0|]. same_store_by_trace.
    + simpl. rewrite !alerts_app, Ha0. simpl. by rewrite !app_nil_r.
  - run.
    match goal with |- context [send_slack_alert ?m ?e ?w2] =>
      destruct (send_slack_alert_spec m e w2) as (w3 & -> & Hs3 & Ha3 & _) end.
    run. eexists. split; [reflexivity|]. split.
    + eapply same_store_trans; [exact Hs0|].
      eapply same_store_trans; [|eapply same_store_trans; [exact Hs3|]];
        same_store_by_trace.
    + simpl. rewrite alerts_app, Ha3. simpl. rewrite alerts_app, Ha0. simpl.
      by rewrite !app_nil_r.
Qed.

Lemma isolated_ticks_run n : ∀ env w collection,
  active_collection w = Some collection →
  TARGETS ≠ [] →
  (∀ k, alive_reply (http env k GOOGLE_HEALTH_CHECK_URL) = true) →
  (∀ k target, target ∈ TARGETS →
     alive_reply (http env k (health_url (ip target))) = false) →
  ∃ w',
    ticks n true env w = (Ok true, w')
    ∧ same_store w w'
    ∧ alerts (trace w') = alerts (trace w).
Proof.
  induction n as [|n IH]; intros env w collection Hac Hne Hon Hdown.
  - exists w. simpl. split_and!; [done | apply same_store_refl | done].
  - destruct (isolated_tick_run true env w collection Hac Hne (Hon _)
                (scan_replies_all_down env TARGETS _ Hdown))
      as (w1 & Hrun & Hs & Ha).
    rewrite app_nil_r in Ha.
    destruct (IH env w1 collection) as (w' & Hrun' & Hs' & Ha'); try done.
    { by rewrite (same_active_collection _ _ Hs). }
    exists w'. simpl. rewrite bind_run, Hrun, Hrun'.
    split_and!; [done | by eapply same_store_trans | congruence].
Qed.

(** X21.  An episode of isolation, however long, is announced once: when a
    connected monitor with its own connectivity intact finds every peer
    silent for [n + 1] ticks in a row, it sends the isolation alert on the
    first of them and nothing on the others, ends ISOLATED, and leaves the
    store alone throughout. *)
Theorem isolation_is_announced_once n env w collection :
  active_collection w = Some collection →
  TARGETS ≠ [] →
  (∀ k, alive_reply (http env k GOOGLE_HEALTH_CHECK_URL) = true) →
  (∀ k target, target ∈ TARGETS →
     alive_reply (http env k (health_url (ip target))) = false) →
  ∃ w',
    ticks (S n) false env w = (Ok true, w')
    ∧ alerts (trace w') =
        alerts (trace w) ++
        ["*MONITOR ISOLATED:* *" +:+ MY_SERVER_ID +:+
         "* cannot reach ANY peers." +:+ nl +:+ "Please verify manually."]
    ∧ same_store w w'.
Proof.
  intros Hac Hne Hon Hdown.
  destruct (isolated_tick_run false env w collection Hac Hne (Hon _)
              (scan_replies_all_down env TARGETS _ Hdown))
    as (w1 & Hrun & Hs & Ha).
  destruct (isolated_ticks_run n env w1 collection) as (w' & Hrun' & Hs' & Ha');
    try done.
  { by rewrite (same_active_collection _ _ Hs). }
  exists w'. simpl. rewrite bind_run, Hrun, Hrun'.
  split_and!; [done | congruence | by eapply same_store_trans].
Qed.

(** ** Start-up with a store *)

(** X22.  When the connection attempt at start-up succeeds, both handles are
    set before the loop starts, the store itself is not written to, and the
    monitor runs its ticks from the state CONNECTED with the handles set. *)
Theorem startup_with_store n env w :
  MONGO_URI ≠ "" →
  mongo env (n_store w) = None →
  ∃ w1,
    lifespan n env w = ticks n false env w1
    ∧ active_collection w1 = Some COLLECTION_ACTIVE
    ∧ history_collection w1 = Some COLLECTION_HISTORY
    ∧ crashes w1 = crashes w
    ∧ crash_history w1 = crash_history w
    ∧ n_store w1 = S (n_store w)
    ∧ trace w1 =
        trace w ++
        [EvConnect; EvLog INFO "MongoDB Connected!"; EvSleep 5; EvLog INFO banner].
Proof.
  intros Huri Hup. unfold lifespan, connect, monitor_peers.
  rewrite decide_False by done. rewrite bind_run.
  unfold try_except. rewrite bind_run. unfold mongo_connect at 1. rewrite Hup.
  cbv beta iota zeta. run. unfold set_collections at 1. run.
  eexists. split; [reflexivity|]. simpl. split_and!; try done.
  by rewrite <- !app_assoc.
Qed.

End Monitor.

(** * The theorems on the concrete mesh *)

Example strftime_epoch : strftime 0 = "19700101_000000".
Proof. vm_compute. reflexivity. Qed.

Example strftime_leap_day :
  strftime (1709251199 * us_per_second + 999999) = "20240229_235959".
Proof. vm_compute. reflexivity. Qed.

Example bson_datetime_drops_microseconds :
  bson_datetime (midnight + 1234567) = midnight + 1234000.
Proof. vm_compute. reflexivity. Qed.

(** The noise filter: [node-b] back after 40 seconds leaves no trace but the
    deletion; back after 90 seconds it is archived and announced, with one
    minute of downtime. *)
Example blip_of_40_seconds :
  let w' := (guarded "gpu-a" hooks node_b true (seconds_past_midnight 40)
               (connected_with node_b_record)).2 in
  (map_to_list (crashes w'), map_to_list (crash_history w'), alerts (trace w'))
  = ([], [], []).
Proof. vm_compute. reflexivity. Qed.

Example outage_of_90_seconds :
  let w' := (guarded "gpu-a" hooks node_b true (seconds_past_midnight 90)
               (connected_with node_b_record)).2 in
  (map_to_list (crashes w'), map_to_list (crash_history w'), alerts (trace w'))
  = ([],
     [("10.0.0.2_20240101_000130",
       {| incident := {| status := "resolved"; target_name := "node-b";
                         down_since := midnight; last_alert_sent_at := None;
                         witnesses := ["gpu-c"] |};
          recovered_at := midnight + 90 * us_per_second |})],
     [" *RECOVERY:* Server *node-b* (10.0.0.2) is back online." +:+ nl +:+
      " Was down for: 1 mins"]).
Proof. vm_compute. reflexivity. Qed.

(** With [node-b] as the only target and not answering, the first tick
    declares isolation: one alert, no store operation, no retry. *)
Example lone_peer_down_is_isolation :
  let '(r, w') := tick 8051 "gpu-a" hooks [node_b] false node_b_down
                    (connected_with node_b_record) in
  (r, alerts (trace w'), store_events (trace w'), probes (trace w'))
  = (Ok true,
     ["*MONITOR ISOLATED:* *gpu-a* cannot reach ANY peers." +:+ nl +:+
      "Please verify manually."],
     [],
     [GOOGLE_HEALTH_CHECK_URL; "http://10.0.0.2:8051/health"]).
Proof. vm_compute. reflexivity. Qed.

(** With [node-c] answering, the same tick confirms [node-b] down by three
    retries and refreshes its record. *)
Example one_of_two_down_is_a_crash :
  let '(r, w') := tick 8051 "gpu-a" hooks [node_b; node_c] false node_b_down
                    (connected_with node_b_record) in
  (r, alerts (trace w'), store_events (trace w'),
   witnesses <$> crashes w' !! "10.0.0.2")
  = (Ok false, [],
     [EvUpdate "10.0.0.2"; EvFind "10.0.0.2"; EvFind "10.0.0.3"],
     Some ["gpu-c"; "gpu-a"]).
Proof. vm_compute. reflexivity. Qed.

(** C2 on [node-b]: a down-tick keeps [down_since] at midnight. *)
Lemma down_since_immutable_witness :
  ∃ w' r',
    guarded "gpu-a" hooks node_b false node_b_down (connected_with node_b_record)
    = (Ok tt, w')
    ∧ crashes w' !! "10.0.0.2" = Some r'
    ∧ down_since r' = midnight.
Proof.
  apply (down_since_immutable "gpu-a" hooks node_b node_b_down
           (connected_with node_b_record) node_b_record).
  vm_compute. reflexivity.
Defined.

(** C3 on [node-b]: down-ticks at 70 and 140 seconds send nothing, the one
    at 210 seconds sends the crash alert. *)
Lemma crash_alert_after_confirmation_witness :
  ∃ w1 w2 r2,
    down_ticks "gpu-a" hooks node_b 2 node_b_down (connected_with node_b_record)
    = (Ok tt, w1)
    ∧ alerts (trace w1) = []
    ∧ guarded "gpu-a" hooks node_b false node_b_down w1 = (Ok tt, w2)
    ∧ alerts (trace w2) =
        alerts (trace w1) ++
        [" *CRASH ALERT:* *node-b* (10.0.0.2) is DOWN." +:+ nl +:+
         " Down for: 3 mins" +:+ nl +:+
         " Confirmed by: gpu-c, gpu-a"]
    ∧ crashes w2 !! "10.0.0.2" = Some r2
    ∧ down_since r2 = midnight
    ∧ last_alert_sent_at r2 = Some (midnight + 210 * us_per_second).
Proof.
  apply (proj2 (crash_alert_after_confirmation "gpu-a" hooks node_b node_b_down
                  (connected_with node_b_record) node_b_record eq_refl) 2%nat).
  - intros k. reflexivity.
  - reflexivity.
  - intros i Hi. destruct i as [|[|i]]; [reflexivity | reflexivity | lia].
  - vm_compute. discriminate.
Defined.

(** C4 on [node-b], alerted at 00:03:00: down-ticks one hour and exactly two
    hours later send nothing, the one three hours later sends the reminder. *)
Lemma reminder_cadence_witness :
  ∃ w1 w2 r2,
    down_ticks "gpu-a" hooks node_b 2 two_hourly (connected_with node_b_alerted)
    = (Ok tt, w1)
    ∧ alerts (trace w1) = []
    ∧ guarded "gpu-a" hooks node_b false two_hourly w1 = (Ok tt, w2)
    ∧ alerts (trace w2) =
        alerts (trace w1) ++
        [" *REMINDER:*  *CRASH ALERT:* *node-b* (10.0.0.2) is DOWN." +:+ nl +:+
         " Down for: 183 mins" +:+ nl +:+
         " Confirmed by: gpu-c, gpu-a"]
    ∧ crashes w2 !! "10.0.0.2" = Some r2
    ∧ down_since r2 = midnight
    ∧ last_alert_sent_at r2 = Some (midnight + 10980 * us_per_second).
Proof.
  apply (proj2 (reminder_cadence "gpu-a" hooks node_b two_hourly
                  (connected_with node_b_alerted) node_b_alerted
                  (midnight + 180 * us_per_second) eq_refl eq_refl) 2%nat).
  - intros k. reflexivity.
  - vm_compute. discriminate.
  - intros i Hi. destruct i as [|[|i]]; [vm_compute; discriminate.. | lia].
  - reflexivity.
Defined.

(** C5 on [node-b], found alive 70 seconds after it went down. *)
Lemma recovery_archives_and_alerts_witness :
  ∃ w' h,
    guarded "gpu-a" hooks node_b true node_b_down (connected_with node_b_record)
    = (Ok tt, w')
    ∧ crashes w' !! "10.0.0.2" = None
    ∧ crash_history w' = {[ "10.0.0.2_20240101_000110" := h ]}
    ∧ status (incident h) = "resolved"
    ∧ down_since (incident h) = midnight
    ∧ alerts (trace w') =
        [" *RECOVERY:* Server *node-b* (10.0.0.2) is back online." +:+ nl +:+
         " Was down for: 1 mins"].
Proof.
  destruct (recovery_archives_and_alerts "gpu-a" hooks node_b node_b_down
              (connected_with node_b_record) node_b_record)
    as (w' & Hrun & _ & Hgone & Hlong & _).
  - intros k. reflexivity.
  - reflexivity.
  - destruct Hlong as (h & Hh & Hst & Hds & _ & _ & _ & _ & Ha).
    { vm_compute. discriminate. }
    { reflexivity. }
    exists w', h. split_and!; [exact Hrun | exact Hgone | exact Hh | exact Hst
                              | exact Hds | exact Ha].
Defined.

(** C6 on [node-b]: the connectivity check passes, the three retries fail. *)
Lemma confirmation_retry_witness :
  ∃ w1,
    confirm 8051 node_b false node_b_down (connected_with node_b_record)
    = (Ok (Some false), w1)
    ∧ trace w1 =
        [EvGet GOOGLE_HEALTH_CHECK_URL 3 (Response 200);
         EvLog INFO "node-b (10.0.0.2) failed check. Retrying...";
         EvSleep 10; EvGet "http://10.0.0.2:8051/health" 5 (Failure "timed out");
         EvSleep 10; EvGet "http://10.0.0.2:8051/health" 5 (Failure "timed out");
         EvSleep 10; EvGet "http://10.0.0.2:8051/health" 5 (Failure "timed out")].
Proof.
  destruct (confirmation_retry 8051 "gpu-a" hooks
              ({[ "10.0.0.2" := false ]} : gmap string bool)
              node_b node_b_down (connected_with node_b_record))
    as [_ Hretry]; [reflexivity|].
  destruct Hretry as (w1 & Hrun & _ & _ & _ & Htr); [reflexivity|].
  exists w1. split; [exact Hrun | exact Htr].
Defined.

(** C7: the store times out while the recovery of [node-c] is looked up;
    the error is logged and the loop goes on with [node-b]. *)
Lemma peer_failures_contained_witness :
  let w := connected_with node_b_record in
  let logged :=
    emit (EvLog ERROR "Error processing node-c: server selection timeout")
         (next_store (emit (EvFind "10.0.0.3") w)) in
  process_target 8051 "gpu-a" hooks {[ "10.0.0.3" := true ]} node_c
    store_back_after_startup w
  = (Ok tt, logged)
  ∧ for_each [node_c; node_b]
      (process_target 8051 "gpu-a" hooks {[ "10.0.0.3" := true ]})
      store_back_after_startup w
    = for_each [node_b]
        (process_target 8051 "gpu-a" hooks {[ "10.0.0.3" := true ]})
        store_back_after_startup logged.
Proof.
  destruct (peer_failures_contained 8051 "gpu-a" hooks [node_c; node_b]
              ({[ "10.0.0.3" := true ]} : gmap string bool) node_c [node_b] true
              store_back_after_startup (connected_with node_b_record))
    as [Hlogged _].
  apply (Hlogged true (connected_with node_b_record)
           (PyMongoError "server selection timeout")
           (next_store (emit (EvFind "10.0.0.3") (connected_with node_b_record))));
    reflexivity.
Defined.

(** C8 on the concrete mesh: the store is down at start-up and back right
    after; three ticks later the monitor is still waiting. *)
Lemma startup_without_store_witness :
  ∃ w',
    lifespan 8051 "mongodb://db.example" "gpu-a" hooks [node_b; node_c] "started" 3
      store_back_after_startup at_startup
    = (Ok false, w')
    ∧ probes (trace w') = []
    ∧ active_collection w' = None.
Proof.
  destruct (startup_without_store 8051 "mongodb://db.example" "gpu-a" hooks
              [node_b; node_c] "started" 3 store_back_after_startup at_startup
              "server selection timeout")
    as (w' & Hrun & _ & Hp & _ & _ & Hac & _).
  - discriminate.
  - reflexivity.
  - reflexivity.
  - exists w'. split_and!; [exact Hrun | exact Hp | exact Hac].
Defined.

(** C8 as stated fails: here the store is unavailable for the connection
    attempt at start-up and available for every request after it, and yet
    after no number of ticks has the monitor made a single probe: normal
    processing never resumes. *)
Lemma normal_processing_never_resumes :
  mongo store_back_after_startup 0%nat = Some "server selection timeout"
  ∧ (∀ k, (0 < k)%nat → mongo store_back_after_startup k = None)
  ∧ ¬ ∃ n b w',
        lifespan 8051 "mongodb://db.example" "gpu-a" hooks [node_b; node_c] "started" n
          store_back_after_startup at_startup
        = (b, w')
        ∧ probes (trace w') ≠ [].
Proof.
  split; [reflexivity|]. split.
  - intros k Hk. destruct k; [lia | reflexivity].
  - intros (n & b & w' & Hrun & Hprobes).
    destruct (lifespan_without_store 8051 "mongodb://db.example" "gpu-a" hooks
                [node_b; node_c] "started" n store_back_after_startup at_startup
                "server selection timeout")
      as (w'' & Hrun' & Htr & _); [discriminate | reflexivity | reflexivity |].
    rewrite Hrun' in Hrun. injection Hrun as _ <-.
    apply Hprobes. rewrite Htr, !probes_app, probes_waiting. reflexivity.
Qed.

(** C10 on [node-b], found alive after 70 seconds, with a store that raises
    on the insert: the incident is gone from both collections. *)
Lemma resolution_not_atomic_witness :
  ∃ w',
    guarded "gpu-a" hooks node_b true third_request_fails (connected_with node_b_record)
    = (Ok tt, w')
    ∧ crashes w' !! "10.0.0.2" = None
    ∧ crash_history w' = ∅
    ∧ alerts (trace w') = []
    ∧ trace w' =
        [EvFind "10.0.0.2"; EvDelete "10.0.0.2";
         EvInsert "10.0.0.2_20240101_000110";
         EvLog ERROR "Error processing node-b: connection closed"].
Proof.
  apply (resolution_not_atomic "gpu-a" hooks node_b third_request_fails
           (connected_with node_b_record) node_b_record "connection closed");
    try reflexivity.
  vm_compute. discriminate.
Defined.

(** * More of the code on the concrete mesh *)

Example parse_targets_of_a_mesh :
  parse_targets ascii_strip " 10.0.0.2 | node-b ,10.0.0.3|node-c,10.0.0.4"
  = Some [node_b; node_c; {| ip := "10.0.0.4"; name := "Unknown-GPU" |}].
Proof. vm_compute. reflexivity. Qed.

Example parse_targets_two_bars : parse_targets ascii_strip "10.0.0.2|node|b" = None.
Proof. vm_compute. reflexivity. Qed.

Example parse_webhooks_of_two :
  parse_webhooks ascii_strip " http://hooks.example/a , ,http://hooks.example/b,"
  = ["http://hooks.example/a"; "http://hooks.example/b"].
Proof. vm_compute. reflexivity. Qed.

(** X2 on a list of one target and a comma. *)
Lemma parse_targets_trailing_comma_witness :
  parse_targets ascii_strip ("10.0.0.2|node-b" +:+ ",")
  = Some [node_b; {| ip := ""; name := "Unknown-GPU" |}].
Proof.
  apply (parse_targets_trailing_comma ascii_strip "10.0.0.2|node-b"). discriminate.
Defined.

(** X3 on one webhook and a comma. *)
Lemma parse_webhooks_trailing_comma_witness :
  parse_webhooks ascii_strip ("http://hooks.example/a" +:+ ",") = hooks
  ∧ "" ∉ hooks.
Proof.
  apply (parse_webhooks_trailing_comma ascii_strip "http://hooks.example/a");
    [reflexivity | discriminate].
Defined.

(** X6: the processing of [node-c] leaves the record of [node-b]. *)
Lemma peers_do_not_interfere_witness :
  crashes (process_target 8051 "gpu-a" hooks {[ "10.0.0.3" := true ]} node_c
             node_b_down (connected_with node_b_record)).2 !! "10.0.0.2"
  = Some node_b_record.
Proof.
  apply (peers_do_not_interfere 8051 "gpu-a" hooks
           ({[ "10.0.0.3" := true ]} : gmap string bool) node_c "10.0.0.2"
           node_b_down (connected_with node_b_record)).
  discriminate.
Defined.

(** X7: three ticks from the record of [node-b]. *)
Lemma store_stays_well_formed_witness :
  let w' := (ticks 8051 "gpu-a" hooks [node_b; node_c] 3 false node_b_down
               (connected_with node_b_record)).2 in
  store_ok (crashes w') (crash_history w').
Proof.
  apply (store_stays_well_formed 8051 "gpu-a" hooks [node_b; node_c] 3 false
           node_b_down (connected_with node_b_record)).
  split; [|apply map_Forall_empty].
  apply map_Forall_singleton.
  split; [reflexivity|]. split; [discriminate|]. split; [reflexivity | exact I].
Defined.

(** X8: the first down-tick of [node-b], 70 seconds past midnight. *)
Lemma first_down_tick_opens_incident_witness :
  ∃ w',
    guarded "gpu-a" hooks node_b false node_b_down at_startup = (Ok tt, w')
    ∧ crashes w' =
        <[ "10.0.0.2" := {| status := "down"; target_name := "node-b";
                            down_since := midnight + 70 * us_per_second;
                            last_alert_sent_at := None;
                            witnesses := ["gpu-a"] |} ]> ∅
    ∧ crash_history w' = ∅
    ∧ alerts (trace w') = [].
Proof.
  apply (first_down_tick_opens_incident "gpu-a" hooks node_b node_b_down at_startup).
  - intros k. reflexivity.
  - reflexivity.
Defined.

(** X9: [gpu-a] joins [gpu-c] as a witness of [node-b]. *)
Lemma down_tick_adds_witness_witness :
  ∃ w' r',
    guarded "gpu-a" hooks node_b false node_b_down (connected_with node_b_record)
    = (Ok tt, w')
    ∧ crashes w' !! "10.0.0.2" = Some r'
    ∧ status r' = "down"
    ∧ target_name r' = "node-b"
    ∧ "gpu-a" ∈ witnesses r'
    ∧ ["gpu-c"] `prefix_of` witnesses r'
    ∧ (NoDup ["gpu-c"] → NoDup (witnesses r'))
    ∧ ("gpu-a" ∈ ["gpu-c"] → witnesses r' = ["gpu-c"]).
Proof.
  apply (down_tick_adds_witness "gpu-a" hooks node_b node_b_down
           (connected_with node_b_record) node_b_record).
  - intros k. reflexivity.
  - reflexivity.
Defined.

(** X10: [node-c] answers and has no incident. *)
Lemma healthy_peer_costs_one_read_witness :
  process_target 8051 "gpu-a" hooks {[ "10.0.0.3" := true ]} node_c node_b_down
    (connected_with node_b_record)
  = (Ok tt, next_store (emit (EvFind "10.0.0.3") (connected_with node_b_record))).
Proof.
  apply (healthy_peer_costs_one_read 8051 "gpu-a" hooks
           ({[ "10.0.0.3" := true ]} : gmap string bool) node_c node_b_down
           (connected_with node_b_record)); reflexivity.
Defined.

(** X11: the monitor off the network, while isolated. *)
Lemma offline_tick_probes_no_peer_witness :
  tick 8051 "gpu-a" hooks [node_b; node_c] true offline (connected_with node_b_record)
  = (Ok true,
     emit (EvSleep 30)
       (emit (EvLog WARNING "Local internet down — Pausing monitoring loop.")
          (next_http
             (emit (EvGet GOOGLE_HEALTH_CHECK_URL 3 (Failure "network unreachable"))
                (connected_with node_b_record))))).
Proof.
  apply (offline_tick_probes_no_peer 8051 "gpu-a" hooks [node_b; node_c] true
           COLLECTION_ACTIVE offline (connected_with node_b_record)); reflexivity.
Defined.

(** X14: a second recovery of [node-b] in the second 00:01:10. *)
Lemma history_key_collision_witness :
  ∃ w' e,
    guarded "gpu-a" hooks node_b true node_b_down recovered_before = (Ok tt, w')
    ∧ crashes w' !! "10.0.0.2" = None
    ∧ crash_history w' = crash_history recovered_before
    ∧ alerts (trace w') = []
    ∧ error_logs (trace w') = ["Error processing node-b: " +:+ e].
Proof.
  apply (history_key_collision "gpu-a" hooks node_b node_b_down recovered_before
           node_b_record
           (archive_record node_b_record (midnight + 70 * us_per_second))).
  - intros k. reflexivity.
  - reflexivity.
  - vm_compute. discriminate.
  - reflexivity.
Defined.

(** X15: the alert of [node-b] is due, and the write of its time raises. *)
Lemma alert_waits_for_the_stamp_witness :
  ∃ w' r',
    guarded "gpu-a" hooks node_b false stamp_fails (connected_with node_b_record)
    = (Ok tt, w')
    ∧ alerts (trace w') = []
    ∧ crashes w' !! "10.0.0.2" = Some r'
    ∧ down_since r' = midnight
    ∧ last_alert_sent_at r' = None
    ∧ (∀ t, should_alert t r' = should_alert t node_b_record)
    ∧ error_logs (trace w') = ["Error processing node-b: connection closed"].
Proof.
  apply (alert_waits_for_the_stamp "gpu-a" hooks node_b stamp_fails
           (connected_with node_b_record) node_b_record "connection closed");
    reflexivity.
Defined.

(** X17: the mesh without [MONGO_URI]. *)
Lemma unconfigured_store_never_monitors_witness :
  ∃ w',
    lifespan 8051 "" "gpu-a" hooks [node_b; node_c] "started" 2 node_b_down at_startup
    = (Ok false, w')
    ∧ trace w' =
        [EvSleep 5; EvLog INFO "started";
         EvLog WARNING "Waiting for DB connection..."; EvSleep 30;
         EvLog WARNING "Waiting for DB connection..."; EvSleep 30]
    ∧ error_logs (trace w') = []
    ∧ n_http w' = 0%nat
    ∧ n_store w' = 0%nat.
Proof.
  apply (unconfigured_store_never_monitors 8051 "" "gpu-a" hooks [node_b; node_c]
           "started" 2 node_b_down at_startup); reflexivity.
Defined.

(** X18: the monitor without targets. *)
Lemma no_targets_no_isolation_witness :
  tick 8051 "gpu-a" hooks [] false node_b_down (connected_with node_b_record)
  = (Ok false,
     emit (EvSleep 30)
       (next_http
          (emit (EvGet GOOGLE_HEALTH_CHECK_URL 3 (Response 200))
             (connected_with node_b_record)))).
Proof.
  apply (no_targets_no_isolation 8051 "gpu-a" hooks [] COLLECTION_ACTIVE node_b_down
           (connected_with node_b_record)); reflexivity.
Defined.

(** X19: [node-b] down at 00:01:10 and back at 00:02:20. *)
Lemma incident_life_cycle_witness :
  ∃ w1 w2,
    guarded "gpu-a" hooks node_b false node_b_down at_startup = (Ok tt, w1)
    ∧ guarded "gpu-a" hooks node_b true node_b_down w1 = (Ok tt, w2)
    ∧ crashes w2 = ∅
    ∧ crash_history w2 =
        <[ "10.0.0.2_20240101_000220" :=
             {| incident := {| status := "resolved"; target_name := "node-b";
                               down_since := midnight + 70 * us_per_second;
                               last_alert_sent_at := None;
                               witnesses := ["gpu-a"] |};
                recovered_at := midnight + 140 * us_per_second |} ]> ∅
    ∧ alerts (trace w2) =
        [" *RECOVERY:* Server *node-b* (10.0.0.2) is back online." +:+ nl +:+
         " Was down for: 1 mins"].
Proof.
  apply (incident_life_cycle "gpu-a" hooks node_b node_b_down at_startup).
  - intros k. reflexivity.
  - reflexivity.
  - vm_compute. discriminate.
  - reflexivity.
Defined.

(** X21: [node-b] as the only target, silent for four ticks. *)
Lemma isolation_is_announced_once_witness :
  ∃ w',
    ticks 8051 "gpu-a" hooks [node_b] 4 false node_b_down (connected_with node_b_record)
    = (Ok true, w')
    ∧ alerts (trace w') =
        ["*MONITOR ISOLATED:* *gpu-a* cannot reach ANY peers." +:+ nl +:+
         "Please verify manually."]
    ∧ same_store (connected_with node_b_record) w'.
Proof.
  apply (isolation_is_announced_once 8051 "gpu-a" hooks [node_b] 3 node_b_down
           (connected_with node_b_record) COLLECTION_ACTIVE).
  - reflexivity.
  - discriminate.
  - intros k. reflexivity.
  - intros k target Hin. apply list_elem_of_singleton in Hin. subst target.
    reflexivity.
Defined.

(** X22: the mesh with its store up at start-up. *)
Lemma startup_with_store_witness :
  ∃ w1,
    lifespan 8051 "mongodb://db.example" "gpu-a" hooks [node_b; node_c] "started" 2
      node_b_down at_startup
    = ticks 8051 "gpu-a" hooks [node_b; node_c] 2 false node_b_down w1
    ∧ active_collection w1 = Some COLLECTION_ACTIVE
    ∧ history_collection w1 = Some COLLECTION_HISTORY
    ∧ crashes w1 = ∅
    ∧ crash_history w1 = ∅
    ∧ n_store w1 = 1%nat
    ∧ trace w1 =
        [EvConnect; EvLog INFO "MongoDB Connected!"; EvSleep 5; EvLog INFO "started"].
Proof.
  apply (startup_with_store 8051 "mongodb://db.example" "gpu-a" hooks
           [node_b; node_c] "started" 2 node_b_down at_startup);
    [discriminate | reflexivity].
Defined.
